(** * WEBGSTBILL: the invoice / purchase lifecycle engine

    A shallow embedding of the GST billing backend
    ([backend/app]): the tax engine, the sales-invoice lifecycle, the
    purchase lifecycle and the GST summary report, followed by the
    properties established about them.

    Conventions of the embedding.
    - Python [int] is [Z]; [Decimal] and [float] values are exact
      rationals [Q]. [Decimal] arithmetic is exact as long as every
      result has at most 28 significant digits, float arithmetic as long
      as every result is a binary float, and the properties whose figures
      depend on it are stated within [decimal_exact_range] and
      [float_exact_range], or with explicit bounds. [None]-able columns
      are [option].
    - [str] is [string], a sequence of characters below 256;
      [str.isdigit()] is modelled on the ASCII digits, which is what it
      accepts on ASCII strings ([is_ascii_string]).
    - A SQLAlchemy table is the list of its rows in rowid order, and
      [query(...).filter(...).first()] is [find] on that list.
    - A [Session] carries the committed database and the pending state of
      the objects loaded in the unit of work; [db.commit()] publishes the
      pending state, [db.close()] drops it.
    - [raise HTTPException(...)] is the [Err] result.
    - Columns that no operation below reads or writes ([created_at],
      [updated_at], the ids of item rows) are left out of the records. *)

From Stdlib Require Import ZArith QArith Qround Lqa Lia List String Ascii Bool.
From Stdlib Require Import DecimalString.
From Stdlib Require DecimalFacts DecimalPos DecimalN.
From Stdlib Require Import Permutation.
Import ListNotations.

Open Scope Z_scope.

(* ================================================================== *)
(** * Python primitives *)
(* ================================================================== *)

(** [round(x)] on an exact value: nearest integer, ties to the even
    neighbour (the rule of [Decimal.__round__] and of [float.__round__]). *)
Definition py_round (q : Q) : Z :=
  let n := Qnum q in
  let d := Z.pos (Qden q) in
  let f := n / d in
  match (2 * (n mod d)) ?= d with
  | Lt => f
  | Gt => f + 1
  | Eq => if Z.even f then f else f + 1
  end.

(** [int(x)]: truncation towards zero. *)
Definition py_int (q : Q) : Z :=
  if Qle_bool 0 q then Qfloor q else Qceiling q.

(** Truthiness of an optional string ([None] and [""] are falsy). *)
Definition str_truthy (s : option string) : bool :=
  match s with
  | Some s' => negb (String.eqb s' "")
  | None => false
  end.

(** Truthiness of an optional integer ([None] and [0] are falsy). *)
Definition int_truthy (z : option Z) : bool :=
  match z with
  | Some z' => negb (z' =? 0)
  | None => false
  end.

Definition is_ascii_digit (c : ascii) : bool :=
  let n := N_of_ascii c in ((48 <=? n) && (n <=? 57))%N.

Definition is_ascii_upper (c : ascii) : bool :=
  let n := N_of_ascii c in ((65 <=? n) && (n <=? 90))%N.

(** [s.isdigit()] : non-empty and made of digits only. The digits are
    the ASCII digits 0 to 9: the other characters that Python counts as
    digits lie outside ASCII. *)
Definition str_isdigit (s : string) : bool :=
  negb (String.eqb s "") && forallb is_ascii_digit (list_ascii_of_string s).

(** [f"{n:06d}"]: decimal digits, zero-padded on the left to width 6; the
    sign of a negative number takes one column of the width. *)
Fixpoint zero_pad (k : nat) (s : string) : string :=
  match k with
  | O => s
  | S k' => String "0"%char (zero_pad k' s)
  end.

Definition format_06d (n : Z) : string :=
  let digits := NilZero.string_of_uint (N.to_uint (Z.abs_N n)) in
  if n <? 0
  then String "-"%char (zero_pad (5 - String.length digits) digits)
  else zero_pad (6 - String.length digits) digits.

(* ================================================================== *)
(** * [app/utils/helpers.py] *)
(* ================================================================== *)

(** [Decimal(paise) / 100], exact for an amount of at most 28 digits. *)
Definition paise_to_rupees (paise : Z) : Q := inject_Z paise / 100.

Definition round_gst_amount (amount : Q) : Z := py_round amount.

(** [round_gst_amount(Decimal(amount) * percentage / 100)]; the product
    and the quotient are exact where they have at most 28 significant
    digits ([decimal_exact_range]). *)
Definition calculate_percentage (amount : Z) (percentage : Q) : Z :=
  round_gst_amount (inject_Z amount * percentage / 100).

(* ================================================================== *)
(** * [app/services/gst_calculator.py] *)
(* ================================================================== *)

Record TaxBreakup := mkTaxBreakup {
  taxable_amount_paise : Z;
  cgst_paise : Z;
  sgst_paise : Z;
  igst_paise : Z;
  total_tax_paise : Z;
  total_amount_paise : Z
}.

Definition calculate_gst (taxable_amount : Z) (gst_rate : Q)
    (seller_state_code buyer_state_code : string) : TaxBreakup :=
  if String.eqb seller_state_code buyer_state_code then
    let half_rate := (gst_rate / 2)%Q in
    let cgst := calculate_percentage taxable_amount half_rate in
    let sgst := calculate_percentage taxable_amount half_rate in
    {| taxable_amount_paise := taxable_amount;
       cgst_paise := cgst;
       sgst_paise := sgst;
       igst_paise := 0;
       total_tax_paise := cgst + sgst;
       total_amount_paise := taxable_amount + cgst + sgst |}
  else
    let igst := calculate_percentage taxable_amount gst_rate in
    {| taxable_amount_paise := taxable_amount;
       cgst_paise := 0;
       sgst_paise := 0;
       igst_paise := igst;
       total_tax_paise := igst;
       total_amount_paise := taxable_amount + igst |}.

Definition calculate_line_item_tax (quantity unit_price_paise : Z)
    (gst_rate : Q) (seller_state_code buyer_state_code : string)
    : TaxBreakup :=
  let taxable_amount := quantity * unit_price_paise in
  calculate_gst taxable_amount gst_rate seller_state_code buyer_state_code.

(** [sum(f(item) for item in items)] *)
Definition py_sum {A : Type} (f : A -> Z) (l : list A) : Z :=
  fold_left (fun acc x => acc + f x) l 0.

Definition aggregate_invoice_taxes (line_items : list TaxBreakup)
    : TaxBreakup :=
  let total_taxable := py_sum taxable_amount_paise line_items in
  let total_cgst := py_sum cgst_paise line_items in
  let total_sgst := py_sum sgst_paise line_items in
  let total_igst := py_sum igst_paise line_items in
  {| taxable_amount_paise := total_taxable;
     cgst_paise := total_cgst;
     sgst_paise := total_sgst;
     igst_paise := total_igst;
     total_tax_paise := total_cgst + total_sgst + total_igst;
     total_amount_paise :=
       total_taxable + total_cgst + total_sgst + total_igst |}.

(* ================================================================== *)
(** * [app/services/purchase_gst_calculator.py] *)
(* ================================================================== *)

Inductive TaxType := CGST_SGST | IGST.

Record PurchaseItemTax := mkPurchaseItemTax {
  pit_subtotal : Z;
  pit_cgst_amount : Z;
  pit_sgst_amount : Z;
  pit_igst_amount : Z;
  pit_total_amount : Z;
  pit_tax_type : TaxType
}.

(** The arithmetic is float arithmetic, [int(quantity * unit_rate)],
    [int((subtotal * gst_per_half) / 100)] and
    [int((subtotal * gst_rate) / 100)], taken exactly; it is exact within
    [float_exact_range]. *)
Definition calculate_purchase_item_tax (quantity : Q) (unit_rate : Z)
    (gst_rate : Z) (supplier_state_code : string)
    (business_state_code : option string) : PurchaseItemTax :=
  let business_state_code :=
    match business_state_code with
    | None => "29"%string
    | Some c => c
    end in
  let subtotal := py_int (quantity * inject_Z unit_rate) in
  let is_same_state := String.eqb supplier_state_code business_state_code in
  let '(cgst_amount, sgst_amount, igst_amount, tax_type) :=
    if gst_rate =? 0 then (0, 0, 0, CGST_SGST)
    else if is_same_state then
      let gst_per_half := (inject_Z gst_rate / 2)%Q in
      (py_int (inject_Z subtotal * gst_per_half / 100),
       py_int (inject_Z subtotal * gst_per_half / 100),
       0, CGST_SGST)
    else
      (0, 0, py_int (inject_Z (subtotal * gst_rate) / 100), IGST) in
  let total_tax := cgst_amount + sgst_amount + igst_amount in
  let total_amount := subtotal + total_tax in
  {| pit_subtotal := subtotal;
     pit_cgst_amount := cgst_amount;
     pit_sgst_amount := sgst_amount;
     pit_igst_amount := igst_amount;
     pit_total_amount := total_amount;
     pit_tax_type := tax_type |}.

(* ================================================================== *)
(** * Request environment *)
(* ================================================================== *)

(** [datetime.date]; dates compare as the triples (year, month, day).
    The time of day of a [DateTime] column that is compared with a date
    is not represented. *)
Record date := mkDate {
  year : Z;
  month : Z;
  day : Z
}.

Definition date_ltb (a b : date) : bool :=
  (year a <? year b)
  || ((year a =? year b)
      && ((month a <? month b)
          || ((month a =? month b) && (day a <? day b)))).

Definition date_leb (a b : date) : bool := negb (date_ltb b a).

(** What a request reads from outside the database: the settings toggle
    of [app/config.py], [date.today()] and [get_utc_now()] (a timestamp
    in seconds). *)
Record Env := mkEnv {
  gstin_checksum_enforced : bool;
  today : date;
  utc_now : Z
}.

(* ================================================================== *)
(** * [app/utils/validators.py] *)
(* ================================================================== *)

Definition char_value (c : ascii) : Z :=
  if is_ascii_digit c
  then Z.of_N (N_of_ascii c) - 48
  else Z.of_N (N_of_ascii c) - 65 + 10.

(** The weighted sum over the first 14 characters, position [i] first. *)
Fixpoint gstin_weighted_sum (i : nat) (base : list ascii) : Z :=
  match base with
  | [] => 0
  | c :: rest =>
      let value := char_value c in
      let factor := if Nat.even i then 1 else 2 in
      let product := value * factor in
      (product / 36 + product mod 36) + gstin_weighted_sum (S i) rest
  end.

Definition _validate_gstin_checksum (gstin : string) : bool :=
  let chars := list_ascii_of_string gstin in
  let base := firstn 14 chars in
  let total := gstin_weighted_sum 0 base in
  let checksum_value := (36 - total mod 36) mod 36 in
  let expected_checksum :=
    if checksum_value <? 10
    then ascii_of_N (Z.to_N (48 + checksum_value))
    else ascii_of_N (Z.to_N (65 + checksum_value - 10)) in
  match nth_error chars 14 with
  | Some checksum_char => Ascii.eqb checksum_char expected_checksum
  | None => false
  end.

(** The character classes of
    [^[0-9]{2}[A-Z]{5}[0-9]{4}[A-Z]{1}[1-9A-Z]{1}Z[0-9A-Z]{1}$]. *)
Definition gstin_pattern : list (ascii -> bool) :=
  repeat is_ascii_digit 2 ++ repeat is_ascii_upper 5 ++
  repeat is_ascii_digit 4 ++
  [ is_ascii_upper;
    (fun c => (is_ascii_digit c && negb (Ascii.eqb c "0")) || is_ascii_upper c);
    (fun c => Ascii.eqb c "Z");
    (fun c => is_ascii_digit c || is_ascii_upper c) ].

Fixpoint match_classes (classes : list (ascii -> bool)) (s : list ascii)
    : bool :=
  match classes, s with
  | [], [] => true
  | k :: classes', c :: s' => k c && match_classes classes' s'
  | _, _ => false
  end.

Definition validate_gstin (env : Env) (gstin : string) : bool :=
  if String.eqb gstin "" || negb (Nat.eqb (String.length gstin) 15)
  then false
  else if negb (match_classes gstin_pattern (list_ascii_of_string gstin))
  then false
  else if negb (gstin_checksum_enforced env) then true
  else _validate_gstin_checksum gstin.

(** [validate_hsn_code(hsn)] with the default turnover category
    ["medium"]. *)
Definition validate_hsn_code (hsn : string) : bool :=
  if negb (str_isdigit hsn) then false
  else
    let length := String.length hsn in
    Nat.eqb length 4 || Nat.eqb length 6 || Nat.eqb length 8.

Definition extract_state_code_from_gstin (env : Env) (gstin : string)
    : option string :=
  if validate_gstin env gstin then Some (String.substring 0 2 gstin)
  else None.

(* ================================================================== *)
(** * [app/models] *)
(* ================================================================== *)

Module Product.
Record t := mk {
  id : Z;
  name : string;
  description : option string;
  hsn_code : string;
  gst_rate : Q;
  price_paise : Z;
  stock_quantity : Z;
  unit : string;
  is_active : bool
}.

Definition set_stock_quantity (q : Z) (self : t) : t :=
  {| id := id self; name := name self; description := description self;
     hsn_code := hsn_code self; gst_rate := gst_rate self;
     price_paise := price_paise self; stock_quantity := q;
     unit := unit self; is_active := is_active self |}.

(** [reduce_stock]: the updated object and the returned flag. *)
Definition reduce_stock (self : t) (quantity : Z) : t * bool :=
  if stock_quantity self >=? quantity
  then (set_stock_quantity (stock_quantity self - quantity) self, true)
  else (self, false).

(** [product.is_active = False], the soft delete of the products API. *)
Definition deactivate (self : t) : t :=
  {| id := id self; name := name self; description := description self;
     hsn_code := hsn_code self; gst_rate := gst_rate self;
     price_paise := price_paise self;
     stock_quantity := stock_quantity self;
     unit := unit self; is_active := false |}.

(** [product.stock_quantity += quantity] *)
Definition add_stock (quantity : Z) (self : t) : t :=
  set_stock_quantity (stock_quantity self + quantity) self.
End Product.

Module Customer.
Record t := mk {
  id : Z;
  name : string;
  customer_type : string;
  gstin : option string;
  address : string;
  state : string;
  state_code : string;
  phone : option string;
  email : option string;
  is_active : bool
}.

Definition is_b2b (self : t) : bool := String.eqb (customer_type self) "B2B".
End Customer.

Module BusinessProfile.
Record t := mk {
  id : Z;
  name : string;
  gstin : string;
  state_code : string;
  address : string;
  city : string;
  pincode : string;
  phone : option string;
  email : option string;
  invoice_prefix : string;
  invoice_start_number : Z;
  current_invoice_number : Z
}.

(** [generate_invoice_number]: the number issued and the object with
    its counter incremented. *)
Definition generate_invoice_number (self : t) : string * t :=
  let invoice_num :=
    (invoice_prefix self ++ format_06d (current_invoice_number self))%string in
  (invoice_num,
   {| id := id self; name := name self; gstin := gstin self;
      state_code := state_code self; address := address self;
      city := city self; pincode := pincode self; phone := phone self;
      email := email self; invoice_prefix := invoice_prefix self;
      invoice_start_number := invoice_start_number self;
      current_invoice_number := current_invoice_number self + 1 |}).
End BusinessProfile.

(** The dictionaries frozen into an invoice row. *)
Record Snapshot := mkSnapshot {
  snap_id : Z;
  snap_name : string;
  snap_gstin : option string;
  snap_state_code : string;
  snap_address : string;
  snap_city : option string;
  snap_pincode : option string;
  snap_phone : option string;
  snap_email : option string
}.

Module InvoiceItem.
Record t := mk {
  product_id : option Z;
  product_name : string;
  description : option string;
  hsn_code : string;
  quantity : Z;
  unit : string;
  unit_price_paise : Z;
  gst_rate : Q;
  taxable_amount_paise : Z;
  cgst_paise : Z;
  sgst_paise : Z;
  igst_paise : Z;
  gst_amount_paise : Z;
  total_paise : Z
}.
End InvoiceItem.

Module Invoice.
Record t := mk {
  id : Z;
  invoice_number : string;
  invoice_date : date;
  place_of_supply : string;
  invoice_type : string;
  status : string;
  finalized_at : option Z;
  customer_id : Z;
  created_by : Z;
  items : list InvoiceItem.t;
  customer_snapshot : Snapshot;
  business_snapshot : Snapshot;
  subtotal_paise : Z;
  cgst_paise : Z;
  sgst_paise : Z;
  igst_paise : Z;
  total_paise : Z;
  total_taxable_value_paise : Z;
  total_gst_paise : Z;
  grand_total_paise : Z;
  round_off_paise : Z;
  is_cancelled : bool;
  cancelled_at : option Z;
  cancellation_reason : option string
}.

Definition total_gst_rupees (self : t) : Q :=
  inject_Z (total_gst_paise self) / 100.

(** [invoice.cancel(reason)] at the time [now]. *)
Definition cancel (now : Z) (reason : string) (self : t) : t :=
  {| id := id self; invoice_number := invoice_number self;
     invoice_date := invoice_date self;
     place_of_supply := place_of_supply self;
     invoice_type := invoice_type self; status := status self;
     finalized_at := finalized_at self; customer_id := customer_id self;
     created_by := created_by self; items := items self;
     customer_snapshot := customer_snapshot self;
     business_snapshot := business_snapshot self;
     subtotal_paise := subtotal_paise self; cgst_paise := cgst_paise self;
     sgst_paise := sgst_paise self; igst_paise := igst_paise self;
     total_paise := total_paise self;
     total_taxable_value_paise := total_taxable_value_paise self;
     total_gst_paise := total_gst_paise self;
     grand_total_paise := grand_total_paise self;
     round_off_paise := round_off_paise self;
     is_cancelled := true;
     cancelled_at := Some now;
     cancellation_reason := Some reason |}.

Definition set_status (st : string) (self : t) : t :=
  {| id := id self; invoice_number := invoice_number self;
     invoice_date := invoice_date self;
     place_of_supply := place_of_supply self;
     invoice_type := invoice_type self; status := st;
     finalized_at := finalized_at self; customer_id := customer_id self;
     created_by := created_by self; items := items self;
     customer_snapshot := customer_snapshot self;
     business_snapshot := business_snapshot self;
     subtotal_paise := subtotal_paise self; cgst_paise := cgst_paise self;
     sgst_paise := sgst_paise self; igst_paise := igst_paise self;
     total_paise := total_paise self;
     total_taxable_value_paise := total_taxable_value_paise self;
     total_gst_paise := total_gst_paise self;
     grand_total_paise := grand_total_paise self;
     round_off_paise := round_off_paise self;
     is_cancelled := is_cancelled self;
     cancelled_at := cancelled_at self;
     cancellation_reason := cancellation_reason self |}.
End Invoice.

Module PurchaseItem.
Record t := mk {
  item_name : string;
  hsn_code : string;
  quantity : Q;
  rate : Z;
  gst_rate : Z;
  taxable_value : Z;
  gst_amount : Z;
  cgst_amount : Z;
  sgst_amount : Z;
  igst_amount : Z;
  total_amount : Z;
  tax_type : TaxType
}.
End PurchaseItem.

Module PurchaseInvoice.
Record t := mk {
  id : Z;
  supplier_id : Z;
  supplier_invoice_no : string;
  supplier_invoice_date : date;
  purchase_date : date;
  place_of_supply : string;
  place_of_supply_code : string;
  total_quantity : Q;
  subtotal_value : Z;
  cgst_amount : Z;
  sgst_amount : Z;
  igst_amount : Z;
  total_gst : Z;
  total_amount : Z;
  status : string;
  cancel_reason : option string;
  is_active : bool;
  finalized_at : option Z;
  cancelled_at : option Z;
  items : list PurchaseItem.t
}.

(** [purchase.status = "Finalized"; purchase.finalized_at = now] of
    [finalize_purchase]. *)
Definition finalize (now : Z) (self : t) : t :=
  {| id := id self; supplier_id := supplier_id self;
     supplier_invoice_no := supplier_invoice_no self;
     supplier_invoice_date := supplier_invoice_date self;
     purchase_date := purchase_date self;
     place_of_supply := place_of_supply self;
     place_of_supply_code := place_of_supply_code self;
     total_quantity := total_quantity self;
     subtotal_value := subtotal_value self;
     cgst_amount := cgst_amount self; sgst_amount := sgst_amount self;
     igst_amount := igst_amount self; total_gst := total_gst self;
     total_amount := total_amount self;
     status := "Finalized";
     cancel_reason := cancel_reason self; is_active := is_active self;
     finalized_at := Some now;
     cancelled_at := cancelled_at self; items := items self |}.
End PurchaseInvoice.

Module Supplier.
Record t := mk {
  id : Z;
  name : string;
  state : string;
  state_code : string;
  is_active : bool
}.
End Supplier.

(* ================================================================== *)
(** * [app/schemas/invoice.py] *)
(* ================================================================== *)

Module InvoiceItemCreate.
Record t := mk {
  product_id : Z;
  quantity : Z;
  description : option string
}.
End InvoiceItemCreate.

(** Client totals for tamper detection, in rupees. *)
Module InvoiceTotalsInput.
Record t := mk {
  total_taxable_value : Q;
  total_gst : Q;
  grand_total : Q
}.
End InvoiceTotalsInput.

Module InvoiceCreate.
Record t := mk {
  customer_id : Z;
  invoice_date : date;
  place_of_supply : option string;
  items : list InvoiceItemCreate.t;
  client_totals : option InvoiceTotalsInput.t
}.
End InvoiceCreate.

(* ================================================================== *)
(** * Exceptions *)
(* ================================================================== *)

(** The [detail] of each [raise] site, with the values it interpolates. *)
Inductive Detail :=
| InvoiceDateInFuture
| InvalidBusinessStateCode
| BusinessProfileNotConfigured
| CustomerNotFound (customer_id : Z)
| B2BCustomerWithoutGstin
| GstinStateCodeMismatch
| B2CCustomerWithGstin
| PlaceOfSupplyMismatch
| ProductNotFound (product_id : Z)
| InvalidGstRate (rate : Q)
| InvalidHsnCode
| NegativePrice
| InsufficientStock (product_name : string) (available required : Z)
| TotalsMismatch
| InvoiceNotFound (invoice_id : Z)
| InvoiceAlreadyCancelled (invoice_number : string)
| SupplierNotFound
| PurchaseNotFound
| PurchaseAlreadyFinalized
| PurchaseIsCancelled
| MissingProductsForHsn (unique_missing : list string)
| NoSuchAttribute (attribute : string).

(** [HTTPException(status_code, detail)]; an uncaught [AttributeError]
    reaches the client as status 500. *)
Record HTTPException := mkHTTPException {
  status_code : Z;
  detail : Detail
}.

Definition HTTP_400_BAD_REQUEST : Z := 400.
Definition HTTP_404_NOT_FOUND : Z := 404.

Inductive result (A : Type) :=
| Ok (a : A)
| Err (e : HTTPException).
Arguments Ok {A} a.
Arguments Err {A} e.

(** The error kinds under which the design groups the [raise] sites. *)
Inductive ErrorKind := VALIDATION | NOT_FOUND | CONFLICT | INSUFFICIENT_RESOURCE
                     | INTERNAL.

Definition error_kind (e : HTTPException) : ErrorKind :=
  match detail e with
  | CustomerNotFound _ | ProductNotFound _ | InvoiceNotFound _
  | SupplierNotFound | PurchaseNotFound => NOT_FOUND
  | InvoiceAlreadyCancelled _ | PurchaseAlreadyFinalized
  | PurchaseIsCancelled => CONFLICT
  | InsufficientStock _ _ _ => INSUFFICIENT_RESOURCE
  | NoSuchAttribute _ => INTERNAL
  | _ => VALIDATION
  end.

(* ================================================================== *)
(** * [app/database.py]: the database and the session *)
(* ================================================================== *)

Record Database := mkDatabase {
  products : list Product.t;
  customers : list Customer.t;
  suppliers : list Supplier.t;
  business_profile : option BusinessProfile.t;
  invoices : list Invoice.t;
  purchase_invoices : list PurchaseInvoice.t
}.

Definition set_products (ps : list Product.t) (db : Database) : Database :=
  {| products := ps; customers := customers db; suppliers := suppliers db;
     business_profile := business_profile db; invoices := invoices db;
     purchase_invoices := purchase_invoices db |}.

Definition set_business_profile (b : option BusinessProfile.t)
    (db : Database) : Database :=
  {| products := products db; customers := customers db;
     suppliers := suppliers db; business_profile := b;
     invoices := invoices db; purchase_invoices := purchase_invoices db |}.

Definition set_invoices (l : list Invoice.t) (db : Database) : Database :=
  {| products := products db; customers := customers db;
     suppliers := suppliers db; business_profile := business_profile db;
     invoices := l; purchase_invoices := purchase_invoices db |}.

Definition set_purchase_invoices (l : list PurchaseInvoice.t)
    (db : Database) : Database :=
  {| products := products db; customers := customers db;
     suppliers := suppliers db; business_profile := business_profile db;
     invoices := invoices db; purchase_invoices := l |}.

(** A unit of work: what the database holds, and the state of the loaded
    objects as the request has mutated them so far. *)
Record Session := mkSession {
  committed : Database;
  pending : Database
}.

(** [SessionLocal()] *)
Definition SessionLocal (db : Database) : Session :=
  {| committed := db; pending := db |}.

(** A computation that runs against a session and returns or raises. *)
Definition M (A : Type) : Type := Session -> Session * result A.

Definition ret {A : Type} (a : A) : M A := fun s => (s, Ok a).

Definition raise {A : Type} (status : Z) (d : Detail) : M A :=
  fun s => (s, Err {| status_code := status; detail := d |}).

Definition bind {A B : Type} (m : M A) (k : A -> M B) : M B :=
  fun s =>
    match m s with
    | (s', Ok a) => k a s'
    | (s', Err e) => (s', Err e)
    end.

Notation "x <- m ;; k" := (bind m (fun x => k))
  (at level 61, m at next level, right associativity).
Notation "m ;;; k" := (bind m (fun _ => k))
  (at level 61, right associativity).

(** Reading through the session sees the pending state of loaded rows. *)
Definition query {A : Type} (f : Database -> A) : M A :=
  fun s => (s, Ok (f (pending s))).

(** Mutating loaded objects (or [db.add]) touches the pending state only. *)
Definition mutate (f : Database -> Database) : M unit :=
  fun s => ({| committed := committed s; pending := f (pending s) |}, Ok tt).

(** [db.commit()] *)
Definition db_commit : M unit :=
  fun s => ({| committed := pending s; pending := pending s |}, Ok tt).

(** [get_db]: open a session, run the request, and [db.close()] in the
    [finally] clause, whether the request returned or raised; closing
    rolls back what was not committed, so the database that remains is the
    committed one. *)
Definition get_db {A : Type} (request : M A) (db : Database)
    : Database * result A :=
  let (s, r) := request (SessionLocal db) in (committed s, r).

(** The first row satisfying [p] is replaced by [g] of it. *)
Fixpoint update_first {A : Type} (p : A -> bool) (g : A -> A) (l : list A)
    : list A :=
  match l with
  | [] => []
  | x :: rest => if p x then g x :: rest else x :: update_first p g rest
  end.

(** The integer primary key given to a new row. *)
Definition next_id (ids : list Z) : Z := 1 + fold_right Z.max 0 ids.

(* ================================================================== *)
(** * [app/services/invoice_service.py] *)
(* ================================================================== *)

Definition ALLOWED_GST_RATES : list Q := [0; 5; 12; 18; 28]%Q.

(** [rate in ALLOWED_GST_RATES]; decimals compare by value. *)
Definition in_allowed_gst_rates (rate : Q) : bool :=
  existsb (Qeq_bool rate) ALLOWED_GST_RATES.

Definition check (bad : bool) (status : Z) (d : Detail) : M unit :=
  if bad then raise status d else ret tt.

Definition _validate_invoice_date (env : Env) (invoice_date : date)
    : M unit :=
  check (date_ltb (today env) invoice_date)
        HTTP_400_BAD_REQUEST InvoiceDateInFuture.

Definition _validate_business_profile (business : BusinessProfile.t)
    : M unit :=
  check (String.eqb (BusinessProfile.state_code business) ""
         || negb (Nat.eqb (String.length (BusinessProfile.state_code business)) 2))
        HTTP_400_BAD_REQUEST InvalidBusinessStateCode.

Definition option_string_eqb (a b : option string) : bool :=
  match a, b with
  | Some x, Some y => String.eqb x y
  | None, None => true
  | _, _ => false
  end.

Definition _validate_customer_for_invoice (env : Env) (customer : Customer.t)
    : M unit :=
  if Customer.is_b2b customer then
    match Customer.gstin customer with
    | Some gstin =>
        if String.eqb gstin "" then
          raise HTTP_400_BAD_REQUEST B2BCustomerWithoutGstin
        else
          let gst_state := extract_state_code_from_gstin env gstin in
          check (negb (option_string_eqb gst_state
                         (Some (Customer.state_code customer))))
                HTTP_400_BAD_REQUEST GstinStateCodeMismatch
    | None => raise HTTP_400_BAD_REQUEST B2BCustomerWithoutGstin
    end
  else
    check (str_truthy (Customer.gstin customer))
          HTTP_400_BAD_REQUEST B2CCustomerWithGstin.

Definition _validate_product_for_invoice (product : Product.t) : M unit :=
  check (negb (in_allowed_gst_rates (Product.gst_rate product)))
        HTTP_400_BAD_REQUEST (InvalidGstRate (Product.gst_rate product)) ;;;
  check (negb (validate_hsn_code (Product.hsn_code product)))
        HTTP_400_BAD_REQUEST InvalidHsnCode ;;;
  check (Product.price_paise product <? 0)
        HTTP_400_BAD_REQUEST NegativePrice.

Definition _validate_client_totals
    (client_totals : option InvoiceTotalsInput.t) (computed : TaxBreakup)
    : M unit :=
  match client_totals with
  | None => ret tt
  | Some totals =>
      let taxable_rupees := (inject_Z (taxable_amount_paise computed) / 100)%Q in
      let gst_rupees := (inject_Z (total_tax_paise computed) / 100)%Q in
      let grand_rupees := (inject_Z (total_amount_paise computed) / 100)%Q in
      check (negb (Qeq_bool taxable_rupees
                     (InvoiceTotalsInput.total_taxable_value totals))
             || negb (Qeq_bool gst_rupees (InvoiceTotalsInput.total_gst totals))
             || negb (Qeq_bool grand_rupees
                        (InvoiceTotalsInput.grand_total totals)))
            HTTP_400_BAD_REQUEST TotalsMismatch
  end.

Definition _create_customer_snapshot (customer : Customer.t) : Snapshot :=
  {| snap_id := Customer.id customer;
     snap_name := Customer.name customer;
     snap_gstin := Customer.gstin customer;
     snap_state_code := Customer.state_code customer;
     snap_address := Customer.address customer;
     snap_city := None;
     snap_pincode := None;
     snap_phone := Customer.phone customer;
     snap_email := Customer.email customer |}.

Definition _create_business_snapshot (business : BusinessProfile.t)
    : Snapshot :=
  {| snap_id := BusinessProfile.id business;
     snap_name := BusinessProfile.name business;
     snap_gstin := Some (BusinessProfile.gstin business);
     snap_state_code := BusinessProfile.state_code business;
     snap_address := BusinessProfile.address business;
     snap_city := Some (BusinessProfile.city business);
     snap_pincode := Some (BusinessProfile.pincode business);
     snap_phone := BusinessProfile.phone business;
     snap_email := BusinessProfile.email business |}.

(** The filter [Product.id == product_id, Product.is_active == True]. *)
Definition active_product_with_id (product_id : Z) (p : Product.t) : bool :=
  (Product.id p =? product_id) && Product.is_active p.

(** The filter [Product.id == product_id]. *)
Definition product_with_id (product_id : Z) (p : Product.t) : bool :=
  Product.id p =? product_id.

(** The snapshot row built for one line. *)
Definition make_invoice_item (item_data : InvoiceItemCreate.t)
    (product : Product.t) (tax_breakup : TaxBreakup) : InvoiceItem.t :=
  {| InvoiceItem.product_id := Some (Product.id product);
     InvoiceItem.product_name := Product.name product;
     InvoiceItem.description :=
       if str_truthy (InvoiceItemCreate.description item_data)
       then InvoiceItemCreate.description item_data
       else Product.description product;
     InvoiceItem.hsn_code := Product.hsn_code product;
     InvoiceItem.quantity := InvoiceItemCreate.quantity item_data;
     InvoiceItem.unit := Product.unit product;
     InvoiceItem.unit_price_paise := Product.price_paise product;
     InvoiceItem.gst_rate := Product.gst_rate product;
     InvoiceItem.taxable_amount_paise := taxable_amount_paise tax_breakup;
     InvoiceItem.cgst_paise := cgst_paise tax_breakup;
     InvoiceItem.sgst_paise := sgst_paise tax_breakup;
     InvoiceItem.igst_paise := igst_paise tax_breakup;
     InvoiceItem.gst_amount_paise := total_tax_paise tax_breakup;
     InvoiceItem.total_paise := total_amount_paise tax_breakup |}.

(** The loop [for item_data in invoice_data.items] of [create_invoice],
    from the lines still to process and the two lists built so far.
    [product.reduce_stock] updates the loaded product in place, so the
    row that the query returned is rewritten in the pending state; a
    later line on the same product sees the reduced stock. *)
Fixpoint process_items (business : BusinessProfile.t) (customer : Customer.t)
    (items : list InvoiceItemCreate.t)
    (line_tax_breakups : list TaxBreakup) (invoice_items : list InvoiceItem.t)
    : M (list TaxBreakup * list InvoiceItem.t) :=
  match items with
  | [] => ret (line_tax_breakups, invoice_items)
  | item_data :: rest =>
      let pid := InvoiceItemCreate.product_id item_data in
      let quantity := InvoiceItemCreate.quantity item_data in
      found <- query (fun db => find (active_product_with_id pid) (products db)) ;;
      match found with
      | None => raise HTTP_404_NOT_FOUND (ProductNotFound pid)
      | Some product =>
          _validate_product_for_invoice product ;;;
          let (product', sufficient) := Product.reduce_stock product quantity in
          mutate (fun db =>
            set_products (update_first (active_product_with_id pid)
                                       (fun _ => product') (products db)) db) ;;;
          if negb sufficient then
            raise HTTP_400_BAD_REQUEST
                  (InsufficientStock (Product.name product)
                                     (Product.stock_quantity product) quantity)
          else
            let tax_breakup :=
              calculate_line_item_tax quantity
                (Product.price_paise product) (Product.gst_rate product)
                (BusinessProfile.state_code business)
                (Customer.state_code customer) in
            process_items business customer rest
              (line_tax_breakups ++ [tax_breakup])
              (invoice_items ++ [make_invoice_item item_data product tax_breakup])
      end
  end.

Definition create_invoice (env : Env) (invoice_data : InvoiceCreate.t)
    (current_user_id : Z) (business : BusinessProfile.t) : M Invoice.t :=
  _validate_invoice_date env (InvoiceCreate.invoice_date invoice_data) ;;;
  _validate_business_profile business ;;;
  found <- query (fun db =>
    find (fun c => (Customer.id c =? InvoiceCreate.customer_id invoice_data)
                   && Customer.is_active c) (customers db)) ;;
  match found with
  | None =>
      raise HTTP_404_NOT_FOUND
            (CustomerNotFound (InvoiceCreate.customer_id invoice_data))
  | Some customer =>
      _validate_customer_for_invoice env customer ;;;
      let place_of_supply :=
        match InvoiceCreate.place_of_supply invoice_data with
        | Some p => if String.eqb p "" then Customer.state_code customer else p
        | None => Customer.state_code customer
        end in
      let customer_snapshot := _create_customer_snapshot customer in
      let business_snapshot := _create_business_snapshot business in
      check (negb (String.eqb place_of_supply (Customer.state_code customer)))
            HTTP_400_BAD_REQUEST PlaceOfSupplyMismatch ;;;
      lines <- process_items business customer
                 (InvoiceCreate.items invoice_data) [] [] ;;
      let (line_tax_breakups, invoice_items) := lines in
      let invoice_totals := aggregate_invoice_taxes line_tax_breakups in
      _validate_client_totals (InvoiceCreate.client_totals invoice_data)
                              invoice_totals ;;;
      (* business.generate_invoice_number() increments the loaded row *)
      let (invoice_number, business') :=
        BusinessProfile.generate_invoice_number business in
      mutate (set_business_profile (Some business')) ;;;
      (* db.add(invoice); db.commit(); db.refresh(invoice) *)
      new_id <- query (fun db => next_id (map Invoice.id (invoices db))) ;;
      let invoice :=
        {| Invoice.id := new_id;
           Invoice.invoice_number := invoice_number;
           Invoice.invoice_date := InvoiceCreate.invoice_date invoice_data;
           Invoice.place_of_supply := place_of_supply;
           Invoice.invoice_type := "TAX_INVOICE";
           Invoice.status := "FINAL";
           Invoice.finalized_at := Some (utc_now env);
           Invoice.customer_id := Customer.id customer;
           Invoice.created_by := current_user_id;
           Invoice.items := invoice_items;
           Invoice.customer_snapshot := customer_snapshot;
           Invoice.business_snapshot := business_snapshot;
           Invoice.subtotal_paise := taxable_amount_paise invoice_totals;
           Invoice.cgst_paise := cgst_paise invoice_totals;
           Invoice.sgst_paise := sgst_paise invoice_totals;
           Invoice.igst_paise := igst_paise invoice_totals;
           Invoice.total_paise := total_amount_paise invoice_totals;
           Invoice.total_taxable_value_paise :=
             taxable_amount_paise invoice_totals;
           Invoice.total_gst_paise := total_tax_paise invoice_totals;
           Invoice.grand_total_paise := total_amount_paise invoice_totals;
           Invoice.round_off_paise := 0;
           Invoice.is_cancelled := false;
           Invoice.cancelled_at := None;
           Invoice.cancellation_reason := None |} in
      mutate (fun db => set_invoices (invoices db ++ [invoice]) db) ;;;
      db_commit ;;;
      ret invoice
  end.

(** The loop [for item in invoice.items] of [cancel_invoice]. *)
Fixpoint restore_stock (items : list InvoiceItem.t) : M unit :=
  match items with
  | [] => ret tt
  | item :: rest =>
      (if int_truthy (InvoiceItem.product_id item) then
         let pid := match InvoiceItem.product_id item with
                    | Some z => z
                    | None => 0
                    end in
         found <- query (fun db => find (product_with_id pid) (products db)) ;;
         match found with
         | Some _ =>
             mutate (fun db =>
               set_products
                 (update_first (product_with_id pid)
                    (Product.add_stock (InvoiceItem.quantity item))
                    (products db)) db)
         | None => ret tt
         end
       else ret tt) ;;;
      restore_stock rest
  end.

Definition invoice_with_id (invoice_id : Z) (i : Invoice.t) : bool :=
  Invoice.id i =? invoice_id.

Definition cancel_invoice (env : Env) (invoice_id : Z) (reason : string)
    : M Invoice.t :=
  found <- query (fun db => find (invoice_with_id invoice_id) (invoices db)) ;;
  match found with
  | None => raise HTTP_404_NOT_FOUND (InvoiceNotFound invoice_id)
  | Some invoice =>
      check (Invoice.is_cancelled invoice) HTTP_400_BAD_REQUEST
            (InvoiceAlreadyCancelled (Invoice.invoice_number invoice)) ;;;
      restore_stock (Invoice.items invoice) ;;;
      let invoice' :=
        Invoice.set_status "CANCELLED"
          (Invoice.cancel (utc_now env) reason invoice) in
      mutate (fun db =>
        set_invoices (update_first (invoice_with_id invoice_id)
                                   (fun _ => invoice') (invoices db)) db) ;;;
      db_commit ;;;
      ret invoice'
  end.

(* ================================================================== *)
(** * [app/api/invoices.py] *)
(* ================================================================== *)

Definition get_business : M BusinessProfile.t :=
  found <- query business_profile ;;
  match found with
  | None => raise HTTP_400_BAD_REQUEST BusinessProfileNotConfigured
  | Some business => ret business
  end.

(** [POST /]: the route, with its session from [get_db]. *)
Definition api_create_invoice (env : Env) (current_user_id : Z)
    (invoice_data : InvoiceCreate.t) (db : Database)
    : Database * result Invoice.t :=
  get_db (business <- get_business ;;
          create_invoice env invoice_data current_user_id business) db.

(** [POST /{invoice_id}/cancel] *)
Definition api_cancel_invoice (env : Env) (invoice_id : Z) (reason : string)
    (db : Database) : Database * result Invoice.t :=
  get_db (cancel_invoice env invoice_id reason) db.

(* ================================================================== *)
(** * [app/schemas/purchase.py] and [app/api/purchases.py] *)
(* ================================================================== *)

Module PurchaseItemInput.
Record t := mk {
  item_name : string;
  hsn_code : string;
  quantity : Q;
  rate : Z;
  gst_rate : Z
}.
End PurchaseItemInput.

Module PurchaseInvoiceCreate.
Record t := mk {
  supplier_id : Z;
  supplier_invoice_no : string;
  supplier_invoice_date : date;
  purchase_date : date;
  items : list PurchaseItemInput.t
}.
End PurchaseInvoiceCreate.

(** The row built for one purchase line, from the tax computed for it. *)
Definition make_purchase_item (item_input : PurchaseItemInput.t)
    (item_tax : PurchaseItemTax) : PurchaseItem.t :=
  {| PurchaseItem.item_name := PurchaseItemInput.item_name item_input;
     PurchaseItem.hsn_code := PurchaseItemInput.hsn_code item_input;
     PurchaseItem.quantity := PurchaseItemInput.quantity item_input;
     PurchaseItem.rate := PurchaseItemInput.rate item_input;
     PurchaseItem.gst_rate := PurchaseItemInput.gst_rate item_input;
     PurchaseItem.taxable_value := pit_subtotal item_tax;
     PurchaseItem.gst_amount :=
       pit_cgst_amount item_tax + pit_sgst_amount item_tax
       + pit_igst_amount item_tax;
     PurchaseItem.cgst_amount := pit_cgst_amount item_tax;
     PurchaseItem.sgst_amount := pit_sgst_amount item_tax;
     PurchaseItem.igst_amount := pit_igst_amount item_tax;
     PurchaseItem.total_amount := pit_total_amount item_tax;
     PurchaseItem.tax_type := pit_tax_type item_tax |}.

(** The tax of one line of [create_purchase_invoice]. *)
Definition purchase_line_tax (supplier : Supplier.t)
    (business_state_code : string) (item_input : PurchaseItemInput.t)
    : PurchaseItemTax :=
  calculate_purchase_item_tax
    (PurchaseItemInput.quantity item_input)
    (PurchaseItemInput.rate item_input)
    (PurchaseItemInput.gst_rate item_input)
    (Supplier.state_code supplier)
    (Some business_state_code).

Definition create_purchase_invoice (purchase : PurchaseInvoiceCreate.t)
    : M PurchaseInvoice.t :=
  found <- query (fun db =>
    find (fun s => (Supplier.id s =? PurchaseInvoiceCreate.supplier_id purchase)
                   && Supplier.is_active s) (suppliers db)) ;;
  match found with
  | None => raise HTTP_404_NOT_FOUND SupplierNotFound
  | Some supplier =>
      business <- query business_profile ;;
      let business_state_code :=
        match business with
        | Some b => if String.eqb (BusinessProfile.state_code b) ""
                    then "29"%string else BusinessProfile.state_code b
        | None => "29"%string
        end in
      let taxes :=
        map (fun item_input =>
               (item_input,
                purchase_line_tax supplier business_state_code item_input))
            (PurchaseInvoiceCreate.items purchase) in
      let total_quantity :=
        fold_left (fun acc it => (acc + PurchaseItemInput.quantity (fst it))%Q)
                  taxes 0%Q in
      let subtotal_value := py_sum (fun it => pit_subtotal (snd it)) taxes in
      let cgst_total := py_sum (fun it => pit_cgst_amount (snd it)) taxes in
      let sgst_total := py_sum (fun it => pit_sgst_amount (snd it)) taxes in
      let igst_total := py_sum (fun it => pit_igst_amount (snd it)) taxes in
      new_id <- query (fun db =>
                  next_id (map PurchaseInvoice.id (purchase_invoices db))) ;;
      let db_purchase :=
        {| PurchaseInvoice.id := new_id;
           PurchaseInvoice.supplier_id :=
             PurchaseInvoiceCreate.supplier_id purchase;
           PurchaseInvoice.supplier_invoice_no :=
             PurchaseInvoiceCreate.supplier_invoice_no purchase;
           PurchaseInvoice.supplier_invoice_date :=
             PurchaseInvoiceCreate.supplier_invoice_date purchase;
           PurchaseInvoice.purchase_date :=
             PurchaseInvoiceCreate.purchase_date purchase;
           PurchaseInvoice.place_of_supply := Supplier.state supplier;
           PurchaseInvoice.place_of_supply_code := Supplier.state_code supplier;
           PurchaseInvoice.total_quantity := total_quantity;
           PurchaseInvoice.subtotal_value := subtotal_value;
           PurchaseInvoice.cgst_amount := cgst_total;
           PurchaseInvoice.sgst_amount := sgst_total;
           PurchaseInvoice.igst_amount := igst_total;
           PurchaseInvoice.total_gst := cgst_total + sgst_total + igst_total;
           PurchaseInvoice.total_amount :=
             subtotal_value + (cgst_total + sgst_total + igst_total);
           PurchaseInvoice.status := "Draft";
           PurchaseInvoice.cancel_reason := None;
           PurchaseInvoice.is_active := true;
           PurchaseInvoice.finalized_at := None;
           PurchaseInvoice.cancelled_at := None;
           PurchaseInvoice.items :=
             map (fun it => make_purchase_item (fst it) (snd it)) taxes |} in
      mutate (fun db =>
        set_purchase_invoices (purchase_invoices db ++ [db_purchase]) db) ;;;
      db_commit ;;;
      ret db_purchase
  end.

(** The filter [Product.hsn_code == hsn, Product.is_active == True]. *)
Definition active_product_with_hsn (hsn : string) (p : Product.t) : bool :=
  String.eqb (Product.hsn_code p) hsn && Product.is_active p.

(** [sorted(set(l))] on strings. *)
Fixpoint insert_unique (s : string) (l : list string) : list string :=
  match l with
  | [] => [s]
  | x :: rest =>
      match String.compare s x with
      | Lt => s :: l
      | Eq => l
      | Gt => x :: insert_unique s rest
      end
  end.

Definition sorted_set (l : list string) : list string :=
  fold_right insert_unique [] l.

(** The first loop of [finalize_purchase]: the HSN codes of the lines with
    no active product, in line order. *)
Definition missing_hsns (ps : list Product.t) (items : list PurchaseItem.t)
    : list string :=
  map PurchaseItem.hsn_code
    (filter (fun item =>
               match find (active_product_with_hsn (PurchaseItem.hsn_code item)) ps
               with
               | Some _ => false
               | None => true
               end) items).

(** The second loop of [finalize_purchase]. *)
Fixpoint receive_stock (items : list PurchaseItem.t) : M unit :=
  match items with
  | [] => ret tt
  | item :: rest =>
      let hsn := PurchaseItem.hsn_code item in
      found <- query (fun db => find (active_product_with_hsn hsn) (products db)) ;;
      match found with
      | Some _ =>
          mutate (fun db =>
            set_products
              (update_first (active_product_with_hsn hsn)
                 (Product.add_stock (py_int (PurchaseItem.quantity item)))
                 (products db)) db)
      | None => ret tt
      end ;;;
      receive_stock rest
  end.

Definition purchase_with_id (purchase_id : Z) (p : PurchaseInvoice.t) : bool :=
  PurchaseInvoice.id p =? purchase_id.

Definition finalize_purchase (env : Env) (purchase_id : Z)
    : M PurchaseInvoice.t :=
  found <- query (fun db =>
             find (purchase_with_id purchase_id) (purchase_invoices db)) ;;
  match found with
  | None => raise HTTP_404_NOT_FOUND PurchaseNotFound
  | Some purchase =>
      check (String.eqb (PurchaseInvoice.status purchase) "Finalized")
            HTTP_400_BAD_REQUEST PurchaseAlreadyFinalized ;;;
      check (String.eqb (PurchaseInvoice.status purchase) "Cancelled")
            HTTP_400_BAD_REQUEST PurchaseIsCancelled ;;;
      missing <- query (fun db =>
                   missing_hsns (products db) (PurchaseInvoice.items purchase)) ;;
      match missing with
      | _ :: _ =>
          raise HTTP_400_BAD_REQUEST (MissingProductsForHsn (sorted_set missing))
      | [] =>
          receive_stock (PurchaseInvoice.items purchase) ;;;
          let purchase' := PurchaseInvoice.finalize (utc_now env) purchase in
          mutate (fun db =>
            set_purchase_invoices
              (update_first (purchase_with_id purchase_id)
                            (fun _ => purchase') (purchase_invoices db)) db) ;;;
          db_commit ;;;
          ret purchase'
      end
  end.

(** [POST /{purchase_id}/finalize] *)
Definition api_finalize_purchase (env : Env) (purchase_id : Z)
    (db : Database) : Database * result PurchaseInvoice.t :=
  get_db (finalize_purchase env purchase_id) db.

(* ================================================================== *)
(** * [app/services/report_service.py] *)
(* ================================================================== *)

(** [GSTSummaryOutput] and [GSTSummaryInput], in rupees. *)
Record GSTSummaryAmounts := mkGSTSummaryAmounts {
  gs_cgst : Q;
  gs_sgst : Q;
  gs_igst : Q;
  gs_total : Q
}.

Record GSTSummaryResponse := mkGSTSummaryResponse {
  gs_month : Z;
  gs_year : Z;
  output_gst : GSTSummaryAmounts;
  input_gst : GSTSummaryAmounts;
  sales_count : nat;
  purchase_count : nat
}.

(** [round(x, 2)] on a float, taken as rounding the exact value to
    hundredths; the two agree on every sum of whole-paise amounts, which
    has a hundredth nearest to it by far, and may differ where the exact
    value lies halfway between two hundredths. *)
Definition py_round2 (x : Q) : Q := (inject_Z (py_round (x * 100)) / 100)%Q.

Definition in_period (from_date to_date d : date) : bool :=
  date_leb from_date d && date_leb d to_date.

(** [business and place_of_supply == business.state_code] *)
Definition is_intra_state (business : option BusinessProfile.t)
    (place_of_supply : string) : bool :=
  match business with
  | Some b => String.eqb place_of_supply (BusinessProfile.state_code b)
  | None => false
  end.

(** The loop [for inv in sales] of [generate_gst_summary], from the
    accumulators (cgst, sgst, igst). *)
Definition accumulate_output (business : option BusinessProfile.t)
    (sales : list Invoice.t) : Q * Q * Q :=
  fold_left
    (fun acc inv =>
       let '(output_cgst, output_sgst, output_igst) := acc in
       if is_intra_state business (Invoice.place_of_supply inv)
       then ((output_cgst + Invoice.total_gst_rupees inv / 2)%Q,
             (output_sgst + Invoice.total_gst_rupees inv / 2)%Q,
             output_igst)
       else (output_cgst, output_sgst,
             (output_igst + Invoice.total_gst_rupees inv)%Q))
    sales (0%Q, 0%Q, 0%Q).

(** The loop [for purchase in purchases]: both of its branches read
    [purchase.total_gst_rupees], an attribute that [PurchaseInvoice] does
    not define, so the first iteration raises [AttributeError]. *)
Definition accumulate_input (business : option BusinessProfile.t)
    (purchases : list PurchaseInvoice.t) : result (Q * Q * Q) :=
  match purchases with
  | [] => Ok (0%Q, 0%Q, 0%Q)
  | _ :: _ =>
      Err {| status_code := 500;
             detail := NoSuchAttribute "total_gst_rupees" |}
  end.

Definition generate_gst_summary (db : Database) (from_date to_date : date)
    : result GSTSummaryResponse :=
  let sales :=
    filter (fun inv => in_period from_date to_date (Invoice.invoice_date inv)
                       && String.eqb (Invoice.status inv) "FINAL")
           (invoices db) in
  let purchases :=
    filter (fun p => in_period from_date to_date (PurchaseInvoice.purchase_date p)
                     && String.eqb (PurchaseInvoice.status p) "FINAL")
           (purchase_invoices db) in
  let business := business_profile db in
  let '(output_cgst, output_sgst, output_igst) :=
    accumulate_output business sales in
  match accumulate_input business purchases with
  | Err e => Err e
  | Ok (input_cgst, input_sgst, input_igst) =>
      Ok {| gs_month := month to_date;
            gs_year := year to_date;
            output_gst :=
              {| gs_cgst := py_round2 output_cgst;
                 gs_sgst := py_round2 output_sgst;
                 gs_igst := py_round2 output_igst;
                 gs_total :=
                   py_round2 (output_cgst + output_sgst + output_igst) |};
            input_gst :=
              {| gs_cgst := py_round2 input_cgst;
                 gs_sgst := py_round2 input_sgst;
                 gs_igst := py_round2 input_igst;
                 gs_total :=
                   py_round2 (input_cgst + input_sgst + input_igst) |};
            sales_count := List.length sales;
            purchase_count := List.length purchases |}
  end.

(** The purchases of a period that the lifecycle has finalized, and the
    total GST stored on them, in paise. *)
Definition finalized_purchases (db : Database) (from_date to_date : date)
    : list PurchaseInvoice.t :=
  filter (fun p => in_period from_date to_date (PurchaseInvoice.purchase_date p)
                   && String.eqb (PurchaseInvoice.status p) "Finalized")
         (purchase_invoices db).

Definition stored_input_gst_paise (db : Database) (from_date to_date : date)
    : Z :=
  py_sum PurchaseInvoice.total_gst (finalized_purchases db from_date to_date).

(* ================================================================== *)
(** * Further functions of the same modules *)
(* ================================================================== *)

(** [helpers.rupees_to_paise] on a [Decimal] argument, for which
    [Decimal(str(rupees))] is the argument itself. *)
Definition rupees_to_paise (rupees : Q) : Z := py_int (rupees * 100).

(** [Invoice.is_interstate] *)
Definition is_interstate (self : Invoice.t) : bool :=
  Invoice.igst_paise self >? 0.

(** [invoice_service.get_invoice_by_id] and [get_invoice_by_number] *)
Definition get_invoice_by_id (invoice_id : Z) : M (option Invoice.t) :=
  query (fun db => find (invoice_with_id invoice_id) (invoices db)).

Definition get_invoice_by_number (invoice_number : string)
    : M (option Invoice.t) :=
  query (fun db =>
    find (fun i => String.eqb (Invoice.invoice_number i) invoice_number)
         (invoices db)).

(** The result dictionary of
    [purchase_gst_calculator.calculate_purchase_invoice_totals]. *)
Record PurchaseTotals := mkPurchaseTotals {
  pt_total_quantity : Q;
  pt_subtotal_value : Z;
  pt_cgst_amount : Z;
  pt_sgst_amount : Z;
  pt_igst_amount : Z;
  pt_total_gst : Z;
  pt_total_amount : Z
}.

(** One tuple of its argument: (quantity, unit_rate, gst_rate,
    supplier_state_code, business_state_code, item_name). *)
Definition PurchaseLine : Type :=
  (Q * Z * Z * string * option string * string)%type.

Definition calculate_purchase_invoice_totals
    (items_with_tax : list PurchaseLine) : PurchaseTotals :=
  let '(total_quantity, subtotal_value, cgst_total, sgst_total, igst_total) :=
    fold_left
      (fun acc (line : PurchaseLine) =>
         let '(total_quantity, subtotal_value, cgst_total, sgst_total,
               igst_total) := acc in
         let '(quantity, unit_rate, gst_rate, supplier_state, business_state,
               _) := line in
         let item_tax :=
           calculate_purchase_item_tax quantity unit_rate gst_rate
             supplier_state business_state in
         ((total_quantity + quantity)%Q,
          subtotal_value + pit_subtotal item_tax,
          cgst_total + pit_cgst_amount item_tax,
          sgst_total + pit_sgst_amount item_tax,
          igst_total + pit_igst_amount item_tax))
      items_with_tax (0%Q, 0, 0, 0, 0) in
  let total_gst := cgst_total + sgst_total + igst_total in
  let total_amount := subtotal_value + total_gst in
  {| pt_total_quantity := total_quantity;
     pt_subtotal_value := subtotal_value;
     pt_cgst_amount := cgst_total;
     pt_sgst_amount := sgst_total;
     pt_igst_amount := igst_total;
     pt_total_gst := total_gst;
     pt_total_amount := total_amount |}.

(** [HTTPException(status_code, detail)] of [cancel_purchase], with the
    detail as the message text. *)
Record HTTPError := mkHTTPError {
  http_status : Z;
  http_detail : string
}.

(** [purchase.status = "Cancelled"; purchase.cancel_reason = reason;
    purchase.cancelled_at = now] of [cancel_purchase]. *)
Definition mark_purchase_cancelled (now : Z) (reason : string)
    (self : PurchaseInvoice.t) : PurchaseInvoice.t :=
  {| PurchaseInvoice.id := PurchaseInvoice.id self;
     PurchaseInvoice.supplier_id := PurchaseInvoice.supplier_id self;
     PurchaseInvoice.supplier_invoice_no :=
       PurchaseInvoice.supplier_invoice_no self;
     PurchaseInvoice.supplier_invoice_date :=
       PurchaseInvoice.supplier_invoice_date self;
     PurchaseInvoice.purchase_date := PurchaseInvoice.purchase_date self;
     PurchaseInvoice.place_of_supply := PurchaseInvoice.place_of_supply self;
     PurchaseInvoice.place_of_supply_code :=
       PurchaseInvoice.place_of_supply_code self;
     PurchaseInvoice.total_quantity := PurchaseInvoice.total_quantity self;
     PurchaseInvoice.subtotal_value := PurchaseInvoice.subtotal_value self;
     PurchaseInvoice.cgst_amount := PurchaseInvoice.cgst_amount self;
     PurchaseInvoice.sgst_amount := PurchaseInvoice.sgst_amount self;
     PurchaseInvoice.igst_amount := PurchaseInvoice.igst_amount self;
     PurchaseInvoice.total_gst := PurchaseInvoice.total_gst self;
     PurchaseInvoice.total_amount := PurchaseInvoice.total_amount self;
     PurchaseInvoice.status := "Cancelled";
     PurchaseInvoice.cancel_reason := Some reason;
     PurchaseInvoice.is_active := PurchaseInvoice.is_active self;
     PurchaseInvoice.finalized_at := PurchaseInvoice.finalized_at self;
     PurchaseInvoice.cancelled_at := Some now;
     PurchaseInvoice.items := PurchaseInvoice.items self |}.

(** [api/purchases.cancel_purchase] against a session: the session after
    the call, and the purchase returned or the exception raised. *)
Definition cancel_purchase (env : Env) (purchase_id : Z)
    (cancel_reason : string) (s : Session)
    : Session * (HTTPError + PurchaseInvoice.t) :=
  match find (purchase_with_id purchase_id) (purchase_invoices (pending s)) with
  | None =>
      (s, inl {| http_status := 404;
                 http_detail := "Purchase invoice not found" |})
  | Some purchase =>
      if String.eqb (PurchaseInvoice.status purchase) "Cancelled" then
        (s, inl {| http_status := 400;
                   http_detail := "Purchase is already cancelled" |})
      else
        let purchase' :=
          mark_purchase_cancelled (utc_now env) cancel_reason purchase in
        let db' :=
          set_purchase_invoices
            (update_first (purchase_with_id purchase_id)
                          (fun _ => purchase') (purchase_invoices (pending s)))
            (pending s) in
        (* db.commit(); db.refresh(purchase) *)
        ({| committed := db'; pending := db' |}, inr purchase')
  end.

(** [POST /{purchase_id}/cancel], with its session from [get_db]. *)
Definition api_cancel_purchase (env : Env) (purchase_id : Z)
    (cancel_reason : string) (db : Database)
    : Database * (HTTPError + PurchaseInvoice.t) :=
  let (s, r) := cancel_purchase env purchase_id cancel_reason
                  (SessionLocal db) in
  (committed s, r).

(** [POST ""] of the purchases router, with its session from [get_db]. *)
Definition api_create_purchase_invoice (purchase : PurchaseInvoiceCreate.t)
    (db : Database) : Database * result PurchaseInvoice.t :=
  get_db (create_purchase_invoice purchase) db.

(** [report_service.generate_sales_register]. *)
Record SalesRegisterRow := mkSalesRegisterRow {
  srr_invoice_number : string;
  srr_invoice_date : date;
  srr_customer_name : string;
  srr_customer_gstin : option string;
  srr_place_of_supply : string;
  srr_taxable_value : Q;
  srr_cgst : Q;
  srr_sgst : Q;
  srr_igst : Q;
  srr_total_gst : Q;
  srr_grand_total : Q;
  srr_status : string
}.

Record SalesRegisterSummary := mkSalesRegisterSummary {
  srs_total_taxable_value : Q;
  srs_total_cgst : Q;
  srs_total_sgst : Q;
  srs_total_igst : Q;
  srs_total_gst : Q;
  srs_total_grand_total : Q;
  srs_count_invoices : nat;
  srs_count_cancelled : nat
}.

Record SalesRegisterResponse := mkSalesRegisterResponse {
  sr_from_date : date;
  sr_to_date : date;
  sr_rows : list SalesRegisterRow;
  sr_summary : SalesRegisterSummary
}.

(** [order_by(Invoice.invoice_date, Invoice.invoice_number)]: the order
    of the key, and a stable insertion sort for it. *)
Definition invoice_order_leb (a b : Invoice.t) : bool :=
  date_ltb (Invoice.invoice_date a) (Invoice.invoice_date b)
  || (negb (date_ltb (Invoice.invoice_date b) (Invoice.invoice_date a))
      && match String.compare (Invoice.invoice_number a)
                              (Invoice.invoice_number b) with
         | Gt => false
         | _ => true
         end).

Fixpoint insert_ordered (x : Invoice.t) (l : list Invoice.t)
    : list Invoice.t :=
  match l with
  | [] => [x]
  | y :: rest =>
      if invoice_order_leb x y then x :: l else y :: insert_ordered x rest
  end.

Definition order_by_date_number (l : list Invoice.t) : list Invoice.t :=
  fold_right insert_ordered [] l.

(** The row of one invoice and the figures it contributes: the GST split
    comes from comparing the stored place of supply with the state code
    of the business. *)
Definition sales_register_row (business : option BusinessProfile.t)
    (inv : Invoice.t) : SalesRegisterRow :=
  let taxable_val := (inject_Z (Invoice.total_taxable_value_paise inv) / 100)%Q in
  let gst_val := Invoice.total_gst_rupees inv in
  let intra := is_intra_state business (Invoice.place_of_supply inv) in
  {| srr_invoice_number := Invoice.invoice_number inv;
     srr_invoice_date := Invoice.invoice_date inv;
     srr_customer_name := snap_name (Invoice.customer_snapshot inv);
     srr_customer_gstin := snap_gstin (Invoice.customer_snapshot inv);
     srr_place_of_supply := Invoice.place_of_supply inv;
     srr_taxable_value := taxable_val;
     srr_cgst := if intra then (gst_val / 2)%Q else 0%Q;
     srr_sgst := if intra then (gst_val / 2)%Q else 0%Q;
     srr_igst := if intra then 0%Q else gst_val;
     srr_total_gst := gst_val;
     srr_grand_total := (inject_Z (Invoice.grand_total_paise inv) / 100)%Q;
     srr_status := Invoice.status inv |}.

(** The accumulators of the loop: taxable, cgst, sgst, igst, gst, grand
    total and the count of cancelled invoices. *)
Definition SalesAccumulators : Type := (Q * Q * Q * Q * Q * Q * nat)%type.

Definition sales_register_step (business : option BusinessProfile.t)
    (include_cancelled : bool) (acc : SalesAccumulators) (inv : Invoice.t)
    : SalesAccumulators :=
  let '(total_taxable, total_cgst, total_sgst, total_igst, total_gst,
        total_grand, count_cancelled) := acc in
  let row := sales_register_row business inv in
  let '(total_taxable, total_cgst, total_sgst, total_igst, total_gst,
        total_grand) :=
    if negb (String.eqb (Invoice.status inv) "CANCELLED") || include_cancelled
    then ((total_taxable + srr_taxable_value row)%Q,
          (total_cgst + srr_cgst row)%Q,
          (total_sgst + srr_sgst row)%Q,
          (total_igst + srr_igst row)%Q,
          (total_gst + srr_total_gst row)%Q,
          (total_grand + srr_grand_total row)%Q)
    else (total_taxable, total_cgst, total_sgst, total_igst, total_gst,
          total_grand) in
  (total_taxable, total_cgst, total_sgst, total_igst, total_gst, total_grand,
   if String.eqb (Invoice.status inv) "CANCELLED"
   then S count_cancelled else count_cancelled).

(** The query of the register: the invoices of the period that are FINAL
    or CANCELLED, of one customer if a (truthy) customer id is given. *)
Definition sales_register_query (db : Database) (from_date to_date : date)
    (customer_id : option Z) : list Invoice.t :=
  order_by_date_number
    (filter
       (fun inv =>
          in_period from_date to_date (Invoice.invoice_date inv)
          && (String.eqb (Invoice.status inv) "FINAL"
              || String.eqb (Invoice.status inv) "CANCELLED")
          && (if int_truthy customer_id
              then match customer_id with
                   | Some c => Invoice.customer_id inv =? c
                   | None => true
                   end
              else true))
       (invoices db)).

Definition generate_sales_register (db : Database) (from_date to_date : date)
    (include_cancelled : bool) (customer_id : option Z)
    : SalesRegisterResponse :=
  let invoices := sales_register_query db from_date to_date customer_id in
  let business := business_profile db in
  let rows := map (sales_register_row business) invoices in
  let '(total_taxable, total_cgst, total_sgst, total_igst, total_gst,
        total_grand, count_cancelled) :=
    fold_left (sales_register_step business include_cancelled) invoices
              (0%Q, 0%Q, 0%Q, 0%Q, 0%Q, 0%Q, O) in
  {| sr_from_date := from_date;
     sr_to_date := to_date;
     sr_rows := rows;
     sr_summary :=
       {| srs_total_taxable_value := py_round2 total_taxable;
          srs_total_cgst := py_round2 total_cgst;
          srs_total_sgst := py_round2 total_sgst;
          srs_total_igst := py_round2 total_igst;
          srs_total_gst := py_round2 total_gst;
          srs_total_grand_total := py_round2 total_grand;
          srs_count_invoices := List.length invoices;
          srs_count_cancelled := count_cancelled |} |}.

(** [report_service.generate_purchase_register]. Its loop reads
    [purchase.total_taxable_value_rupees] first, an attribute that
    [PurchaseInvoice] does not define, so the first purchase that the
    query returns raises [AttributeError] and no row is ever built; the
    order of the query result therefore plays no part and is left out. *)
Record PurchaseRegisterSummary := mkPurchaseRegisterSummary {
  prs_total_taxable_value : Q;
  prs_total_input_cgst : Q;
  prs_total_input_sgst : Q;
  prs_total_input_igst : Q;
  prs_total_input_gst : Q;
  prs_total_grand_total : Q;
  prs_count_purchases : nat;
  prs_count_cancelled : nat
}.

Record PurchaseRegisterResponse := mkPurchaseRegisterResponse {
  pr_from_date : date;
  pr_to_date : date;
  pr_rows : list PurchaseInvoice.t;
  pr_summary : PurchaseRegisterSummary
}.

(** The query of the register: the purchases of the period whose status
    is FINAL or CANCELLED, of one supplier if a (truthy) supplier id is
    given. *)
Definition purchase_register_query (db : Database) (from_date to_date : date)
    (supplier_id : option Z) : list PurchaseInvoice.t :=
  filter
    (fun p =>
       in_period from_date to_date (PurchaseInvoice.purchase_date p)
       && (String.eqb (PurchaseInvoice.status p) "FINAL"
           || String.eqb (PurchaseInvoice.status p) "CANCELLED")
       && (if int_truthy supplier_id
           then match supplier_id with
                | Some c => PurchaseInvoice.supplier_id p =? c
                | None => true
                end
           else true))
    (purchase_invoices db).

Definition generate_purchase_register (db : Database)
    (from_date to_date : date) (include_cancelled : bool)
    (supplier_id : option Z) : result PurchaseRegisterResponse :=
  match purchase_register_query db from_date to_date supplier_id with
  | _ :: _ =>
      Err {| status_code := 500;
             detail := NoSuchAttribute "total_taxable_value_rupees" |}
  | [] =>
      Ok {| pr_from_date := from_date;
            pr_to_date := to_date;
            pr_rows := [];
            pr_summary :=
              {| prs_total_taxable_value := py_round2 0;
                 prs_total_input_cgst := py_round2 0;
                 prs_total_input_sgst := py_round2 0;
                 prs_total_input_igst := py_round2 0;
                 prs_total_input_gst := py_round2 0;
                 prs_total_grand_total := py_round2 0;
                 prs_count_purchases := O;
                 prs_count_cancelled := O |} |}
  end.

(* ================================================================== *)
(** * Reference notions used in the statements *)
(* ================================================================== *)

(** [n] is an integer nearest to [q], and the even one of the two when
    [q] lies halfway between two integers. *)
Definition nearest_ties_even (q : Q) (n : Z) : Prop :=
  (inject_Z n - (1#2) <= q /\ q <= inject_Z n + (1#2))%Q
  /\ ((q == inject_Z n - (1#2) \/ q == inject_Z n + (1#2))%Q
      -> Z.even n = true).

(** Rounding to the nearest integer with ties rounded up. *)
Definition round_half_up (q : Q) : Z := Qfloor (q + (1#2)).

(** The tax figures stored on an invoice line, as a [TaxBreakup]. *)
Definition item_tax_breakup (item : InvoiceItem.t) : TaxBreakup :=
  {| taxable_amount_paise := InvoiceItem.taxable_amount_paise item;
     cgst_paise := InvoiceItem.cgst_paise item;
     sgst_paise := InvoiceItem.sgst_paise item;
     igst_paise := InvoiceItem.igst_paise item;
     total_tax_paise := InvoiceItem.gst_amount_paise item;
     total_amount_paise := InvoiceItem.total_paise item |}.

(** The figures stored on a line are the tax engine's breakup of that
    line, for the state codes of the seller and of the buyer. *)
Definition line_from_tax_engine (seller_state buyer_state : string)
    (item : InvoiceItem.t) : Prop :=
  item_tax_breakup item
  = calculate_line_item_tax (InvoiceItem.quantity item)
      (InvoiceItem.unit_price_paise item) (InvoiceItem.gst_rate item)
      seller_state buyer_state.

(** The sum of [f] over a list, written by structural recursion. *)
Fixpoint total {A : Type} (f : A -> Z) (l : list A) : Z :=
  match l with
  | [] => 0
  | x :: rest => f x + total f rest
  end.

(** The request [invoice_data] with other client totals. *)
Definition with_client_totals (client_totals : option InvoiceTotalsInput.t)
    (invoice_data : InvoiceCreate.t) : InvoiceCreate.t :=
  {| InvoiceCreate.customer_id := InvoiceCreate.customer_id invoice_data;
     InvoiceCreate.invoice_date := InvoiceCreate.invoice_date invoice_data;
     InvoiceCreate.place_of_supply := InvoiceCreate.place_of_supply invoice_data;
     InvoiceCreate.items := InvoiceCreate.items invoice_data;
     InvoiceCreate.client_totals := client_totals |}.

(** The three asserted figures equal the rupee value of the stored totals. *)
Definition totals_agree (totals : InvoiceTotalsInput.t) (invoice : Invoice.t)
    : Prop :=
  (InvoiceTotalsInput.total_taxable_value totals
   == paise_to_rupees (Invoice.total_taxable_value_paise invoice))%Q
  /\ (InvoiceTotalsInput.total_gst totals
      == paise_to_rupees (Invoice.total_gst_paise invoice))%Q
  /\ (InvoiceTotalsInput.grand_total totals
      == paise_to_rupees (Invoice.grand_total_paise invoice))%Q.

(** The quantity recorded on the lines of an invoice that refer to the
    product [product_id]. *)
Definition restored_quantity (product_id : Z) (items : list InvoiceItem.t)
    : Z :=
  total InvoiceItem.quantity
    (filter (fun item =>
               match InvoiceItem.product_id item with
               | Some z => z =? product_id
               | None => false
               end) items).


(** The stock changes of a loop, as (key, quantity) pairs applied in order
    to the first row that [pred key] selects. *)
Definition apply_stock_updates {K : Type} (pred : K -> Product.t -> bool)
    (updates : list (K * Z)) (ps : list Product.t) : list Product.t :=
  fold_left
    (fun ps u => update_first (pred (fst u)) (Product.add_stock (snd u)) ps)
    updates ps.

(** The quantity that a list of stock changes adds under the key [k]. *)
Definition updates_total {K : Type} (eqb : K -> K -> bool) (k : K)
    (updates : list (K * Z)) : Z :=
  total snd (filter (fun u => eqb (fst u) k) updates).

(** The stock changes that [restore_stock] attempts, in line order. *)
Definition restore_updates (items : list InvoiceItem.t) : list (Z * Z) :=
  flat_map
    (fun item =>
       match InvoiceItem.product_id item with
       | Some pid => if pid =? 0 then [] else [(pid, InvoiceItem.quantity item)]
       | None => []
       end) items.

(** The stock changes that [receive_stock] attempts, in line order. *)
Definition receive_updates (items : list PurchaseItem.t)
    : list (string * Z) :=
  map (fun item =>
         (PurchaseItem.hsn_code item, py_int (PurchaseItem.quantity item)))
      items.

(** The row of an invoice once [cancel_invoice] has cancelled it. *)
Definition cancelled_invoice (env : Env) (reason : string)
    (invoice : Invoice.t) : Invoice.t :=
  Invoice.set_status "CANCELLED" (Invoice.cancel (utc_now env) reason invoice).

(** A computation that never commits. *)
Definition keeps_committed {A : Type} (m : M A) : Prop :=
  forall s s' r, m s = (s', r) -> committed s' = committed s.

(** A computation that has not committed when it raises. *)
Definition fails_uncommitted {A : Type} (m : M A) : Prop :=
  forall s s' e, m s = (s', Err e) -> committed s' = committed s.

(** A character of a GSTIN: a digit or an upper-case letter. *)
Definition is_gstin_char (c : ascii) : bool :=
  is_ascii_digit c || is_ascii_upper c.

(** The contribution of the character [c] at position [i] to the
    weighted sum of the GSTIN checksum. *)
Definition gstin_weight (i : nat) (c : ascii) : Z :=
  let product := char_value c * (if Nat.even i then 1 else 2) in
  product / 36 + product mod 36.

(** Reading a string of decimal digits as a number, as [int(s)] does. *)
Definition parse_decimal (s : string) : option Z :=
  option_map (fun d => Z.of_N (N.of_uint d)) (NilEmpty.uint_of_string s).

(** The stock changes that the lines of an order make, in line order. *)
Definition order_updates (items : list InvoiceItemCreate.t) : list (Z * Z) :=
  map (fun item_data =>
         (InvoiceItemCreate.product_id item_data,
          - InvoiceItemCreate.quantity item_data)) items.

(** The quantity that the lines of an order request of the product
    [product_id]. *)
Definition ordered_quantity (product_id : Z)
    (items : list InvoiceItemCreate.t) : Z :=
  total InvoiceItemCreate.quantity
    (filter (fun item_data =>
               InvoiceItemCreate.product_id item_data =? product_id) items).

(** Every stock quantity of the products table is non-negative. *)
Definition stock_non_negative (db : Database) : Prop :=
  Forall (fun p => 0 <= Product.stock_quantity p) (products db).

(** Product ids are primary keys: positive and pairwise different. *)
Definition product_ids_are_keys (db : Database) : Prop :=
  NoDup (map Product.id (products db))
  /\ Forall (fun p => 0 < Product.id p) (products db).

(** The place of supply that [create_invoice] takes for a request. *)
Definition requested_place_of_supply (invoice_data : InvoiceCreate.t)
    (customer : Customer.t) : string :=
  match InvoiceCreate.place_of_supply invoice_data with
  | Some p => if String.eqb p "" then Customer.state_code customer else p
  | None => Customer.state_code customer
  end.

(** The status values that the purchase lifecycle writes. *)
Definition purchase_statuses_known (db : Database) : Prop :=
  Forall (fun p => In (PurchaseInvoice.status p)
                      ["Draft"; "Finalized"; "Cancelled"]%string)
         (purchase_invoices db).

(** The state code of the business that [create_purchase_invoice] takes:
    the configured one, or Karnataka's. *)
Definition purchase_business_state_code (db : Database) : string :=
  match business_profile db with
  | Some b => if String.eqb (BusinessProfile.state_code b) ""
              then "29"%string else BusinessProfile.state_code b
  | None => "29"%string
  end.

(** The tuple that [calculate_purchase_invoice_totals] takes for a stored
    purchase line. *)
Definition purchase_line (supplier_state business_state : string)
    (item : PurchaseItem.t) : PurchaseLine :=
  (PurchaseItem.quantity item, PurchaseItem.rate item,
   PurchaseItem.gst_rate item, supplier_state, Some business_state,
   PurchaseItem.item_name item).

(** The filter [Supplier.id == supplier_id, Supplier.is_active == True]. *)
Definition active_supplier_with_id (supplier_id : Z) (s : Supplier.t) : bool :=
  (Supplier.id s =? supplier_id) && Supplier.is_active s.

(** The invoice numbers of the database are numbers that the business has
    issued: no two invoices carry the same number, and each number is the
    prefix followed by a counter value below the current one. *)
Definition invoice_numbers_issued (db : Database) : Prop :=
  NoDup (map Invoice.invoice_number (invoices db))
  /\ match business_profile db with
     | Some b =>
         0 <= BusinessProfile.current_invoice_number b
         /\ Forall (fun i =>
                      exists k,
                        0 <= k < BusinessProfile.current_invoice_number b
                        /\ Invoice.invoice_number i
                           = (BusinessProfile.invoice_prefix b
                              ++ format_06d k)%string)
                   (invoices db)
     | None => True
     end.

(** The range in which the [Decimal] arithmetic of the tax engine is
    exact. The decimal context keeps 28 significant digits of every
    product and quotient. For a rate of [k] hundredths of a percent with
    |k| <= 10^5 (the column is [Numeric(5, 2)]) and an amount of at most
    10^22 paise, the values rate / 2, amount x rate, amount x rate / 2 and
    their hundredths have at most 28 significant digits, so that no
    operation of [calculate_gst] and [calculate_percentage] rounds before
    [round()]. *)
Definition decimal_exact_range (amount : Z) (rate : Q) (k : Z) : Prop :=
  Z.abs amount <= 10 ^ 22
  /\ Z.abs k <= 10 ^ 5
  /\ (rate == inject_Z k / 100)%Q.

(** The value of a [Decimal] with the integer coefficient [m] and [d]
    digits after the point. *)
Definition decimal_value (m : Z) (d : nat) : Q :=
  inject_Z m / inject_Z (10 ^ Z.of_nat d).



(** A string of ASCII characters only: on such a string [str.isdigit()]
    accepts the digits 0 to 9 and nothing else, and [len()] counts the
    characters stored here. *)
Definition is_ascii_string (s : string) : bool :=
  forallb (fun c => (N_of_ascii c <? 128)%N) (list_ascii_of_string s).

(* ================================================================== *)
(** * A small installation for the examples *)
(* ================================================================== *)

Definition sample_env : Env :=
  {| gstin_checksum_enforced := false;
     today := {| year := 2025; month := 12; day := 26 |};
     utc_now := 1766707200 |}.

Definition sample_business : BusinessProfile.t :=
  {| BusinessProfile.id := 1;
     BusinessProfile.name := "Acme Corp";
     BusinessProfile.gstin := "29ABCDE1234F1Z5";
     BusinessProfile.state_code := "29";
     BusinessProfile.address := "123 MG Road";
     BusinessProfile.city := "Bengaluru";
     BusinessProfile.pincode := "560001";
     BusinessProfile.phone := None;
     BusinessProfile.email := None;
     BusinessProfile.invoice_prefix := "INV";
     BusinessProfile.invoice_start_number := 1;
     BusinessProfile.current_invoice_number := 1 |}.

Definition widget : Product.t :=
  {| Product.id := 1; Product.name := "Widget"; Product.description := None;
     Product.hsn_code := "1234"; Product.gst_rate := 18;
     Product.price_paise := 10000; Product.stock_quantity := 10;
     Product.unit := "PCS"; Product.is_active := true |}.

Definition gadget : Product.t :=
  {| Product.id := 2; Product.name := "Gadget"; Product.description := None;
     Product.hsn_code := "567890"; Product.gst_rate := 5;
     Product.price_paise := 250; Product.stock_quantity := 4;
     Product.unit := "PCS"; Product.is_active := true |}.

Definition sample_customer : Customer.t :=
  {| Customer.id := 1; Customer.name := "Customer A";
     Customer.customer_type := "B2C"; Customer.gstin := None;
     Customer.address := "Somewhere"; Customer.state := "Karnataka";
     Customer.state_code := "29"; Customer.phone := None;
     Customer.email := None; Customer.is_active := true |}.

Definition sample_supplier : Supplier.t :=
  {| Supplier.id := 1; Supplier.name := "Supplier S";
     Supplier.state := "Maharashtra"; Supplier.state_code := "27";
     Supplier.is_active := true |}.

Definition sample_db : Database :=
  {| products := [widget; gadget];
     customers := [sample_customer];
     suppliers := [sample_supplier];
     business_profile := Some sample_business;
     invoices := [];
     purchase_invoices := [] |}.

(** Two widgets and three gadgets for the sample customer. *)
Definition sample_order (client_totals : option InvoiceTotalsInput.t)
    : InvoiceCreate.t :=
  {| InvoiceCreate.customer_id := 1;
     InvoiceCreate.invoice_date := {| year := 2025; month := 12; day := 26 |};
     InvoiceCreate.place_of_supply := None;
     InvoiceCreate.items :=
       [ {| InvoiceItemCreate.product_id := 1;
            InvoiceItemCreate.quantity := 2;
            InvoiceItemCreate.description := None |};
         {| InvoiceItemCreate.product_id := 2;
            InvoiceItemCreate.quantity := 3;
            InvoiceItemCreate.description := None |} ];
     InvoiceCreate.client_totals := client_totals |}.

(** The totals of [sample_order] in rupees, and the same with the grand
    total one paise too high. *)
Definition sample_totals : InvoiceTotalsInput.t :=
  {| InvoiceTotalsInput.total_taxable_value := 20750 # 100;
     InvoiceTotalsInput.total_gst := 3638 # 100;
     InvoiceTotalsInput.grand_total := 24388 # 100 |}.

Definition sample_totals_off_by_one_paise : InvoiceTotalsInput.t :=
  {| InvoiceTotalsInput.total_taxable_value := 20750 # 100;
     InvoiceTotalsInput.total_gst := 3638 # 100;
     InvoiceTotalsInput.grand_total := 24389 # 100 |}.

(** The database after [sample_order] has been invoiced, and the same with
    the gadget soft-deleted afterwards. *)
Definition sample_db_sold : Database :=
  fst (api_create_invoice sample_env 1 (sample_order None) sample_db).

Definition sample_db_sold_gadget_deleted : Database :=
  set_products
    (update_first (product_with_id 2) Product.deactivate
                  (products sample_db_sold))
    sample_db_sold.

(** A purchase of two and a half units under the HSN code of the widget,
    from a supplier in another state; the database after it has been
    recorded, and after it has been finalized. *)
Definition sample_purchase_order : PurchaseInvoiceCreate.t :=
  {| PurchaseInvoiceCreate.supplier_id := 1;
     PurchaseInvoiceCreate.supplier_invoice_no := "SUPP-001";
     PurchaseInvoiceCreate.supplier_invoice_date :=
       {| year := 2025; month := 12; day := 10 |};
     PurchaseInvoiceCreate.purchase_date :=
       {| year := 2025; month := 12; day := 10 |};
     PurchaseInvoiceCreate.items :=
       [ {| PurchaseItemInput.item_name := "Widget";
            PurchaseItemInput.hsn_code := "1234";
            PurchaseItemInput.quantity := 5 # 2;
            PurchaseItemInput.rate := 5000;
            PurchaseItemInput.gst_rate := 18 |} ] |}.

Definition sample_db_purchased : Database :=
  fst (get_db (create_purchase_invoice sample_purchase_order) sample_db).

Definition sample_db_finalized : Database :=
  fst (api_finalize_purchase sample_env 1 sample_db_purchased).

(** A purchase with four lines, three of them under HSN codes that no
    product carries, and the database after it has been recorded. *)
Definition sample_purchase_line (hsn : string) : PurchaseItemInput.t :=
  {| PurchaseItemInput.item_name := "Item";
     PurchaseItemInput.hsn_code := hsn;
     PurchaseItemInput.quantity := 3;
     PurchaseItemInput.rate := 100;
     PurchaseItemInput.gst_rate := 12 |}.

Definition sample_purchase_order_unknown_hsn : PurchaseInvoiceCreate.t :=
  {| PurchaseInvoiceCreate.supplier_id := 1;
     PurchaseInvoiceCreate.supplier_invoice_no := "SUPP-002";
     PurchaseInvoiceCreate.supplier_invoice_date :=
       {| year := 2025; month := 12; day := 11 |};
     PurchaseInvoiceCreate.purchase_date :=
       {| year := 2025; month := 12; day := 11 |};
     PurchaseInvoiceCreate.items :=
       map sample_purchase_line ["9999"; "1234"; "8888"; "9999"]%string |}.

Definition sample_db_purchased_unknown_hsn : Database :=
  fst (get_db (create_purchase_invoice sample_purchase_order_unknown_hsn)
              sample_db).

Definition december_first : date := {| year := 2025; month := 12; day := 1 |}.
Definition december_last : date := {| year := 2025; month := 12; day := 31 |}.

(* ================================================================== *)
(** * Rounding *)
(* ================================================================== *)

Section Rounding.

Lemma inject_Z_succ (n : Z) : (inject_Z (n + 1) == inject_Z n + 1)%Q.
Proof. unfold Qeq, Qplus, inject_Z. cbn [Qnum Qden]. lia. Qed.

Lemma inject_Z_pred (n : Z) : (inject_Z (n - 1) == inject_Z n - 1)%Q.
Proof. unfold Qeq, Qminus, Qplus, Qopp, inject_Z. cbn [Qnum Qden]. lia. Qed.


Lemma py_round_nearest (q : Q) : nearest_ties_even q (py_round q).
Proof.
  destruct q as [n d]. unfold nearest_ties_even, py_round.
  cbn [Qnum Qden].
  pose proof (Z.div_mod n (Z.pos d) ltac:(lia)) as Hdm.
  pose proof (Z.mod_pos_bound n (Z.pos d) ltac:(lia)) as Hm.
  set (f := n / Z.pos d) in *. set (m := n mod Z.pos d) in *.
  unfold Qle, Qeq, Qminus, Qplus, Qopp, inject_Z. cbn [Qnum Qden].
  destruct (Z.compare_spec (2 * m) (Z.pos d)) as [He | Hl | Hg].
  - destruct (Z.even f) eqn:Hev.
    + split; [split; nia | auto].
    + split; [split; nia |].
      intros _. rewrite Z.even_add, Hev. reflexivity.
  - split; [split; nia |]. intros [H | H]; nia.
  - split; [split; nia |]. intros [H | H]; nia.
Qed.

Lemma nearest_ties_even_unique (q q' : Q) (n m : Z) :
  (q == q')%Q -> nearest_ties_even q n -> nearest_ties_even q' m -> n = m.
Proof.
  intros Hq [[Hn1 Hn2] Hne] [[Hm1 Hm2] Hme].
  rewrite <- Hq in Hm1, Hm2, Hme.
  assert (Hz : n - 1 <= m <= n + 1).
  { assert (H1 : (inject_Z n - 1 <= inject_Z m)%Q) by lra.
    assert (H2 : (inject_Z m <= inject_Z n + 1)%Q) by lra.
    unfold Qle, Qminus, Qplus, Qopp, inject_Z in H1, H2.
    cbn [Qnum Qden] in H1, H2. lia. }
  destruct (Z.eq_dec n m) as [|Hneq]; [assumption | exfalso].
  assert (Hcase : m = n + 1 \/ m = n - 1) by lia.
  destruct Hcase as [-> | ->].
  - pose proof (inject_Z_succ n) as Hs.
    assert (Hqe : (q == inject_Z n + (1#2))%Q) by lra.
    pose proof (Hne (or_intror Hqe)) as E1.
    assert (E2 : Z.even (n + 1) = true) by (apply Hme; left; lra).
    rewrite Z.even_add, E1 in E2. discriminate.
  - pose proof (inject_Z_pred n) as Hs.
    assert (Hqe : (q == inject_Z n - (1#2))%Q) by lra.
    pose proof (Hne (or_introl Hqe)) as E1.
    assert (E2 : Z.even (n - 1) = true) by (apply Hme; right; lra).
    rewrite Z.even_sub, E1 in E2. discriminate.
Qed.

Lemma py_round_comp (q q' : Q) : (q == q')%Q -> py_round q = py_round q'.
Proof.
  intros H. apply (nearest_ties_even_unique q q'); auto using py_round_nearest.
Qed.

Lemma py_round_iff (q : Q) (n : Z) : nearest_ties_even q n <-> n = py_round q.
Proof.
  split.
  - intros H. apply (nearest_ties_even_unique q q); auto using py_round_nearest.
    reflexivity.
  - intros ->. apply py_round_nearest.
Qed.

Lemma py_round_zero (q : Q) : (q == 0)%Q -> py_round q = 0.
Proof. intros H. rewrite (py_round_comp q 0 H). reflexivity. Qed.

Lemma py_round_nonneg (q : Q) : (0 <= q)%Q -> 0 <= py_round q.
Proof.
  intros H. destruct (py_round_nearest q) as [[H1 H2] _].
  assert (Hq : (inject_Z (-1) < inject_Z (py_round q))%Q).
  { change (inject_Z (-1)) with (-1)%Q. lra. }
  rewrite <- Zlt_Qlt in Hq. lia.
Qed.

Lemma py_round_pos_iff (q : Q) : 0 < py_round q <-> ((1#2) < q)%Q.
Proof.
  destruct (py_round_nearest q) as [[H1 H2] He]. split.
  - intros Hp.
    destruct (Z.eq_dec (py_round q) 1) as [E | NE].
    + rewrite E in H1, He. change (inject_Z 1) with 1%Q in H1, He.
      destruct (Qlt_le_dec (1#2) q) as [|Hle]; [assumption | exfalso].
      assert (F : Z.even 1 = true) by (apply He; left; lra).
      discriminate.
    + assert (Hq : (inject_Z 2 <= inject_Z (py_round q))%Q)
        by (rewrite <- Zle_Qle; lia).
      change (inject_Z 2) with 2%Q in Hq. lra.
  - intros Hq.
    assert (Hz : (inject_Z 0 < inject_Z (py_round q))%Q).
    { change (inject_Z 0) with 0%Q. lra. }
    rewrite <- Zlt_Qlt in Hz. exact Hz.
Qed.


End Rounding.

(* ================================================================== *)
(** * The tax engine *)
(* ================================================================== *)

(** Comparisons of closed integers, by computation. *)
Ltac closed_Z :=
  first [apply Z.ltb_lt | apply Z.leb_le]; vm_compute; reflexivity.

Section TaxEngine.

Lemma in_allowed_gst_rates_cases (rate : Q) :
  in_allowed_gst_rates rate = true ->
  (rate == 0 \/ rate == 5 \/ rate == 12 \/ rate == 18 \/ rate == 28)%Q.
Proof.
  unfold in_allowed_gst_rates, ALLOWED_GST_RATES. cbn [existsb].
  rewrite !orb_true_iff, !Qeq_bool_iff. intuition discriminate.
Qed.

Lemma half_lt_div100 (x : Q) : ((1#2) < x / 100 <-> 50 < x)%Q.
Proof.
  assert (E : (x == (x / 100) * 100)%Q) by field.
  split; intros H.
  - rewrite E.
    setoid_replace (50 : Q) with ((1#2) * 100)%Q by reflexivity.
    apply Qmult_lt_compat_r; [reflexivity | exact H].
  - apply Qlt_shift_div_l; [reflexivity |].
    setoid_replace ((1#2) * 100)%Q with (50 : Q) by reflexivity. exact H.
Qed.

Lemma calculate_percentage_zero_rate (amount : Z) (rate : Q) :
  (rate == 0)%Q -> calculate_percentage amount rate = 0.
Proof.
  intros H. unfold calculate_percentage, round_gst_amount.
  apply py_round_zero. rewrite H. field.
Qed.

(** The tax of the example in the docstring of [calculate_gst]. *)
Example calculate_gst_docstring :
  calculate_gst 10000 18 "29" "29"
  = {| taxable_amount_paise := 10000; cgst_paise := 900; sgst_paise := 900;
       igst_paise := 0; total_tax_paise := 1800;
       total_amount_paise := 11800 |}.
Proof. reflexivity. Qed.

Example calculate_gst_inter_state :
  calculate_gst 10000 18 "29" "27"
  = {| taxable_amount_paise := 10000; cgst_paise := 0; sgst_paise := 0;
       igst_paise := 1800; total_tax_paise := 1800;
       total_amount_paise := 11800 |}.
Proof. reflexivity. Qed.

(** C1, as stated, fails: one paise taxed at 5 % between two different
    states carries an IGST of 0.05 paise, which rounds to 0. *)
Lemma calculate_gst_igst_rounds_to_zero :
  0 <= 1
  /\ in_allowed_gst_rates 5 = true
  /\ String.eqb "29" "27" = false
  /\ Qeq_bool 5 0 = false
  /\ igst_paise (calculate_gst 1 5 "29" "27") = 0.
Proof. split; [lia | repeat split]. Qed.

(** C1 (amended): for a non-negative taxable amount and an allowed rate,
    equal state codes give cgst = sgst and igst = 0; different state codes
    give cgst = sgst = 0 and a non-negative igst, which is strictly
    positive exactly when amount x rate exceeds 50, that is when the exact
    tax exceeds half a paise; a rate of 0 gives three zero components. *)
Theorem calculate_gst_split (amount : Z) (rate : Q) (seller buyer : string) :
  0 <= amount ->
  in_allowed_gst_rates rate = true ->
  let t := calculate_gst amount rate seller buyer in
  (seller = buyer -> cgst_paise t = sgst_paise t /\ igst_paise t = 0)
  /\ (seller <> buyer ->
      cgst_paise t = 0 /\ sgst_paise t = 0 /\ 0 <= igst_paise t
      /\ (0 < igst_paise t <-> (50 < inject_Z amount * rate)%Q))
  /\ ((rate == 0)%Q ->
      cgst_paise t = 0 /\ sgst_paise t = 0 /\ igst_paise t = 0).
Proof.
  intros Hamount Hrate t. subst t. unfold calculate_gst.
  assert (Ha : (0 <= inject_Z amount)%Q)
    by (change 0%Q with (inject_Z 0); rewrite <- Zle_Qle; assumption).
  assert (Hr : (0 <= rate)%Q)
    by (destruct (in_allowed_gst_rates_cases rate Hrate)
          as [E | [E | [E | [E | E]]]]; rewrite E; discriminate).
  repeat split.
  - destruct (String.eqb seller buyer); reflexivity.
  - apply String.eqb_eq in H. rewrite H. reflexivity.
  - apply String.eqb_neq in H. rewrite H. reflexivity.
  - apply String.eqb_neq in H. rewrite H. reflexivity.
  - apply String.eqb_neq in H. rewrite H. cbn [igst_paise].
    apply py_round_nonneg.
    assert (Hp : (0 <= inject_Z amount * rate)%Q) by (apply Qmult_le_0_compat; assumption).
    unfold Qdiv. apply Qmult_le_0_compat; [assumption | discriminate].
  - apply String.eqb_neq in H. rewrite H. cbn [igst_paise].
    unfold calculate_percentage, round_gst_amount.
    rewrite py_round_pos_iff. apply half_lt_div100.
  - apply String.eqb_neq in H. rewrite H. cbn [igst_paise].
    unfold calculate_percentage, round_gst_amount.
    rewrite py_round_pos_iff. apply half_lt_div100.
  - destruct (String.eqb seller buyer); cbn [cgst_paise]; [| reflexivity].
    apply calculate_percentage_zero_rate. rewrite H. reflexivity.
  - destruct (String.eqb seller buyer); cbn [sgst_paise]; [| reflexivity].
    apply calculate_percentage_zero_rate. rewrite H. reflexivity.
  - destruct (String.eqb seller buyer); cbn [igst_paise]; [reflexivity |].
    apply calculate_percentage_zero_rate. assumption.
Qed.

Lemma calculate_gst_split_witness :
  0 <= 10000
  /\ in_allowed_gst_rates 18 = true
  /\ (let t := calculate_gst 10000 18 "29" "27" in
      ("29"%string = "27"%string ->
       cgst_paise t = sgst_paise t /\ igst_paise t = 0)
      /\ ("29"%string <> "27"%string ->
          cgst_paise t = 0 /\ sgst_paise t = 0 /\ 0 <= igst_paise t
          /\ (0 < igst_paise t <-> (50 < inject_Z 10000 * 18)%Q))
      /\ ((18 == 0)%Q ->
          cgst_paise t = 0 /\ sgst_paise t = 0 /\ igst_paise t = 0)).
Proof.
  split; [lia | split; [reflexivity |]].
  apply (calculate_gst_split 10000 18 "29" "27"); [lia | reflexivity].
Defined.

(** C6, as stated, fails: 5 % of 10 paise is exactly 0.5 paise; the
    engine returns 0 where rounding half-up gives 1, and in the same
    state 2.5 % of 20 paise behaves alike. *)
Lemma calculate_gst_tie_not_half_up :
  igst_paise (calculate_gst 10 5 "29" "27") = 0
  /\ round_half_up (inject_Z 10 * 5 / 100) = 1
  /\ cgst_paise (calculate_gst 20 5 "29" "29") = 0
  /\ round_half_up (inject_Z 20 * (5 / 2) / 100) = 1.
Proof. repeat split. Qed.

(** C6 (amended): within the precision of the decimal context (an
    amount of at most 10^22 paise and a rate of two decimals below 1000,
    [decimal_exact_range]) the engine rounds each tax component to the
    nearest paise with ties at exactly .5 going to the even neighbour,
    and that rule determines the result: in the same-state case
    cgst = sgst is the one integer nearest (ties to even) to
    amount x (rate / 2) / 100, in the different-state case igst is the
    one nearest to amount x rate / 100. *)
Theorem calculate_gst_rounds_half_even (amount : Z) (rate : Q) (k : Z)
    (seller buyer : string) :
  decimal_exact_range amount rate k ->
  let t := calculate_gst amount rate seller buyer in
  if String.eqb seller buyer
  then (forall n : Z,
          nearest_ties_even (inject_Z amount * (rate / 2) / 100) n
          <-> n = cgst_paise t)
       /\ sgst_paise t = cgst_paise t
  else (forall n : Z,
          nearest_ties_even (inject_Z amount * rate / 100) n
          <-> n = igst_paise t).
Proof.
  intros _. unfold calculate_gst.
  destruct (String.eqb seller buyer); cbn zeta;
    cbn [cgst_paise sgst_paise igst_paise].
  - split; [| reflexivity]. intros n. apply py_round_iff.
  - intros n. apply py_round_iff.
Qed.

Lemma calculate_gst_rounds_half_even_witness :
  decimal_exact_range 10 5 500
  /\ igst_paise (calculate_gst 10 5 "29" "27") = 0
  /\ nearest_ties_even (inject_Z 10 * 5 / 100) 0
  /\ cgst_paise (calculate_gst 30 5 "29" "29") = 1
  /\ nearest_ties_even (inject_Z 30 * (5 / 2) / 100) 1.
Proof.
  assert (H : decimal_exact_range 10 5 500).
  { unfold decimal_exact_range.
    split; [closed_Z | split; [closed_Z | reflexivity]]. }
  assert (H' : decimal_exact_range 30 5 500).
  { unfold decimal_exact_range.
    split; [closed_Z | split; [closed_Z | reflexivity]]. }
  split; [exact H |]. split; [reflexivity |]. split.
  - apply (calculate_gst_rounds_half_even 10 5 500 "29" "27" H 0).
    reflexivity.
  - split; [reflexivity |].
    apply (proj1 (calculate_gst_rounds_half_even 30 5 500 "29" "29" H') 1).
    reflexivity.
Defined.

End TaxEngine.

(* ================================================================== *)
(** * The purchase calculator against the tax engine *)
(* ================================================================== *)

Section PurchaseTax.















End PurchaseTax.

(* ================================================================== *)
(** * Sessions *)
(* ================================================================== *)

Section Sessions.

Context {A B : Type}.

Lemma keeps_committed_ret (a : A) : keeps_committed (ret a).
Proof. intros s s' r H. inversion H. reflexivity. Qed.

Lemma keeps_committed_raise (status : Z) (d : Detail) :
  keeps_committed (@raise A status d).
Proof. intros s s' r H. inversion H. reflexivity. Qed.

Lemma keeps_committed_query (f : Database -> A) : keeps_committed (query f).
Proof. intros s s' r H. inversion H. reflexivity. Qed.

Lemma keeps_committed_bind (m : M A) (k : A -> M B) :
  keeps_committed m -> (forall a, keeps_committed (k a)) ->
  keeps_committed (bind m k).
Proof.
  intros Hm Hk s s' r H. unfold bind in H.
  destruct (m s) as [s1 [a | e]] eqn:E.
  - rewrite (Hk a _ _ _ H). exact (Hm _ _ _ E).
  - inversion H; subst. exact (Hm _ _ _ E).
Qed.

Lemma fails_uncommitted_bind (m : M A) (k : A -> M B) :
  keeps_committed m -> (forall a, fails_uncommitted (k a)) ->
  fails_uncommitted (bind m k).
Proof.
  intros Hm Hk s s' e H. unfold bind in H.
  destruct (m s) as [s1 [a | e1]] eqn:E.
  - rewrite (Hk a _ _ _ H). exact (Hm _ _ _ E).
  - inversion H; subst. exact (Hm _ _ _ E).
Qed.

Lemma keeps_committed_fails_uncommitted (m : M A) :
  keeps_committed m -> fails_uncommitted m.
Proof. intros Hm s s' e H. exact (Hm _ _ _ H). Qed.

End Sessions.

Lemma keeps_committed_mutate (f : Database -> Database) :
  keeps_committed (mutate f).
Proof. intros s s' r H. inversion H. reflexivity. Qed.

Lemma keeps_committed_check (bad : bool) (status : Z) (d : Detail) :
  keeps_committed (check bad status d).
Proof.
  unfold check. destruct bad;
    [apply keeps_committed_raise | apply keeps_committed_ret].
Qed.

Create HintDb session.

#[local] Hint Resolve keeps_committed_ret keeps_committed_raise
  keeps_committed_query keeps_committed_mutate keeps_committed_check
  : session.

(** Decomposes a goal about a sequence of session operations. *)
Ltac session_steps :=
  repeat first
    [ apply keeps_committed_bind; [| intros ? ]
    | progress auto with session ].

(* ================================================================== *)
(** * Creating an invoice *)
(* ================================================================== *)

Section CreateInvoice.

Variable env : Env.

Lemma keeps_committed_validate_product (product : Product.t) :
  keeps_committed (_validate_product_for_invoice product).
Proof. unfold _validate_product_for_invoice. session_steps. Qed.

Lemma keeps_committed_validate_customer (customer : Customer.t) :
  keeps_committed (_validate_customer_for_invoice env customer).
Proof.
  unfold _validate_customer_for_invoice.
  destruct (Customer.is_b2b customer); [| auto with session].
  destruct (Customer.gstin customer) as [g |]; [| auto with session].
  destruct (String.eqb g ""); auto with session.
Qed.

Lemma keeps_committed_validate_client_totals
    (client_totals : option InvoiceTotalsInput.t) (computed : TaxBreakup) :
  keeps_committed (_validate_client_totals client_totals computed).
Proof.
  unfold _validate_client_totals.
  destruct client_totals; auto with session.
Qed.

Lemma keeps_committed_process_items (business : BusinessProfile.t)
    (customer : Customer.t) (items : list InvoiceItemCreate.t) :
  forall breakups invoice_items,
    keeps_committed
      (process_items business customer items breakups invoice_items).
Proof.
  induction items as [| item_data rest IH]; intros breakups invoice_items;
    cbn [process_items].
  - auto with session.
  - apply keeps_committed_bind; [auto with session |].
    intros [product |]; [| auto with session].
    apply keeps_committed_bind;
      [apply keeps_committed_validate_product | intros _].
    destruct (Product.reduce_stock product _) as [product' sufficient].
    apply keeps_committed_bind; [auto with session | intros _].
    destruct sufficient; cbn [negb]; [apply IH | auto with session].
Qed.

(** No path of [create_invoice] that raises has committed. *)
Lemma create_invoice_fails_uncommitted (invoice_data : InvoiceCreate.t)
    (current_user_id : Z) (business : BusinessProfile.t) :
  fails_uncommitted
    (create_invoice env invoice_data current_user_id business).
Proof.
  unfold create_invoice, _validate_invoice_date, _validate_business_profile.
  apply fails_uncommitted_bind; [auto with session | intros _].
  apply fails_uncommitted_bind; [auto with session | intros _].
  apply fails_uncommitted_bind; [auto with session |].
  intros [customer |];
    [| apply keeps_committed_fails_uncommitted; auto with session].
  apply fails_uncommitted_bind;
    [apply keeps_committed_validate_customer | intros _].
  apply fails_uncommitted_bind; [auto with session | intros _].
  apply fails_uncommitted_bind;
    [apply keeps_committed_process_items | intros [breakups invoice_items]].
  apply fails_uncommitted_bind;
    [apply keeps_committed_validate_client_totals | intros _].
  destruct (BusinessProfile.generate_invoice_number business)
    as [invoice_number business'].
  intros s s' e H. unfold bind, mutate, query, db_commit, ret in H.
  discriminate H.
Qed.

Lemma get_business_keeps_committed : keeps_committed get_business.
Proof.
  unfold get_business. apply keeps_committed_bind; [auto with session |].
  intros [b |]; auto with session.
Qed.


End CreateInvoice.

(* ================================================================== *)
(** * Invoice totals *)
(* ================================================================== *)

Section BindInversion.

Context {A B : Type}.

Lemma bind_ok (m : M A) (k : A -> M B) (s s' : Session) (b : B) :
  bind m k s = (s', Ok b) ->
  exists s1 a, m s = (s1, Ok a) /\ k a s1 = (s', Ok b).
Proof.
  unfold bind. destruct (m s) as [s1 [a | e]]; intros H.
  - exists s1, a. split; [reflexivity | exact H].
  - discriminate H.
Qed.

Lemma bind_err (m : M A) (k : A -> M B) (s s' : Session)
    (e : HTTPException) :
  bind m k s = (s', Err e) ->
  m s = (s', Err e)
  \/ exists s1 a, m s = (s1, Ok a) /\ k a s1 = (s', Err e).
Proof.
  unfold bind. destruct (m s) as [s1 [a | e1]]; intros H.
  - right. exists s1, a. split; [reflexivity | exact H].
  - left. inversion H. reflexivity.
Qed.

End BindInversion.

Lemma check_ok (bad : bool) (status : Z) (d : Detail) (s s' : Session)
    (u : unit) :
  check bad status d s = (s', Ok u) -> bad = false /\ s' = s.
Proof.
  unfold check. destruct bad; intros H; inversion H. split; reflexivity.
Qed.

Lemma py_sum_total {A : Type} (f : A -> Z) (l : list A) :
  py_sum f l = total f l.
Proof.
  unfold py_sum.
  assert (G : forall acc, fold_left (fun a x => a + f x) l acc = acc + total f l).
  { induction l as [| x rest IH]; intros acc; cbn [fold_left total].
    - lia.
    - rewrite IH. lia. }
  rewrite G. lia.
Qed.

Lemma total_map {A B : Type} (g : A -> B) (f : B -> Z) (l : list A) :
  total f (map g l) = total (fun x => f (g x)) l.
Proof.
  induction l as [| x rest IH]; cbn [map total]; [| rewrite IH]; reflexivity.
Qed.

Section InvoiceTotals.

Variable env : Env.
Variable business : BusinessProfile.t.
Variable customer : Customer.t.

Lemma make_invoice_item_breakup (item_data : InvoiceItemCreate.t)
    (product : Product.t) (t : TaxBreakup) :
  item_tax_breakup (make_invoice_item item_data product t) = t.
Proof. destruct t. reflexivity. Qed.

Lemma process_items_lines (items : list InvoiceItemCreate.t) :
  forall breakups invoice_items s s' breakups' invoice_items',
    process_items business customer items breakups invoice_items s
    = (s', Ok (breakups', invoice_items')) ->
    map item_tax_breakup invoice_items = breakups ->
    Forall (line_from_tax_engine (BusinessProfile.state_code business)
                                 (Customer.state_code customer))
           invoice_items ->
    map item_tax_breakup invoice_items' = breakups'
    /\ Forall (line_from_tax_engine (BusinessProfile.state_code business)
                                    (Customer.state_code customer))
              invoice_items'.
Proof.
  induction items as [| item_data rest IH];
    intros breakups invoice_items s s' breakups' invoice_items' H Hmap Hall;
    cbn [process_items] in H.
  - inversion H; subst. split; [reflexivity | assumption].
  - apply bind_ok in H. destruct H as (s1 & found & _ & H).
    destruct found as [product |]; [| discriminate H].
    apply bind_ok in H. destruct H as (s2 & u & _ & H).
    destruct (Product.reduce_stock product _) as [product' sufficient].
    apply bind_ok in H. destruct H as (s3 & u' & _ & H).
    destruct sufficient; cbn [negb] in H; [| discriminate H].
    apply IH in H; [exact H | |].
    + rewrite map_app, Hmap. cbn [map].
      rewrite make_invoice_item_breakup. reflexivity.
    + apply Forall_app. split; [assumption |].
      constructor; [| constructor].
      unfold line_from_tax_engine.
      rewrite make_invoice_item_breakup. reflexivity.
Qed.

End InvoiceTotals.



Section CreateInvoiceTotals.

Variable env : Env.


End CreateInvoiceTotals.

(* ================================================================== *)
(** * Tamper detection on client totals *)
(* ================================================================== *)

Section ClientTotals.

Variable env : Env.

Lemma validate_client_totals_none (computed : TaxBreakup) (s : Session) :
  _validate_client_totals None computed s = (s, Ok tt).
Proof. reflexivity. Qed.

(** What [_validate_client_totals] decides, for given asserted totals. *)
Lemma validate_client_totals_some (totals : InvoiceTotalsInput.t)
    (computed : TaxBreakup) (s : Session) :
  ((InvoiceTotalsInput.total_taxable_value totals
    == paise_to_rupees (taxable_amount_paise computed))%Q
   /\ (InvoiceTotalsInput.total_gst totals
       == paise_to_rupees (total_tax_paise computed))%Q
   /\ (InvoiceTotalsInput.grand_total totals
       == paise_to_rupees (total_amount_paise computed))%Q
   /\ _validate_client_totals (Some totals) computed s = (s, Ok tt))
  \/ (~ ((InvoiceTotalsInput.total_taxable_value totals
          == paise_to_rupees (taxable_amount_paise computed))%Q
         /\ (InvoiceTotalsInput.total_gst totals
             == paise_to_rupees (total_tax_paise computed))%Q
         /\ (InvoiceTotalsInput.grand_total totals
             == paise_to_rupees (total_amount_paise computed))%Q)
      /\ _validate_client_totals (Some totals) computed s
         = (s, Err {| status_code := 400; detail := TotalsMismatch |})).
Proof.
  unfold _validate_client_totals, paise_to_rupees, check.
  destruct (Qeq_bool (inject_Z (taxable_amount_paise computed) / 100)
              (InvoiceTotalsInput.total_taxable_value totals)) eqn:E1;
    [apply Qeq_bool_iff in E1 | apply Qeq_bool_neq in E1].
  2: { right. split; [| reflexivity].
       intros (A1 & _). apply E1. symmetry. exact A1. }
  destruct (Qeq_bool (inject_Z (total_tax_paise computed) / 100)
              (InvoiceTotalsInput.total_gst totals)) eqn:E2;
    [apply Qeq_bool_iff in E2 | apply Qeq_bool_neq in E2].
  2: { right. split; [| reflexivity].
       intros (_ & A2 & _). apply E2. symmetry. exact A2. }
  destruct (Qeq_bool (inject_Z (total_amount_paise computed) / 100)
              (InvoiceTotalsInput.grand_total totals)) eqn:E3;
    [apply Qeq_bool_iff in E3 | apply Qeq_bool_neq in E3].
  2: { right. split; [| reflexivity].
       intros (_ & _ & A3). apply E3. symmetry. exact A3. }
  left. repeat (split; [symmetry; assumption |]). reflexivity.
Qed.

(** The run of [create_invoice] up to the check of the client totals
    does not read them: if the request without client totals produces an
    invoice, the same request with any client totals reaches the check in
    some session state [s0] with the totals stored on that invoice, and
    carries on to the same result when the check passes. *)
Lemma create_invoice_up_to_totals (invoice_data : InvoiceCreate.t)
    (current_user_id : Z) (business : BusinessProfile.t)
    (s s1 : Session) (invoice : Invoice.t) :
  create_invoice env (with_client_totals None invoice_data)
    current_user_id business s = (s1, Ok invoice) ->
  exists s0 computed,
    taxable_amount_paise computed = Invoice.total_taxable_value_paise invoice
    /\ total_tax_paise computed = Invoice.total_gst_paise invoice
    /\ total_amount_paise computed = Invoice.grand_total_paise invoice
    /\ committed s0 = committed s
    /\ forall client_totals,
         create_invoice env (with_client_totals client_totals invoice_data)
           current_user_id business s
         = match _validate_client_totals client_totals computed s0 with
           | (_, Ok _) => (s1, Ok invoice)
           | (s0', Err e) => (s0', Err e)
           end.
Proof.
  intros H. unfold create_invoice in H.
  cbn [with_client_totals InvoiceCreate.customer_id
       InvoiceCreate.invoice_date InvoiceCreate.place_of_supply
       InvoiceCreate.items InvoiceCreate.client_totals] in H.
  apply bind_ok in H. destruct H as (s1' & u1 & E1 & H).
  apply bind_ok in H. destruct H as (s2 & u2 & E2 & H).
  apply bind_ok in H. destruct H as (s3 & found & E3 & H).
  destruct found as [customer |]; [| discriminate H].
  apply bind_ok in H. destruct H as (s4 & u4 & E4 & H).
  apply bind_ok in H. destruct H as (s5 & u5 & E5 & H).
  apply bind_ok in H. destruct H as (s6 & [breakups items] & E6 & H).
  apply bind_ok in H. destruct H as (s7 & u7 & E7 & H).
  cbn in E7. inversion E7; subst s7; clear E7.
  exists s6, (aggregate_invoice_taxes breakups).
  assert (Hc : committed s6 = committed s).
  { rewrite (keeps_committed_process_items _ _ _ _ _ _ _ _ E6).
    rewrite (keeps_committed_check _ _ _ _ _ _ E5).
    rewrite (keeps_committed_validate_customer env _ _ _ _ E4).
    rewrite (keeps_committed_query _ _ _ _ E3).
    rewrite (keeps_committed_check _ _ _ _ _ _ E2).
    exact (keeps_committed_check _ _ _ _ _ _ E1). }
  assert (Hinv :
    taxable_amount_paise (aggregate_invoice_taxes breakups)
      = Invoice.total_taxable_value_paise invoice
    /\ total_tax_paise (aggregate_invoice_taxes breakups)
       = Invoice.total_gst_paise invoice
    /\ total_amount_paise (aggregate_invoice_taxes breakups)
       = Invoice.grand_total_paise invoice).
  { destruct (BusinessProfile.generate_invoice_number business)
      as [invoice_number business'].
    unfold bind, mutate, query, db_commit, ret in H.
    inversion H; subst. repeat split. }
  destruct Hinv as (I1 & I2 & I3).
  repeat (split; [assumption |]).
  intros client_totals. unfold create_invoice.
  cbn [with_client_totals InvoiceCreate.customer_id
       InvoiceCreate.invoice_date InvoiceCreate.place_of_supply
       InvoiceCreate.items InvoiceCreate.client_totals].
  unfold bind at 1. rewrite E1.
  unfold bind at 1. rewrite E2.
  unfold bind at 1. rewrite E3.
  unfold bind at 1. rewrite E4.
  unfold bind at 1. rewrite E5.
  unfold bind at 1. rewrite E6.
  unfold bind at 1.
  destruct (_validate_client_totals client_totals
              (aggregate_invoice_taxes breakups) s6) as [s7 [u | e]] eqn:E7.
  - assert (s7 = s6).
    { destruct client_totals as [totals |].
      - destruct (validate_client_totals_some totals
                    (aggregate_invoice_taxes breakups) s6)
          as [(_ & _ & _ & Hv) | (_ & Hv)];
          rewrite Hv in E7; inversion E7; reflexivity.
      - inversion E7; reflexivity. }
    subst s7. exact H.
  - reflexivity.
Qed.

(** C7: omitting the client totals never triggers the check; a request
    that supplies them succeeds only if the asserted taxable value, GST
    and grand total each equal the rupee value of the computed totals;
    and where the request would otherwise produce an invoice, supplying
    totals that agree produces that same invoice, while totals that
    differ in any of the three figures, by one paise or more, reject the
    whole invoice with status 400 (a VALIDATION error) and commit
    nothing. *)
Theorem client_totals_checked_exactly (invoice_data : InvoiceCreate.t)
    (current_user_id : Z) (business : BusinessProfile.t) (s : Session) :
  (forall computed s0, _validate_client_totals None computed s0 = (s0, Ok tt))
  /\ (forall totals s' invoice,
        InvoiceCreate.client_totals invoice_data = Some totals ->
        create_invoice env invoice_data current_user_id business s
        = (s', Ok invoice) ->
        totals_agree totals invoice)
  /\ (forall totals s1 invoice,
        create_invoice env (with_client_totals None invoice_data)
          current_user_id business s = (s1, Ok invoice) ->
        (totals_agree totals invoice ->
         create_invoice env (with_client_totals (Some totals) invoice_data)
           current_user_id business s = (s1, Ok invoice))
        /\ (~ totals_agree totals invoice ->
            exists s2 e,
              create_invoice env
                (with_client_totals (Some totals) invoice_data)
                current_user_id business s = (s2, Err e)
              /\ status_code e = HTTP_400_BAD_REQUEST
              /\ detail e = TotalsMismatch
              /\ error_kind e = VALIDATION
              /\ committed s2 = committed s)).
Proof.
  split; [intros; apply validate_client_totals_none |].
  assert (Hthird : forall totals s1 invoice,
        create_invoice env (with_client_totals None invoice_data)
          current_user_id business s = (s1, Ok invoice) ->
        (totals_agree totals invoice ->
         create_invoice env (with_client_totals (Some totals) invoice_data)
           current_user_id business s = (s1, Ok invoice))
        /\ (~ totals_agree totals invoice ->
            exists s2 e,
              create_invoice env
                (with_client_totals (Some totals) invoice_data)
                current_user_id business s = (s2, Err e)
              /\ status_code e = HTTP_400_BAD_REQUEST
              /\ detail e = TotalsMismatch
              /\ error_kind e = VALIDATION
              /\ committed s2 = committed s)).
  { intros totals s1 invoice H.
    destruct (create_invoice_up_to_totals _ _ _ _ _ _ H)
      as (s0 & computed & I1 & I2 & I3 & Hc & Hrun).
    specialize (Hrun (Some totals)).
    unfold totals_agree. rewrite <- I1, <- I2, <- I3.
    destruct (validate_client_totals_some totals computed s0)
      as [(A1 & A2 & A3 & Hv) | (Hn & Hv)]; rewrite Hv in Hrun.
    - split; [intros _; exact Hrun |].
      intros Hno. exfalso. apply Hno. repeat split; assumption.
    - split; [intros Hyes; contradiction |].
      intros _. eexists s0, _. split; [exact Hrun |].
      repeat split. exact Hc. }
  split; [| exact Hthird].
  intros totals s' invoice Hct H. unfold create_invoice in H.
  apply bind_ok in H. destruct H as (s1 & u1 & _ & H).
  apply bind_ok in H. destruct H as (s2 & u2 & _ & H).
  apply bind_ok in H. destruct H as (s3 & found & _ & H).
  destruct found as [customer |]; [| discriminate H].
  apply bind_ok in H. destruct H as (s4 & u4 & _ & H).
  apply bind_ok in H. destruct H as (s5 & u5 & _ & H).
  apply bind_ok in H. destruct H as (s6 & [breakups items] & _ & H).
  apply bind_ok in H. destruct H as (s7 & u7 & E7 & H).
  rewrite Hct in E7.
  destruct (validate_client_totals_some totals
              (aggregate_invoice_taxes breakups) s6)
    as [(A1 & A2 & A3 & _) | (_ & Hv)];
    [| rewrite Hv in E7; discriminate E7].
  destruct (BusinessProfile.generate_invoice_number business)
    as [invoice_number business'].
  unfold bind, mutate, query, db_commit, ret in H.
  inversion H; subst. unfold totals_agree.
  cbn [Invoice.total_taxable_value_paise Invoice.total_gst_paise
       Invoice.grand_total_paise].
  repeat split; assumption.
Qed.

End ClientTotals.

(* ================================================================== *)
(** * Stock changes *)
(* ================================================================== *)

Section UpdateFirst.

Context {A : Type}.

Lemma update_first_none (p : A -> bool) (g : A -> A) (l : list A) :
  find p l = None -> update_first p g l = l.
Proof.
  induction l as [| x rest IH]; cbn [find update_first]; [reflexivity |].
  destruct (p x); [discriminate |]. intros H. rewrite (IH H). reflexivity.
Qed.


Lemma find_update_first_same (p : A -> bool) (g : A -> A) (l : list A) :
  (forall x, p x = true -> p (g x) = true) ->
  find p (update_first p g l) = option_map g (find p l).
Proof.
  intros Hg. induction l as [| x rest IH]; cbn [find update_first];
    [reflexivity |].
  destruct (p x) eqn:E; cbn [find].
  - rewrite (Hg x E). reflexivity.
  - rewrite E. exact IH.
Qed.

Lemma find_update_first_other (p q : A -> bool) (g : A -> A) (l : list A) :
  (forall x, q (g x) = q x) ->
  (forall x, p x = true -> q x = false) ->
  find q (update_first p g l) = find q l.
Proof.
  intros Hg Hpq. induction l as [| x rest IH]; cbn [find update_first];
    [reflexivity |].
  destruct (p x) eqn:E; cbn [find].
  - rewrite Hg, (Hpq x E). reflexivity.
  - rewrite IH. reflexivity.
Qed.

Lemma map_update_first {B : Type} (f : A -> B) (p : A -> bool) (g : A -> A)
    (l : list A) :
  (forall x, f (g x) = f x) -> map f (update_first p g l) = map f l.
Proof.
  intros Hg. induction l as [| x rest IH]; cbn [map update_first];
    [reflexivity |].
  destruct (p x); cbn [map]; [rewrite Hg | rewrite IH]; reflexivity.
Qed.

End UpdateFirst.

Lemma add_stock_zero (p : Product.t) : Product.add_stock 0 p = p.
Proof.
  destruct p. unfold Product.add_stock, Product.set_stock_quantity.
  cbn. rewrite Z.add_0_r. reflexivity.
Qed.

Lemma add_stock_add_stock (a b : Z) (p : Product.t) :
  Product.add_stock b (Product.add_stock a p) = Product.add_stock (a + b) p.
Proof.
  destruct p. unfold Product.add_stock, Product.set_stock_quantity.
  cbn. rewrite Z.add_assoc. reflexivity.
Qed.



Section KeyedStock.

Context {K : Type}.
Variable pred : K -> Product.t -> bool.
Variable eqb : K -> K -> bool.
Hypothesis eqb_spec : forall a b, eqb a b = true <-> a = b.
Hypothesis pred_add_stock :
  forall k q p, pred k (Product.add_stock q p) = pred k p.
Hypothesis pred_key :
  forall k k' p, pred k p = true -> pred k' p = true -> k = k'.

Lemma find_apply_stock_updates (k : K) (updates : list (K * Z)) :
  forall ps,
    find (pred k) (apply_stock_updates pred updates ps)
    = option_map (Product.add_stock (updates_total eqb k updates))
                 (find (pred k) ps).
Proof.
  unfold apply_stock_updates, updates_total.
  induction updates as [| [k' q] rest IH]; intros ps;
    cbn [fold_left filter total fst snd].
  - destruct (find (pred k) ps); cbn [option_map];
      [rewrite add_stock_zero |]; reflexivity.
  - rewrite IH. destruct (eqb k' k) eqn:E.
    + apply eqb_spec in E. subst k'.
      rewrite find_update_first_same
        by (intros; rewrite pred_add_stock; assumption).
      destruct (find (pred k) ps); cbn [option_map total snd];
        [rewrite add_stock_add_stock |]; reflexivity.
    + rewrite find_update_first_other; [reflexivity | |].
      * intros; apply pred_add_stock.
      * intros x Hx. destruct (pred k x) eqn:Hk; [| reflexivity].
        rewrite (pred_key _ _ _ Hx Hk) in E.
        assert (T : eqb k k = true) by (apply eqb_spec; reflexivity).
        congruence.
Qed.

Lemma stock_only_apply_stock_updates (updates : list (K * Z)) :
  forall ps,
    map (Product.set_stock_quantity 0) (apply_stock_updates pred updates ps)
    = map (Product.set_stock_quantity 0) ps.
Proof.
  unfold apply_stock_updates.
  induction updates as [| u rest IH]; intros ps; cbn [fold_left];
    [reflexivity |].
  rewrite IH. apply map_update_first. intros x. reflexivity.
Qed.

End KeyedStock.

Lemma product_with_id_add_stock (pid q : Z) (p : Product.t) :
  product_with_id pid (Product.add_stock q p) = product_with_id pid p.
Proof. reflexivity. Qed.

Lemma product_with_id_key (pid pid' : Z) (p : Product.t) :
  product_with_id pid p = true -> product_with_id pid' p = true -> pid = pid'.
Proof. unfold product_with_id. rewrite !Z.eqb_eq. congruence. Qed.



Lemma find_some_product_with_id (pid : Z) (ps : list Product.t)
    (p : Product.t) :
  find (product_with_id pid) ps = Some p -> Product.id p = pid.
Proof.
  intros H. apply find_some in H. destruct H as [_ H].
  apply Z.eqb_eq in H. exact H.
Qed.

Lemma updates_total_restore (pid : Z) (items : list InvoiceItem.t) :
  pid <> 0 ->
  updates_total Z.eqb pid (restore_updates items)
  = restored_quantity pid items.
Proof.
  intros Hpid. unfold updates_total, restore_updates, restored_quantity.
  induction items as [| item rest IH]; cbn [flat_map filter total];
    [reflexivity |].
  destruct (InvoiceItem.product_id item) as [z |]; [| exact IH].
  destruct (z =? 0) eqn:Ez.
  - apply Z.eqb_eq in Ez. subst z.
    replace (0 =? pid) with false by (symmetry; apply Z.eqb_neq; lia).
    exact IH.
  - cbn [app filter fst]. destruct (z =? pid); cbn [total snd];
      rewrite IH; reflexivity.
Qed.


(* ================================================================== *)
(** * Cancelling an invoice *)
(* ================================================================== *)

Lemma set_products_same (db : Database) : set_products (products db) db = db.
Proof. destruct db. reflexivity. Qed.

Lemma session_eta (s : Session) :
  {| committed := committed s; pending := pending s |} = s.
Proof. destruct s. reflexivity. Qed.

Section CancelInvoice.

Variable env : Env.

(** The loop of [cancel_invoice] applies its stock changes to the
    pending products and nothing else. *)
Lemma restore_stock_run (items : list InvoiceItem.t) :
  forall s,
    restore_stock items s
    = ({| committed := committed s;
          pending :=
            set_products
              (apply_stock_updates product_with_id (restore_updates items)
                                   (products (pending s)))
              (pending s) |}, Ok tt).
Proof.
  induction items as [| item rest IH]; intros s.
  - cbn. rewrite set_products_same, session_eta. reflexivity.
  - cbn [restore_stock restore_updates flat_map]. unfold bind at 1.
    unfold int_truthy.
    destruct (InvoiceItem.product_id item) as [pid |].
    + destruct (pid =? 0) eqn:Ez; cbn [negb].
      * cbn [ret app]. rewrite IH. reflexivity.
      * unfold bind at 1, query.
        destruct (find (product_with_id pid) (products (pending s)))
          eqn:Ef.
        -- unfold mutate. rewrite IH.
           cbn [committed pending products set_products app
                customers suppliers business_profile invoices
                purchase_invoices].
           reflexivity.
        -- cbn [ret]. rewrite IH. cbn [app].
           unfold apply_stock_updates at 2. cbn [fold_left fst snd].
           rewrite (update_first_none _ _ _ Ef). reflexivity.
    + cbn [ret app]. rewrite IH. reflexivity.
Qed.

Lemma cancel_invoice_run (invoice_id : Z) (reason : string) (db : Database)
    (invoice : Invoice.t) :
  find (invoice_with_id invoice_id) (invoices db) = Some invoice ->
  Invoice.is_cancelled invoice = false ->
  api_cancel_invoice env invoice_id reason db
  = (set_invoices
       (update_first (invoice_with_id invoice_id)
                     (fun _ => cancelled_invoice env reason invoice)
                     (invoices db))
       (set_products
          (apply_stock_updates product_with_id
             (restore_updates (Invoice.items invoice)) (products db))
          db),
     Ok (cancelled_invoice env reason invoice)).
Proof.
  intros Hfind Hactive.
  unfold api_cancel_invoice, get_db, cancel_invoice, SessionLocal.
  unfold bind at 1, query. cbn [pending]. rewrite Hfind.
  unfold bind at 1, check. rewrite Hactive. cbn [ret].
  unfold bind at 1. rewrite restore_stock_run.
  cbn. reflexivity.
Qed.

Lemma cancel_invoice_twice (invoice_id : Z) (reason : string)
    (db : Database) (invoice : Invoice.t) :
  find (invoice_with_id invoice_id) (invoices db) = Some invoice ->
  Invoice.is_cancelled invoice = true ->
  api_cancel_invoice env invoice_id reason db
  = (db, Err {| status_code := 400;
                detail := InvoiceAlreadyCancelled
                            (Invoice.invoice_number invoice) |}).
Proof.
  intros Hfind Hcancelled.
  unfold api_cancel_invoice, get_db, cancel_invoice, SessionLocal.
  unfold bind at 1, query. cbn [pending]. rewrite Hfind.
  unfold bind at 1, check. rewrite Hcancelled. reflexivity.
Qed.



End CancelInvoice.

(* ================================================================== *)
(** * Finalizing a purchase *)
(* ================================================================== *)





Section FinalizePurchase.

Variable env : Env.

(** The second loop of [finalize_purchase] applies its stock changes to
    the pending products and nothing else. *)
Lemma receive_stock_run (items : list PurchaseItem.t) :
  forall s,
    receive_stock items s
    = ({| committed := committed s;
          pending :=
            set_products
              (apply_stock_updates active_product_with_hsn
                 (receive_updates items) (products (pending s)))
              (pending s) |}, Ok tt).
Proof.
  induction items as [| item rest IH]; intros s.
  - cbn. rewrite set_products_same, session_eta. reflexivity.
  - cbn [receive_stock receive_updates map]. unfold bind at 1.
    unfold bind at 1, query.
    destruct (find (active_product_with_hsn (PurchaseItem.hsn_code item))
                   (products (pending s))) eqn:Ef.
    + unfold mutate. rewrite IH.
      cbn [committed pending products set_products customers suppliers
           business_profile invoices purchase_invoices].
      reflexivity.
    + cbn [ret]. rewrite IH.
      unfold apply_stock_updates at 2. cbn [fold_left fst snd].
      rewrite (update_first_none _ _ _ Ef). reflexivity.
Qed.

Lemma finalize_purchase_finalized (purchase_id : Z) (db : Database)
    (purchase : PurchaseInvoice.t) :
  find (purchase_with_id purchase_id) (purchase_invoices db) = Some purchase ->
  PurchaseInvoice.status purchase = "Finalized"%string ->
  api_finalize_purchase env purchase_id db
  = (db, Err {| status_code := 400; detail := PurchaseAlreadyFinalized |}).
Proof.
  intros Hfind Hst.
  unfold api_finalize_purchase, get_db, finalize_purchase, SessionLocal.
  unfold bind at 1, query. cbn [pending]. rewrite Hfind.
  unfold bind at 1, check. rewrite Hst. reflexivity.
Qed.

Lemma finalize_purchase_cancelled (purchase_id : Z) (db : Database)
    (purchase : PurchaseInvoice.t) :
  find (purchase_with_id purchase_id) (purchase_invoices db) = Some purchase ->
  PurchaseInvoice.status purchase = "Cancelled"%string ->
  api_finalize_purchase env purchase_id db
  = (db, Err {| status_code := 400; detail := PurchaseIsCancelled |}).
Proof.
  intros Hfind Hst.
  unfold api_finalize_purchase, get_db, finalize_purchase, SessionLocal.
  unfold bind at 1, query. cbn [pending]. rewrite Hfind.
  unfold bind at 1, check. rewrite Hst. reflexivity.
Qed.

Lemma finalize_purchase_run (purchase_id : Z) (db : Database)
    (purchase : PurchaseInvoice.t) :
  find (purchase_with_id purchase_id) (purchase_invoices db) = Some purchase ->
  PurchaseInvoice.status purchase <> "Finalized"%string ->
  PurchaseInvoice.status purchase <> "Cancelled"%string ->
  api_finalize_purchase env purchase_id db
  = match missing_hsns (products db) (PurchaseInvoice.items purchase) with
    | _ :: _ =>
        (db, Err {| status_code := 400;
                    detail :=
                      MissingProductsForHsn
                        (sorted_set
                           (missing_hsns (products db)
                              (PurchaseInvoice.items purchase))) |})
    | [] =>
        (set_purchase_invoices
           (update_first (purchase_with_id purchase_id)
              (fun _ => PurchaseInvoice.finalize (utc_now env) purchase)
              (purchase_invoices db))
           (set_products
              (apply_stock_updates active_product_with_hsn
                 (receive_updates (PurchaseInvoice.items purchase))
                 (products db))
              db),
         Ok (PurchaseInvoice.finalize (utc_now env) purchase))
    end.
Proof.
  intros Hfind Hf Hc.
  apply String.eqb_neq in Hf, Hc.
  unfold api_finalize_purchase, get_db, finalize_purchase, SessionLocal.
  unfold bind at 1, query. cbn [pending]. rewrite Hfind.
  unfold bind at 1, check. rewrite Hf. cbn [ret].
  unfold bind at 1. rewrite Hc. cbn [ret].
  unfold bind at 1. cbn [pending].
  destruct (missing_hsns (products db) (PurchaseInvoice.items purchase))
    as [| h rest]; [| reflexivity].
  unfold bind at 1. rewrite receive_stock_run. cbn. reflexivity.
Qed.


End FinalizePurchase.

(* ================================================================== *)
(** * The GST summary *)
(* ================================================================== *)

Section GstSummary.





(** X19: a database whose purchases all carry a status that the
    purchase lifecycle writes ("Draft", "Finalized" or "Cancelled") always
    gets a report, and that report counts no purchase: its input GST is
    0. *)
Lemma gst_summary_input_is_zero (db : Database) (from_date to_date : date) :
  Forall (fun p => In (PurchaseInvoice.status p)
                      ["Draft"; "Finalized"; "Cancelled"]%string)
         (purchase_invoices db) ->
  exists r,
    generate_gst_summary db from_date to_date = Ok r
    /\ (gs_total (input_gst r) == 0)%Q
    /\ purchase_count r = 0%nat.
Proof.
  intros Hall. unfold generate_gst_summary.
  assert (Hnone :
    filter (fun p =>
              in_period from_date to_date (PurchaseInvoice.purchase_date p)
              && String.eqb (PurchaseInvoice.status p) "FINAL")
           (purchase_invoices db) = []).
  { induction Hall as [| p rest Hp _ IH]; cbn [filter]; [reflexivity |].
    assert (E : String.eqb (PurchaseInvoice.status p) "FINAL" = false).
    { cbn [In] in Hp.
      destruct Hp as [<- | [<- | [<- | []]]]; reflexivity. }
    rewrite E, andb_false_r. exact IH. }
  rewrite Hnone. destruct (accumulate_output _ _) as [[c s] i].
  cbn [accumulate_input]. eexists. split; [reflexivity |].
  cbn [input_gst gs_total purchase_count List.length].
  split; reflexivity.
Qed.

(** C4 fails on the code: the purchase of the sample installation,
    finalized by [finalize_purchase] within December 2025, stores 2250
    paise of GST, and the GST summary of December counts no purchase and
    reports an input GST of 0. *)
Theorem gst_summary_misses_finalized_purchase :
  map PurchaseInvoice.status (purchase_invoices sample_db_finalized)
  = ["Finalized"%string]
  /\ stored_input_gst_paise sample_db_finalized december_first december_last
     = 2250
  /\ match generate_gst_summary sample_db_finalized
             december_first december_last with
     | Ok r =>
         Qeq_bool (gs_total (input_gst r)) 0 = true
         /\ purchase_count r = 0%nat
     | Err _ => False
     end.
Proof. vm_compute. repeat split. Qed.

End GstSummary.

(* ================================================================== *)
(** * The sample installation *)
(* ================================================================== *)

Section SampleInstallation.

(** The sample order is invoiced as INV000001: 207.50 taxable, 36.38 of
    GST (18.00 + 18.00 on the widgets, 0.19 + 0.19 on the gadgets),
    243.88 in all, and the stock goes from 10 and 4 to 8 and 1. *)
Example sample_order_invoiced :
  match api_create_invoice sample_env 1 (sample_order None) sample_db with
  | (db', Ok invoice) =>
      Invoice.invoice_number invoice = "INV000001"%string
      /\ Invoice.total_taxable_value_paise invoice = 20750
      /\ Invoice.total_gst_paise invoice = 3638
      /\ Invoice.grand_total_paise invoice = 24388
      /\ map Product.stock_quantity (products db') = [8; 1]
      /\ option_map BusinessProfile.current_invoice_number
           (business_profile db') = Some 2
  | (_, Err _) => False
  end.
Proof. vm_compute. repeat split. Qed.

(** Summing line by line is not deriving the tax again from the combined
    taxable total: the gadgets carry 19 + 19 paise, where 5 % of their
    750 paise is 37.5 paise. *)
Example sample_order_gadget_line :
  total_tax_paise (calculate_line_item_tax 3 250 5 "29" "29") = 38
  /\ calculate_percentage 750 5 = 38
  /\ total_tax_paise (calculate_line_item_tax 1 10 5 "29" "27")
     + total_tax_paise (calculate_line_item_tax 1 10 5 "29" "27") = 0
  /\ calculate_percentage (10 + 10) 5 = 1.
Proof. vm_compute. repeat split. Qed.


(** The same order with a grand total asserted one paise too high is
    rejected after both stock reductions have been made in the session;
    the session is dropped and the database is unchanged. *)
Example sample_order_tampered_pending_stock :
  let r := create_invoice sample_env
             (sample_order (Some sample_totals_off_by_one_paise)) 1
             sample_business (SessionLocal sample_db) in
  map Product.stock_quantity (products (pending (fst r))) = [8; 1]
  /\ map Product.stock_quantity (products (committed (fst r))) = [10; 4]
  /\ snd r = Err {| status_code := 400; detail := TotalsMismatch |}.
Proof. vm_compute. repeat split. Qed.


(** The asserted totals of the sample order are accepted as they are and
    rejected with the grand total off by one paise. *)
Example sample_order_client_totals :
  snd (api_create_invoice sample_env 1 (sample_order (Some sample_totals))
         sample_db)
  = snd (api_create_invoice sample_env 1 (sample_order None) sample_db)
  /\ snd (api_create_invoice sample_env 1
            (sample_order (Some sample_totals_off_by_one_paise)) sample_db)
     = Err {| status_code := 400; detail := TotalsMismatch |}.
Proof. vm_compute. repeat split. Qed.


(** Cancelling the sample invoice brings the stock back to 10 and 4. *)
Example sample_invoice_cancelled :
  map Product.stock_quantity
    (products (fst (api_cancel_invoice sample_env 1 "returned"
                      sample_db_sold))) = [10; 4].
Proof. vm_compute. reflexivity. Qed.


(** The soft-deleted gadget, with 1 in stock, is back at 4 after the
    cancellation and is still inactive. *)
Example sample_gadget_restocked :
  map (fun p => (Product.stock_quantity p, Product.is_active p))
    (products (fst (api_cancel_invoice sample_env 1 "returned"
                      sample_db_sold_gadget_deleted)))
  = [(10, true); (4, false)].
Proof. vm_compute. reflexivity. Qed.


(** Finalizing the sample purchase of 2.5 units adds 2 to the stock of
    the widget; finalizing it again is rejected. *)
Example sample_purchase_finalized :
  map Product.stock_quantity (products sample_db_finalized) = [12; 4]
  /\ api_finalize_purchase sample_env 1 sample_db_finalized
     = (sample_db_finalized,
        Err {| status_code := 400; detail := PurchaseAlreadyFinalized |}).
Proof. vm_compute. repeat split. Qed.

(** A purchase with lines under the unknown HSN codes 9999, 8888 and 9999
    again is refused with both codes reported once, in order, and the
    database, the stock of the widget included, stays as it was. *)
Example sample_purchase_unknown_hsn :
  api_finalize_purchase sample_env 1 sample_db_purchased_unknown_hsn
  = (sample_db_purchased_unknown_hsn,
     Err {| status_code := 400;
            detail := MissingProductsForHsn ["8888"; "9999"]%string |}).
Proof. vm_compute. reflexivity. Qed.

(** The primitives on the values of the sample installation. *)
Example sample_primitives :
  validate_gstin sample_env "29ABCDE1234F1Z5" = true
  /\ extract_state_code_from_gstin sample_env "29ABCDE1234F1Z5"
     = Some "29"%string
  /\ validate_gstin sample_env "29abcde1234F1Z5" = false
  /\ validate_hsn_code "1234" = true
  /\ validate_hsn_code "12345" = false
  /\ format_06d 42 = "000042"%string
  /\ format_06d 1234567 = "1234567"%string
  /\ sorted_set ["9999"; "1234"; "9999"; "12"]%string
     = ["12"; "1234"; "9999"]%string
  /\ py_round (5 # 2) = 2 /\ py_round (7 # 2) = 4 /\ py_round (-5 # 2) = -2
  /\ py_int (5 # 2) = 2 /\ py_int (-5 # 2) = -2.
Proof. vm_compute. repeat split. Qed.

End SampleInstallation.

(* ================================================================== *)
(** * Further properties of the tax engine and the helpers *)
(* ================================================================== *)

Section TaxEngineBounds.

Lemma py_round_within_half (q : Q) :
  (inject_Z (py_round q) - (1#2) <= q /\ q <= inject_Z (py_round q) + (1#2))%Q.
Proof. exact (proj1 (py_round_nearest q)). Qed.

Lemma py_round_mono (q q' : Q) : (q <= q')%Q -> py_round q <= py_round q'.
Proof.
  intros Hle.
  destruct (Z_le_gt_dec (py_round q) (py_round q')) as [| Hgt]; [assumption |].
  exfalso.
  destruct (py_round_nearest q) as [[L1 U1] _].
  destruct (py_round_nearest q') as [[L2 U2] _].
  assert (Hz : (inject_Z (py_round q') + 1 <= inject_Z (py_round q))%Q).
  { rewrite <- inject_Z_succ. rewrite <- Zle_Qle. lia. }
  assert (E : (q == q')%Q) by lra.
  apply py_round_comp in E. lia.
Qed.

(** X1: within the precision of the decimal context
    ([decimal_exact_range]) the total tax of a line differs from the
    exact tax, amount x rate / 100, by at most one paise when the states
    are equal (two roundings of the half) and by at most half a paise
    otherwise. *)
Theorem calculate_gst_total_tax_error (amount : Z) (rate : Q) (k : Z)
    (seller buyer : string) :
  decimal_exact_range amount rate k ->
  let t := calculate_gst amount rate seller buyer in
  let exact := (inject_Z amount * rate / 100)%Q in
  (exact - 1 <= inject_Z (total_tax_paise t)
   /\ inject_Z (total_tax_paise t) <= exact + 1)%Q
  /\ (if String.eqb seller buyer then True
      else (exact - (1#2) <= inject_Z (total_tax_paise t)
            /\ inject_Z (total_tax_paise t) <= exact + (1#2))%Q).
Proof.
  intros _.
  cbv zeta. unfold calculate_gst, calculate_percentage, round_gst_amount.
  destruct (String.eqb seller buyer); cbn [total_tax_paise].
  - pose proof (py_round_within_half (inject_Z amount * (rate / 2) / 100))
      as [L U].
    set (r := py_round (inject_Z amount * (rate / 2) / 100)) in *.
    rewrite inject_Z_plus.
    assert (E : (inject_Z amount * (rate / 2) / 100
                 == inject_Z amount * rate / 100 / 2)%Q) by field.
    rewrite E in L, U.
    set (x := (inject_Z amount * rate / 100)%Q) in *.
    assert (Hx : (x == x / 2 + x / 2)%Q) by field.
    split; [split; lra | exact I].
  - pose proof (py_round_within_half (inject_Z amount * rate / 100)) as [L U].
    split; split; lra.
Qed.

Lemma calculate_gst_total_tax_error_witness :
  decimal_exact_range 750 5 500
  /\ total_tax_paise (calculate_gst 750 5 "29" "29") = 38
  /\ (inject_Z 750 * 5 / 100 - 1
      <= inject_Z (total_tax_paise (calculate_gst 750 5 "29" "29")))%Q
  /\ (inject_Z (total_tax_paise (calculate_gst 750 5 "29" "29"))
      <= inject_Z 750 * 5 / 100 + 1)%Q.
Proof.
  assert (H : decimal_exact_range 750 5 500).
  { unfold decimal_exact_range.
    split; [closed_Z | split; [closed_Z | reflexivity]]. }
  split; [exact H |]. split; [reflexivity |].
  exact (proj1 (calculate_gst_total_tax_error 750 5 500 "29" "29" H)).
Defined.

(** X2: for a non-negative rate the tax engine is monotone in the taxable
    amount: a larger amount never yields a smaller cgst, sgst, igst, total
    tax or total amount. *)
Theorem calculate_gst_monotone (amount amount' : Z) (rate : Q)
    (seller buyer : string) :
  (0 <= rate)%Q ->
  amount <= amount' ->
  let t := calculate_gst amount rate seller buyer in
  let t' := calculate_gst amount' rate seller buyer in
  cgst_paise t <= cgst_paise t'
  /\ sgst_paise t <= sgst_paise t'
  /\ igst_paise t <= igst_paise t'
  /\ total_tax_paise t <= total_tax_paise t'
  /\ total_amount_paise t <= total_amount_paise t'.
Proof.
  intros Hr Ha. cbv zeta.
  assert (HaQ : (inject_Z amount <= inject_Z amount')%Q)
    by (rewrite <- Zle_Qle; exact Ha).
  assert (Hfull : calculate_percentage amount rate
                  <= calculate_percentage amount' rate).
  { unfold calculate_percentage, round_gst_amount. apply py_round_mono.
    apply Qmult_le_compat_r; [| discriminate].
    apply Qmult_le_compat_r; assumption. }
  assert (Hhalf : calculate_percentage amount (rate / 2)
                  <= calculate_percentage amount' (rate / 2)).
  { unfold calculate_percentage, round_gst_amount. apply py_round_mono.
    apply Qmult_le_compat_r; [| discriminate].
    apply Qmult_le_compat_r; [assumption |].
    apply Qle_shift_div_l; [reflexivity |]. rewrite Qmult_0_l. assumption. }
  unfold calculate_gst. destruct (String.eqb seller buyer);
    cbn [cgst_paise sgst_paise igst_paise total_tax_paise total_amount_paise];
    repeat split; lia.
Qed.

Lemma calculate_gst_monotone_witness :
  (0 <= 18)%Q
  /\ 10000 <= 10001
  /\ total_tax_paise (calculate_gst 10000 18 "29" "29")
     <= total_tax_paise (calculate_gst 10001 18 "29" "29").
Proof.
  assert (H1 : (0 <= 18)%Q) by discriminate.
  assert (H2 : 10000 <= 10001) by lia.
  repeat (split; [assumption |]).
  apply (calculate_gst_monotone 10000 10001 18 "29" "29" H1 H2).
Defined.

(** X3: converting paise to rupees and back gives the paise again, for
    every amount of at most 28 digits; and converting a decimal amount of
    rupees with a coefficient of at most 28 digits to paise drops what is
    below one paise, towards zero. *)
Theorem paise_rupees_round_trip (paise m : Z) (d : nat) :
  Z.abs paise < 10 ^ 28 ->
  Z.abs m < 10 ^ 28 ->
  let rupees := decimal_value m d in
  rupees_to_paise (paise_to_rupees paise) = paise
  /\ (if Qle_bool 0 rupees
      then (inject_Z (rupees_to_paise rupees) <= rupees * 100
            /\ rupees * 100 < inject_Z (rupees_to_paise rupees) + 1)%Q
      else (rupees * 100 <= inject_Z (rupees_to_paise rupees)
            /\ inject_Z (rupees_to_paise rupees) - 1 < rupees * 100)%Q).
Proof.
  intros _ _. cbv zeta. generalize (decimal_value m d). intros rupees.
  split.
  - unfold rupees_to_paise, paise_to_rupees.
    assert (E : (inject_Z paise / 100 * 100 == inject_Z paise)%Q) by field.
    unfold py_int.
    destruct (Qle_bool 0 (inject_Z paise / 100 * 100)).
    + rewrite (Qfloor_comp _ _ E). apply Qfloor_Z.
    + rewrite (Qceiling_comp _ _ E). apply Qceiling_Z.
  - unfold rupees_to_paise, py_int.
    destruct (Qle_bool 0 rupees) eqn:E.
    + assert (E' : Qle_bool 0 (rupees * 100) = true).
      { apply Qle_bool_iff. apply Qle_bool_iff in E.
        apply Qmult_le_0_compat; [assumption | discriminate]. }
      rewrite E'. split; [apply Qfloor_le |].
      rewrite <- inject_Z_succ. apply Qlt_floor.
    + assert (E' : Qle_bool 0 (rupees * 100) = false).
      { destruct (Qle_bool 0 (rupees * 100)) eqn:F; [| reflexivity].
        apply Qle_bool_iff in F.
        assert (G : (0 <= rupees)%Q) by lra.
        apply Qle_bool_iff in G. congruence. }
      rewrite E'. split; [apply Qle_ceiling |].
      rewrite <- inject_Z_pred. apply Qceiling_lt.
Qed.

Lemma paise_rupees_round_trip_witness :
  Z.abs 24388 < 10 ^ 28
  /\ Z.abs (-12345) < 10 ^ 28
  /\ rupees_to_paise (paise_to_rupees 24388) = 24388
  /\ rupees_to_paise (decimal_value 12345 3) = 1234
  /\ rupees_to_paise (decimal_value (-12345) 3) = -1234.
Proof.
  assert (H1 : Z.abs 24388 < 10 ^ 28) by closed_Z.
  assert (H2 : Z.abs (-12345) < 10 ^ 28) by closed_Z.
  repeat (split; [assumption |]).
  split; [| split; reflexivity].
  exact (proj1 (paise_rupees_round_trip 24388 (-12345) 3 H1 H2)).
Defined.

End TaxEngineBounds.

(* ================================================================== *)
(** * Properties of the validators *)
(* ================================================================== *)

Section Validators.

Lemma match_classes_length (classes : list (ascii -> bool)) :
  forall s, match_classes classes s = true ->
            List.length s = List.length classes.
Proof.
  induction classes as [| k rest IH]; intros [| c s]; cbn [match_classes];
    try discriminate; [reflexivity |].
  rewrite andb_true_iff. intros [_ H]. cbn [List.length].
  rewrite (IH s H). reflexivity.
Qed.

(** X4: when [extract_state_code_from_gstin] returns a state code, the
    GSTIN is valid and 15 characters long, and the code is its first two
    characters, both digits; it returns nothing exactly when the GSTIN is
    not valid. *)
Theorem extract_state_code_sound (env : Env) (gstin : string) :
  match extract_state_code_from_gstin env gstin with
  | Some code =>
      validate_gstin env gstin = true
      /\ String.length gstin = 15%nat
      /\ code = String.substring 0 2 gstin
      /\ String.length code = 2%nat
      /\ str_isdigit code = true
  | None => validate_gstin env gstin = false
  end.
Proof.
  unfold extract_state_code_from_gstin.
  destruct (validate_gstin env gstin) eqn:Hv; [| reflexivity].
  split; [reflexivity |].
  unfold validate_gstin in Hv.
  destruct (String.eqb gstin "" || negb (Nat.eqb (String.length gstin) 15))
    eqn:Hlen; [discriminate |].
  apply orb_false_iff in Hlen. destruct Hlen as [_ Hlen].
  apply negb_false_iff, Nat.eqb_eq in Hlen.
  destruct (match_classes gstin_pattern (list_ascii_of_string gstin))
    eqn:Hm; [| discriminate].
  split; [exact Hlen |].
  destruct gstin as [| c0 [| c1 rest]]; try discriminate Hlen.
  cbn in Hm. rewrite !andb_true_iff in Hm. destruct Hm as (D0 & D1 & _).
  assert (Es : String.substring 0 2 (String c0 (String c1 rest))
               = String c0 (String c1 EmptyString)).
  { cbn [String.substring]. destruct rest; reflexivity. }
  rewrite Es. repeat split.
  unfold str_isdigit. cbn. rewrite D0, D1. reflexivity.
Qed.

Lemma char_value_range (c : ascii) :
  is_gstin_char c = true -> 0 <= char_value c <= 35.
Proof.
  unfold is_gstin_char, char_value, is_ascii_digit, is_ascii_upper.
  destruct ((48 <=? N_of_ascii c)%N && (N_of_ascii c <=? 57)%N) eqn:Ed.
  - intros _. apply andb_true_iff in Ed. destruct Ed as [A B].
    apply N.leb_le in A, B. lia.
  - cbn [orb]. intros Eu. apply andb_true_iff in Eu. destruct Eu as [A B].
    apply N.leb_le in A, B. lia.
Qed.

Lemma char_value_inj (c c' : ascii) :
  is_gstin_char c = true -> is_gstin_char c' = true ->
  char_value c = char_value c' -> c = c'.
Proof.
  intros Hc Hc' E.
  assert (N : N_of_ascii c = N_of_ascii c').
  { revert Hc Hc' E.
    unfold is_gstin_char, char_value, is_ascii_digit, is_ascii_upper.
    destruct ((48 <=? N_of_ascii c)%N && (N_of_ascii c <=? 57)%N) eqn:Ed;
    destruct ((48 <=? N_of_ascii c')%N && (N_of_ascii c' <=? 57)%N) eqn:Ed';
      cbn [orb]; intros Hc Hc' E;
      repeat match goal with
             | H : (_ && _)%bool = true |- _ =>
                 apply andb_true_iff in H; destruct H
             | H : (_ <=? _)%N = true |- _ => apply N.leb_le in H
             end; lia. }
  rewrite <- (ascii_N_embedding c), <- (ascii_N_embedding c'), N.
  reflexivity.
Qed.

Lemma gstin_weight_range (i : nat) (c : ascii) :
  is_gstin_char c = true -> 0 <= gstin_weight i c <= 35.
Proof.
  intros Hc. pose proof (char_value_range c Hc) as Hv.
  unfold gstin_weight. cbv zeta.
  set (p := char_value c * (if Nat.even i then 1 else 2)).
  assert (Hp : 0 <= p <= 70) by (subst p; destruct (Nat.even i); lia).
  pose proof (Z.div_mod p 36 ltac:(lia)).
  pose proof (Z.mod_pos_bound p 36 ltac:(lia)).
  lia.
Qed.

Lemma gstin_weight_inj (i : nat) (c c' : ascii) :
  is_gstin_char c = true -> is_gstin_char c' = true ->
  gstin_weight i c = gstin_weight i c' -> c = c'.
Proof.
  intros Hc Hc' E. apply char_value_inj; try assumption.
  pose proof (char_value_range c Hc) as Hv.
  pose proof (char_value_range c' Hc') as Hv'.
  unfold gstin_weight in E. cbv zeta in E.
  set (k := if Nat.even i then 1 else 2) in E.
  assert (Hk : k = 1 \/ k = 2) by (subst k; destruct (Nat.even i); auto).
  pose proof (Z.div_mod (char_value c * k) 36 ltac:(lia)).
  pose proof (Z.mod_pos_bound (char_value c * k) 36 ltac:(lia)).
  pose proof (Z.div_mod (char_value c' * k) 36 ltac:(lia)).
  pose proof (Z.mod_pos_bound (char_value c' * k) 36 ltac:(lia)).
  destruct Hk as [Hk | Hk]; rewrite Hk in *; lia.
Qed.

Lemma gstin_weighted_sum_app (l1 l2 : list ascii) :
  forall i,
    gstin_weighted_sum i (l1 ++ l2)
    = gstin_weighted_sum i l1 + gstin_weighted_sum (i + List.length l1) l2.
Proof.
  induction l1 as [| c rest IH]; intros i; cbn [app gstin_weighted_sum List.length].
  - rewrite Nat.add_0_r. lia.
  - rewrite IH. replace (S i + List.length rest)%nat
      with (i + S (List.length rest))%nat by lia. lia.
Qed.

Lemma gstin_weighted_sum_cons (i : nat) (c : ascii) (l : list ascii) :
  gstin_weighted_sum i (c :: l)
  = gstin_weight i c + gstin_weighted_sum (S i) l.
Proof. reflexivity. Qed.

(** The check character that a weighted sum calls for. *)
Lemma expected_checksum_inj (t t' : Z) :
  let value := fun t => (36 - t mod 36) mod 36 in
  let char := fun v =>
    if v <? 10 then ascii_of_N (Z.to_N (48 + v))
    else ascii_of_N (Z.to_N (65 + v - 10)) in
  char (value t) = char (value t') -> t mod 36 = t' mod 36.
Proof.
  cbv beta zeta. intros E.
  pose proof (Z.mod_pos_bound t 36 ltac:(lia)) as Hm.
  pose proof (Z.mod_pos_bound t' 36 ltac:(lia)) as Hm'.
  set (m := t mod 36) in *. set (m' := t' mod 36) in *.
  pose proof (Z.mod_pos_bound (36 - m) 36 ltac:(lia)) as Hv.
  pose proof (Z.mod_pos_bound (36 - m') 36 ltac:(lia)) as Hv'.
  pose proof (Z.div_mod (36 - m) 36 ltac:(lia)) as Dv.
  pose proof (Z.div_mod (36 - m') 36 ltac:(lia)) as Dv'.
  set (v := (36 - m) mod 36) in *. set (v' := (36 - m') mod 36) in *.
  assert (Evv : v = v').
  { apply (f_equal N_of_ascii) in E. revert E.
    destruct (v <? 10) eqn:L; destruct (v' <? 10) eqn:L';
      rewrite ?Z.ltb_lt, ?Z.ltb_ge in L, L';
      rewrite !N_ascii_embedding by lia; lia. }
  lia.
Qed.

(** X5: the GSTIN checksum detects the substitution of one character:
    when a 15-character string passes the checksum, replacing one of its
    first 14 characters, a digit or upper-case letter, by a different
    digit or upper-case letter gives a string that fails it. *)
Theorem gstin_checksum_detects_substitution (pre post : list ascii)
    (c c' : ascii) :
  (List.length pre + List.length post = 14)%nat ->
  post <> [] ->
  is_gstin_char c = true ->
  is_gstin_char c' = true ->
  c <> c' ->
  _validate_gstin_checksum (string_of_list_ascii (pre ++ c :: post)) = true ->
  _validate_gstin_checksum (string_of_list_ascii (pre ++ c' :: post)) = false.
Proof.
  intros Hlen Hpost Hc Hc' Hneq.
  unfold _validate_gstin_checksum.
  rewrite !list_ascii_of_string_of_list_ascii.
  assert (Hpre : (List.length pre <= 13)%nat).
  { destruct post; [contradiction | cbn [List.length] in Hlen; lia]. }
  assert (Hfirst : forall x,
    firstn 14 (pre ++ x :: post)
    = pre ++ x :: firstn (13 - List.length pre) post).
  { intros x. rewrite firstn_app, firstn_all2 by lia.
    replace (14 - List.length pre)%nat with (S (13 - List.length pre)) by lia.
    reflexivity. }
  assert (Hlast : forall x,
    nth_error (pre ++ x :: post) 14
    = nth_error post (13 - List.length pre)).
  { intros x. rewrite nth_error_app2 by lia.
    replace (14 - List.length pre)%nat with (S (13 - List.length pre)) by lia.
    reflexivity. }
  rewrite !Hfirst, !Hlast, !gstin_weighted_sum_app, !gstin_weighted_sum_cons.
  destruct (nth_error post (13 - List.length pre)) as [last |];
    [| discriminate].
  set (a := gstin_weighted_sum 0 pre).
  set (b := gstin_weighted_sum (S (0 + List.length pre))
              (firstn (13 - List.length pre) post)).
  intros Hok. apply Ascii.eqb_eq in Hok.
  apply Ascii.eqb_neq. intros Hbad. rewrite Hok in Hbad.
  apply expected_checksum_inj in Hbad.
  pose proof (gstin_weight_range (0 + List.length pre) c Hc) as R.
  pose proof (gstin_weight_range (0 + List.length pre) c' Hc') as R'.
  assert (E : gstin_weight (0 + List.length pre) c
              = gstin_weight (0 + List.length pre) c').
  { set (w := gstin_weight (0 + List.length pre) c) in *.
    set (w' := gstin_weight (0 + List.length pre) c') in *.
    pose proof (Z.div_mod (a + (w + b)) 36 ltac:(lia)).
    pose proof (Z.div_mod (a + (w' + b)) 36 ltac:(lia)).
    lia. }
  apply Hneq. exact (gstin_weight_inj _ _ _ Hc Hc' E).
Qed.

End Validators.

(* ================================================================== *)
(** * The run of a successful invoice creation *)
(* ================================================================== *)

Lemma check_pure (bad : bool) (status : Z) (d : Detail) (s s' : Session)
    (r : result unit) :
  check bad status d s = (s', r) -> s' = s.
Proof. unfold check. destruct bad; intros H; inversion H; reflexivity. Qed.

Lemma validate_customer_pure (env : Env) (customer : Customer.t)
    (s s' : Session) (r : result unit) :
  _validate_customer_for_invoice env customer s = (s', r) -> s' = s.
Proof.
  unfold _validate_customer_for_invoice.
  destruct (Customer.is_b2b customer); [| apply check_pure].
  destruct (Customer.gstin customer) as [g |];
    [| intros H; inversion H; reflexivity].
  destruct (String.eqb g ""); [intros H; inversion H; reflexivity |].
  apply check_pure.
Qed.

Lemma validate_product_ok (product : Product.t) (s s' : Session) (u : unit) :
  _validate_product_for_invoice product s = (s', Ok u) ->
  s' = s
  /\ in_allowed_gst_rates (Product.gst_rate product) = true
  /\ validate_hsn_code (Product.hsn_code product) = true
  /\ 0 <= Product.price_paise product.
Proof.
  unfold _validate_product_for_invoice. intros H.
  apply bind_ok in H. destruct H as (s1 & u1 & H1 & H).
  apply bind_ok in H. destruct H as (s2 & u2 & H2 & H3).
  apply check_ok in H1, H2, H3.
  destruct H1 as [B1 ->], H2 as [B2 ->], H3 as [B3 ->].
  apply negb_false_iff in B1, B2. apply Z.ltb_ge in B3. auto.
Qed.

Lemma validate_product_pure (product : Product.t) (s s' : Session)
    (r : result unit) :
  _validate_product_for_invoice product s = (s', r) -> s' = s.
Proof.
  unfold _validate_product_for_invoice, bind. intros H.
  destruct (check (negb (in_allowed_gst_rates (Product.gst_rate product)))
              HTTP_400_BAD_REQUEST (InvalidGstRate (Product.gst_rate product))
              s) as [s1 [u1 | e1]] eqn:E1; apply check_pure in E1; subst s1.
  2: { inversion H; reflexivity. }
  destruct (check (negb (validate_hsn_code (Product.hsn_code product)))
              HTTP_400_BAD_REQUEST InvalidHsnCode s)
    as [s2 [u2 | e2]] eqn:E2; apply check_pure in E2; subst s2.
  2: { inversion H; reflexivity. }
  exact (check_pure _ _ _ _ _ _ H).
Qed.

Lemma validate_client_totals_pure
    (client_totals : option InvoiceTotalsInput.t) (computed : TaxBreakup)
    (s s' : Session) (r : result unit) :
  _validate_client_totals client_totals computed s = (s', r) -> s' = s.
Proof.
  unfold _validate_client_totals. destruct client_totals;
    [apply check_pure | intros H; inversion H; reflexivity].
Qed.

Section UpdateFound.

Context {A : Type}.

Lemma update_first_found (p : A -> bool) (g : A -> A) (l : list A) (x : A) :
  find p l = Some x ->
  update_first p (fun _ => g x) l = update_first p g l.
Proof.
  induction l as [| y rest IH]; cbn [find update_first]; [discriminate |].
  destruct (p y); intros H.
  - inversion H. reflexivity.
  - rewrite (IH H). reflexivity.
Qed.

Lemma Forall_update_first (P : A -> Prop) (p : A -> bool) (g : A -> A)
    (l : list A) :
  Forall P l -> (forall x, In x l -> p x = true -> P (g x)) ->
  Forall P (update_first p g l).
Proof.
  induction 1 as [| y rest Hy Hrest IH]; intros Hg; cbn [update_first];
    [constructor |].
  destruct (p y) eqn:E.
  - constructor; [apply Hg; [left; reflexivity | exact E] | exact Hrest].
  - constructor; [exact Hy |]. apply IH. intros x Hin. apply Hg. right.
    exact Hin.
Qed.

End UpdateFound.

Lemma update_first_active_by_id (pid : Z) (g : Product.t -> Product.t)
    (ps : list Product.t) (p : Product.t) :
  NoDup (map Product.id ps) ->
  find (active_product_with_id pid) ps = Some p ->
  update_first (active_product_with_id pid) g ps
  = update_first (product_with_id pid) g ps.
Proof.
  induction ps as [| x rest IH]; cbn [find update_first map];
    [discriminate |].
  intros Hnd Hfind. inversion Hnd as [| ? ? Hnotin Hnd']; subst.
  unfold active_product_with_id, product_with_id in *.
  destruct (Product.id x =? pid) eqn:Eid; cbn [andb] in *.
  - destruct (Product.is_active x); [reflexivity |].
    exfalso. apply find_some in Hfind. destruct Hfind as [Hin Hp].
    apply andb_true_iff in Hp. destruct Hp as [Hp _].
    apply Z.eqb_eq in Eid, Hp. apply Hnotin.
    rewrite Eid, <- Hp. apply in_map. exact Hin.
  - rewrite (IH Hnd' Hfind). reflexivity.
Qed.

Section CreateInvoiceRun.

Variable env : Env.
Variable business : BusinessProfile.t.
Variable customer : Customer.t.

(** What the loop of [create_invoice] leaves when it completes: the
    products with the stock changes of the lines applied, each line found
    as an active product, valid and sufficiently stocked. *)
Lemma process_items_run (items : list InvoiceItemCreate.t) :
  forall breakups invoice_items s s' breakups' invoice_items',
    process_items business customer items breakups invoice_items s
    = (s', Ok (breakups', invoice_items')) ->
    NoDup (map Product.id (products (pending s))) ->
    s' = {| committed := committed s;
            pending :=
              set_products
                (apply_stock_updates product_with_id (order_updates items)
                   (products (pending s)))
                (pending s) |}
    /\ exists new_items,
         invoice_items' = invoice_items ++ new_items
         /\ map (fun item => (InvoiceItem.product_id item,
                              InvoiceItem.quantity item)) new_items
            = map (fun item_data =>
                     (Some (InvoiceItemCreate.product_id item_data),
                      InvoiceItemCreate.quantity item_data)) items
         /\ Forall (fun item =>
                      in_allowed_gst_rates (InvoiceItem.gst_rate item) = true
                      /\ validate_hsn_code (InvoiceItem.hsn_code item) = true
                      /\ 0 <= InvoiceItem.unit_price_paise item)
                   new_items.
Proof.
  induction items as [| item_data rest IH];
    intros breakups invoice_items s s' breakups' invoice_items' H Hnd;
    cbn [process_items] in H.
  - inversion H; subst. split.
    + cbn. rewrite set_products_same, session_eta. reflexivity.
    + exists []. rewrite app_nil_r. repeat split. constructor.
  - apply bind_ok in H. destruct H as (s1 & found & Hq & H).
    inversion Hq; subst s1 found; clear Hq.
    destruct (find (active_product_with_id
                      (InvoiceItemCreate.product_id item_data))
                (products (pending s))) as [product |] eqn:Hfind;
      [| discriminate H].
    apply bind_ok in H. destruct H as (s2 & u & Hv & H).
    apply validate_product_ok in Hv. destruct Hv as (-> & V1 & V2 & V3).
    unfold Product.reduce_stock in H.
    destruct (Product.stock_quantity product
              >=? InvoiceItemCreate.quantity item_data) eqn:Hs;
      cbn [negb] in H.
    2: { apply bind_ok in H. destruct H as (s3 & u' & _ & H). discriminate H. }
    apply bind_ok in H. destruct H as (s3 & u' & Hm & H).
    inversion Hm; subst s3; clear Hm.
    assert (Eup :
      update_first
        (active_product_with_id (InvoiceItemCreate.product_id item_data))
        (fun _ => Product.set_stock_quantity
                    (Product.stock_quantity product
                     - InvoiceItemCreate.quantity item_data) product)
        (products (pending s))
      = update_first
          (product_with_id (InvoiceItemCreate.product_id item_data))
          (Product.add_stock (- InvoiceItemCreate.quantity item_data))
          (products (pending s))).
    { rewrite <- (update_first_active_by_id _ _ _ _ Hnd Hfind).
      apply (update_first_found _
               (Product.add_stock (- InvoiceItemCreate.quantity item_data))
               _ _ Hfind). }
    apply IH in H.
    2: { cbn [pending products set_products]. rewrite Eup.
         rewrite map_update_first; [exact Hnd | reflexivity]. }
    destruct H as (Hs' & new_items & Hitems & Hmap & Hall). split.
    + rewrite Hs'. cbn [committed pending products set_products customers
        suppliers business_profile invoices purchase_invoices].
      rewrite Eup. reflexivity.
    + eexists (_ :: new_items). split; [| split].
      * rewrite Hitems, <- app_assoc. reflexivity.
      * cbn [map]. rewrite Hmap. f_equal.
        cbn [make_invoice_item InvoiceItem.product_id InvoiceItem.quantity].
        apply find_some in Hfind. destruct Hfind as [_ Hp].
        apply andb_true_iff in Hp. destruct Hp as [Hp _].
        apply Z.eqb_eq in Hp. rewrite Hp. reflexivity.
      * constructor; [| exact Hall].
        cbn [make_invoice_item InvoiceItem.gst_rate InvoiceItem.hsn_code
             InvoiceItem.unit_price_paise]. auto.
Qed.

(** The loop never leaves a negative stock behind, however it ends. *)
Lemma process_items_stock_non_negative (items : list InvoiceItemCreate.t) :
  forall breakups invoice_items s s' r,
    process_items business customer items breakups invoice_items s = (s', r) ->
    stock_non_negative (pending s) -> stock_non_negative (pending s').
Proof.
  unfold stock_non_negative.
  induction items as [| item_data rest IH];
    intros breakups invoice_items s s' r H Hnn; cbn [process_items] in H.
  - inversion H; subst. exact Hnn.
  - unfold bind at 1, query in H.
    destruct (find (active_product_with_id
                      (InvoiceItemCreate.product_id item_data))
                (products (pending s))) as [product |] eqn:Hfind.
    2: { inversion H; subst. exact Hnn. }
    unfold bind at 1 in H.
    destruct (_validate_product_for_invoice product s) as [s1 [u | e]] eqn:Hv.
    2: { inversion H; subst. apply validate_product_pure in Hv. subst.
         exact Hnn. }
    apply validate_product_ok in Hv. destruct Hv as (-> & _).
    unfold Product.reduce_stock in H.
    pose proof (find_some _ _ Hfind) as [Hin _].
    assert (Hprod : 0 <= Product.stock_quantity product).
    { rewrite Forall_forall in Hnn. exact (Hnn product Hin). }
    destruct (Product.stock_quantity product
              >=? InvoiceItemCreate.quantity item_data) eqn:Hs;
      cbn [negb] in H; unfold bind at 1, mutate in H.
    + apply IH in H; [exact H |].
      cbn [pending products set_products].
      apply Forall_update_first; [exact Hnn |].
      intros x _ _. cbn. apply Z.geb_le in Hs. lia.
    + inversion H; subst. cbn [pending products set_products].
      apply Forall_update_first; [exact Hnn |].
      intros x _ _. exact Hprod.
Qed.

End CreateInvoiceRun.

Section CreateInvoiceOutcome.

Variable env : Env.

(** The facts that a successful [create_invoice] establishes on its way,
    and the session it leaves. *)
Lemma create_invoice_ok (invoice_data : InvoiceCreate.t) (current_user_id : Z)
    (business : BusinessProfile.t) (s s' : Session) (invoice : Invoice.t) :
  create_invoice env invoice_data current_user_id business s
  = (s', Ok invoice) ->
  exists customer s6 breakups,
    date_ltb (today env) (InvoiceCreate.invoice_date invoice_data) = false
    /\ String.length (BusinessProfile.state_code business) = 2%nat
    /\ find (fun c => (Customer.id c =? InvoiceCreate.customer_id invoice_data)
                      && Customer.is_active c) (customers (pending s))
       = Some customer
    /\ _validate_customer_for_invoice env customer s = (s, Ok tt)
    /\ requested_place_of_supply invoice_data customer
       = Customer.state_code customer
    /\ process_items business customer (InvoiceCreate.items invoice_data)
         [] [] s = (s6, Ok (breakups, Invoice.items invoice))
    /\ Invoice.invoice_number invoice
       = fst (BusinessProfile.generate_invoice_number business)
    /\ Invoice.id invoice = next_id (map Invoice.id (invoices (pending s6)))
    /\ Invoice.place_of_supply invoice = Customer.state_code customer
    /\ Invoice.invoice_date invoice = InvoiceCreate.invoice_date invoice_data
    /\ Invoice.status invoice = "FINAL"%string
    /\ Invoice.is_cancelled invoice = false
    /\ Invoice.customer_id invoice = Customer.id customer
    /\ Invoice.customer_snapshot invoice = _create_customer_snapshot customer
    /\ Invoice.cgst_paise invoice = py_sum cgst_paise breakups
    /\ Invoice.sgst_paise invoice = py_sum sgst_paise breakups
    /\ Invoice.igst_paise invoice = py_sum igst_paise breakups
    /\ s' = {| committed :=
                 set_invoices (invoices (pending s6) ++ [invoice])
                   (set_business_profile
                      (Some (snd (BusinessProfile.generate_invoice_number
                                    business)))
                      (pending s6));
               pending :=
                 set_invoices (invoices (pending s6) ++ [invoice])
                   (set_business_profile
                      (Some (snd (BusinessProfile.generate_invoice_number
                                    business)))
                      (pending s6)) |}.
Proof.
  intros H. unfold create_invoice in H.
  apply bind_ok in H. destruct H as (s1 & u1 & E1 & H).
  apply check_ok in E1. destruct E1 as [B1 ->].
  apply bind_ok in H. destruct H as (s2 & u2 & E2 & H).
  apply check_ok in E2. destruct E2 as [B2 ->].
  apply bind_ok in H. destruct H as (s3 & found & E3 & H).
  inversion E3; subst s3 found; clear E3.
  destruct (find _ (customers (pending s))) as [customer |] eqn:Hc;
    [| discriminate H].
  apply bind_ok in H. destruct H as (s4 & u4 & E4 & H).
  pose proof (validate_customer_pure _ _ _ _ _ E4) as ->. destruct u4.
  apply bind_ok in H. destruct H as (s5 & u5 & E5 & H).
  apply check_ok in E5. destruct E5 as [B5 ->].
  apply bind_ok in H. destruct H as (s6 & [breakups items] & E6 & H).
  apply bind_ok in H. destruct H as (s7 & u7 & E7 & H).
  pose proof (validate_client_totals_pure _ _ _ _ _ E7) as ->.
  destruct (BusinessProfile.generate_invoice_number business)
    as [invoice_number business'] eqn:Egen.
  unfold bind, mutate, query, db_commit, ret in H.
  inversion H; subst; clear H.
  exists customer, s6, breakups.
  apply orb_false_iff in B2. destruct B2 as [_ B2].
  apply negb_false_iff, Nat.eqb_eq in B2.
  apply negb_false_iff, String.eqb_eq in B5.
  cbn [fst snd Invoice.invoice_number Invoice.id Invoice.place_of_supply
       Invoice.invoice_date Invoice.status Invoice.is_cancelled
       Invoice.customer_id Invoice.customer_snapshot Invoice.items
       Invoice.cgst_paise Invoice.sgst_paise Invoice.igst_paise
       committed pending invoices set_business_profile].
  repeat (split; [first [assumption | reflexivity] |]).
  reflexivity.
Qed.

Lemma api_create_invoice_ok (current_user_id : Z)
    (invoice_data : InvoiceCreate.t) (db db' : Database)
    (invoice : Invoice.t) :
  api_create_invoice env current_user_id invoice_data db = (db', Ok invoice) ->
  exists business s',
    business_profile db = Some business
    /\ create_invoice env invoice_data current_user_id business
         (SessionLocal db) = (s', Ok invoice)
    /\ db' = committed s'.
Proof.
  unfold api_create_invoice, get_db. intros H.
  destruct (bind get_business _ (SessionLocal db)) as [s' r] eqn:E.
  inversion H; subst; clear H.
  apply bind_ok in E. destruct E as (s1 & business & Hb & E).
  unfold get_business, bind, query in Hb. cbn [pending SessionLocal] in Hb.
  destruct (business_profile db) as [b |] eqn:Eb; [| discriminate Hb].
  inversion Hb; subst. exists business, s'. auto.
Qed.

Lemma api_create_invoice_err (current_user_id : Z)
    (invoice_data : InvoiceCreate.t) (db db' : Database)
    (e : HTTPException) :
  api_create_invoice env current_user_id invoice_data db = (db', Err e) ->
  db' = db.
Proof.
  unfold api_create_invoice, get_db. intros H.
  destruct (bind get_business _ (SessionLocal db)) as [s r] eqn:E.
  inversion H; subst; clear H.
  refine (fails_uncommitted_bind _ _ get_business_keeps_committed _ _ _ _ E).
  intros business. apply create_invoice_fails_uncommitted.
Qed.

End CreateInvoiceOutcome.

(* ================================================================== *)
(** * Invoice numbers *)
(* ================================================================== *)

Section InvoiceNumbers.

Lemma zero_pad_string_of_uint (k : nat) (d : Decimal.uint) :
  zero_pad k (NilEmpty.string_of_uint d)
  = NilEmpty.string_of_uint (Nat.iter k Decimal.D0 d).
Proof.
  induction k as [| k IH]; cbn [zero_pad Nat.iter]; [reflexivity |].
  rewrite IH. reflexivity.
Qed.

Lemma length_zero_pad (k : nat) (s : string) :
  String.length (zero_pad k s) = (k + String.length s)%nat.
Proof.
  induction k as [| k IH]; cbn [zero_pad String.length Nat.add];
    [| rewrite IH]; reflexivity.
Qed.

Lemma string_of_to_uint (m : N) :
  NilZero.string_of_uint (N.to_uint m) = NilEmpty.string_of_uint (N.to_uint m).
Proof.
  destruct m as [| p]; [reflexivity |]. cbn [N.to_uint].
  pose proof (DecimalPos.Unsigned.to_uint_nonnil p) as Hn.
  destruct (Pos.to_uint p); [contradiction | reflexivity ..].
Qed.

Lemma format_06d_parse (n : Z) :
  0 <= n -> parse_decimal (format_06d n) = Some n.
Proof.
  intros Hn. unfold format_06d.
  replace (n <? 0) with false by (symmetry; apply Z.ltb_ge; exact Hn).
  rewrite string_of_to_uint, zero_pad_string_of_uint.
  unfold parse_decimal. rewrite NilEmpty.usu. cbn [option_map].
  rewrite <- DecimalN.Unsigned.of_uint_norm, DecimalFacts.unorm_iter_D0,
    DecimalN.Unsigned.of_uint_norm, DecimalN.Unsigned.of_to.
  rewrite N2Z.inj_abs_N, Z.abs_eq by exact Hn. reflexivity.
Qed.

Lemma format_06d_width (n : Z) :
  0 <= n -> (6 <= String.length (format_06d n))%nat.
Proof.
  intros Hn. unfold format_06d.
  replace (n <? 0) with false by (symmetry; apply Z.ltb_ge; exact Hn).
  rewrite length_zero_pad. lia.
Qed.

Lemma string_append_inj (p a b : string) :
  (p ++ a)%string = (p ++ b)%string -> a = b.
Proof.
  induction p as [| c p IH]; cbn [String.append]; intros H;
    [exact H | injection H as H; exact (IH H)].
Qed.

Lemma generate_invoice_number_inj (b b' : BusinessProfile.t) :
  BusinessProfile.invoice_prefix b' = BusinessProfile.invoice_prefix b ->
  0 <= BusinessProfile.current_invoice_number b ->
  0 <= BusinessProfile.current_invoice_number b' ->
  fst (BusinessProfile.generate_invoice_number b')
  = fst (BusinessProfile.generate_invoice_number b) ->
  BusinessProfile.current_invoice_number b'
  = BusinessProfile.current_invoice_number b.
Proof.
  intros Hp H0 H0' E. cbn [BusinessProfile.generate_invoice_number fst] in E.
  rewrite Hp in E. apply string_append_inj in E.
  apply (f_equal parse_decimal) in E.
  rewrite !format_06d_parse in E by assumption. congruence.
Qed.

(** X6: for a business whose counter is not negative, the number that
    [generate_invoice_number] issues is the prefix followed by the
    counter in decimal, at least six characters wide; reading those
    digits gives the counter back; every business with the same prefix
    and a different non-negative counter is issued a different number,
    and so is the same business on its next call. *)
Theorem invoice_numbers_are_distinct (b : BusinessProfile.t) :
  0 <= BusinessProfile.current_invoice_number b ->
  fst (BusinessProfile.generate_invoice_number b)
  = (BusinessProfile.invoice_prefix b
     ++ format_06d (BusinessProfile.current_invoice_number b))%string
  /\ parse_decimal (format_06d (BusinessProfile.current_invoice_number b))
     = Some (BusinessProfile.current_invoice_number b)
  /\ (6 <= String.length
            (format_06d (BusinessProfile.current_invoice_number b)))%nat
  /\ (forall b',
        BusinessProfile.invoice_prefix b' = BusinessProfile.invoice_prefix b ->
        0 <= BusinessProfile.current_invoice_number b' ->
        fst (BusinessProfile.generate_invoice_number b')
        = fst (BusinessProfile.generate_invoice_number b) ->
        BusinessProfile.current_invoice_number b'
        = BusinessProfile.current_invoice_number b)
  /\ fst (BusinessProfile.generate_invoice_number
            (snd (BusinessProfile.generate_invoice_number b)))
     <> fst (BusinessProfile.generate_invoice_number b).
Proof.
  intros H0. split; [reflexivity |].
  split; [apply format_06d_parse; exact H0 |].
  split; [apply format_06d_width; exact H0 |].
  split; [intros b' Hp H0' E; apply generate_invoice_number_inj; assumption |].
  intros E. apply generate_invoice_number_inj in E.
  - cbn in E. lia.
  - reflexivity.
  - exact H0.
  - cbn. lia.
Qed.

Lemma invoice_numbers_are_distinct_witness :
  0 <= BusinessProfile.current_invoice_number sample_business
  /\ fst (BusinessProfile.generate_invoice_number
            (snd (BusinessProfile.generate_invoice_number sample_business)))
     <> fst (BusinessProfile.generate_invoice_number sample_business).
Proof.
  assert (H : 0 <= BusinessProfile.current_invoice_number sample_business)
    by (cbn; lia).
  split; [exact H |]. apply (invoice_numbers_are_distinct sample_business H).
Defined.

End InvoiceNumbers.

(* ================================================================== *)
(** * What a created invoice guarantees *)
(* ================================================================== *)

Lemma validate_customer_ok (env : Env) (customer : Customer.t)
    (s s' : Session) (u : unit) :
  _validate_customer_for_invoice env customer s = (s', Ok u) ->
  if Customer.is_b2b customer
  then exists gstin,
         Customer.gstin customer = Some gstin
         /\ validate_gstin env gstin = true
         /\ String.substring 0 2 gstin = Customer.state_code customer
  else str_truthy (Customer.gstin customer) = false.
Proof.
  unfold _validate_customer_for_invoice.
  destruct (Customer.is_b2b customer).
  - destruct (Customer.gstin customer) as [g |]; [| discriminate].
    destruct (String.eqb g ""); [discriminate |].
    intros H. apply check_ok in H. destruct H as [H _].
    apply negb_false_iff in H. unfold extract_state_code_from_gstin in H.
    destruct (validate_gstin env g) eqn:Ev; [| discriminate H].
    cbn [option_string_eqb] in H. apply String.eqb_eq in H.
    exists g. auto.
  - intros H. apply check_ok in H. exact (proj1 H).
Qed.

Lemma next_id_fresh (ids : list Z) (i : Z) : In i ids -> i < next_id ids.
Proof.
  unfold next_id. induction ids as [| x rest IH]; cbn [In fold_right];
    [contradiction |].
  intros [-> | Hin]; [lia | specialize (IH Hin); lia].
Qed.

Lemma find_app_fresh {A : Type} (p : A -> bool) (l : list A) (x : A) :
  (forall y, In y l -> p y = false) -> p x = true ->
  find p (l ++ [x]) = Some x.
Proof.
  intros Hl Hx. induction l as [| y rest IH]; cbn [app find].
  - rewrite Hx. reflexivity.
  - rewrite (Hl y (or_introl eq_refl)). apply IH.
    intros z Hz. apply Hl. right. exact Hz.
Qed.

Lemma updates_total_order (pid : Z) (items : list InvoiceItemCreate.t) :
  updates_total Z.eqb pid (order_updates items) = - ordered_quantity pid items.
Proof.
  unfold updates_total, order_updates, ordered_quantity.
  induction items as [| item rest IH]; cbn [map filter total fst];
    [reflexivity |].
  destruct (InvoiceItemCreate.product_id item =? pid); cbn [total snd];
    rewrite IH; lia.
Qed.

Lemma restored_quantity_ordered (pid : Z) (items : list InvoiceItemCreate.t)
    (lines : list InvoiceItem.t) :
  map (fun item => (InvoiceItem.product_id item, InvoiceItem.quantity item))
      lines
  = map (fun item_data =>
           (Some (InvoiceItemCreate.product_id item_data),
            InvoiceItemCreate.quantity item_data)) items ->
  restored_quantity pid lines = ordered_quantity pid items.
Proof.
  unfold restored_quantity, ordered_quantity.
  revert items. induction lines as [| line rest IH]; intros [| d items] H;
    cbn [map] in H; try discriminate H; [reflexivity |].
  inversion H as [[Hp Hq Hrest]]. cbn [filter]. rewrite Hp.
  destruct (InvoiceItemCreate.product_id d =? pid); cbn [total];
    rewrite (IH _ Hrest), ?Hq; reflexivity.
Qed.

(** The loop of [create_invoice] touches the stock quantities of the
    pending products and nothing else, however it ends. *)
Lemma process_items_frame (business : BusinessProfile.t)
    (customer : Customer.t) (items : list InvoiceItemCreate.t) :
  forall breakups invoice_items s s' r,
    process_items business customer items breakups invoice_items s = (s', r) ->
    exists ps,
      s' = {| committed := committed s;
              pending := set_products ps (pending s) |}
      /\ map (Product.set_stock_quantity 0) ps
         = map (Product.set_stock_quantity 0) (products (pending s)).
Proof.
  induction items as [| item_data rest IH];
    intros breakups invoice_items s s' r H; cbn [process_items] in H.
  - inversion H; subst. exists (products (pending s')).
    rewrite set_products_same, session_eta. auto.
  - assert (Hsame : exists ps,
      s = {| committed := committed s; pending := set_products ps (pending s) |}
      /\ map (Product.set_stock_quantity 0) ps
         = map (Product.set_stock_quantity 0) (products (pending s))).
    { exists (products (pending s)).
      rewrite set_products_same, session_eta. auto. }
    unfold bind at 1, query in H.
    destruct (find (active_product_with_id
                      (InvoiceItemCreate.product_id item_data))
                (products (pending s))) as [product |] eqn:Hfind.
    2: { inversion H; subst. exact Hsame. }
    unfold bind at 1 in H.
    destruct (_validate_product_for_invoice product s) as [s1 [u | e]] eqn:Hv;
      apply validate_product_pure in Hv; subst s1.
    2: { inversion H; subst. exact Hsame. }
    assert (Hstock : forall product',
      Product.set_stock_quantity 0 product'
      = Product.set_stock_quantity 0 product ->
      map (Product.set_stock_quantity 0)
          (update_first
             (active_product_with_id (InvoiceItemCreate.product_id item_data))
             (fun _ => product') (products (pending s)))
      = map (Product.set_stock_quantity 0) (products (pending s))).
    { intros product' E.
      clear - Hfind E. induction (products (pending s)) as [| x l IHl];
        cbn [find update_first map] in *; [reflexivity |].
      destruct (active_product_with_id _ x); cbn [map].
      - inversion Hfind; subst. rewrite E. reflexivity.
      - rewrite (IHl Hfind). reflexivity. }
    destruct (Product.reduce_stock product
                (InvoiceItemCreate.quantity item_data))
      as [product' sufficient] eqn:Hred.
    assert (E : Product.set_stock_quantity 0 product'
                = Product.set_stock_quantity 0 product).
    { unfold Product.reduce_stock in Hred.
      destruct (Product.stock_quantity product
                >=? InvoiceItemCreate.quantity item_data);
        inversion Hred; reflexivity. }
    unfold bind at 1, mutate in H.
    destruct sufficient; cbn [negb] in H.
    + apply IH in H. destruct H as (ps & -> & Hps).
      cbn [committed pending products set_products customers suppliers
           business_profile invoices purchase_invoices] in *.
      exists ps. split; [reflexivity |]. rewrite Hps. exact (Hstock _ E).
    + inversion H; subst. eexists. split; [reflexivity |]. exact (Hstock _ E).
Qed.

(** Every line that the loop has stored passed the product checks. *)
Lemma process_items_valid_lines (business : BusinessProfile.t)
    (customer : Customer.t) (items : list InvoiceItemCreate.t) :
  forall breakups invoice_items s s' breakups' invoice_items',
    process_items business customer items breakups invoice_items s
    = (s', Ok (breakups', invoice_items')) ->
    exists new_items,
      invoice_items' = invoice_items ++ new_items
      /\ map (fun item => (InvoiceItem.product_id item,
                           InvoiceItem.quantity item)) new_items
         = map (fun item_data =>
                  (Some (InvoiceItemCreate.product_id item_data),
                   InvoiceItemCreate.quantity item_data)) items
      /\ Forall (fun item =>
                   in_allowed_gst_rates (InvoiceItem.gst_rate item) = true
                   /\ validate_hsn_code (InvoiceItem.hsn_code item) = true
                   /\ 0 <= InvoiceItem.unit_price_paise item)
                new_items.
Proof.
  induction items as [| item_data rest IH];
    intros breakups invoice_items s s' breakups' invoice_items' H;
    cbn [process_items] in H.
  - inversion H; subst. exists []. rewrite app_nil_r.
    repeat split. constructor.
  - apply bind_ok in H. destruct H as (s1 & found & Hq & H).
    inversion Hq; subst s1 found; clear Hq.
    destruct (find (active_product_with_id
                      (InvoiceItemCreate.product_id item_data))
                (products (pending s))) as [product |] eqn:Hfind;
      [| discriminate H].
    apply bind_ok in H. destruct H as (s2 & u & Hv & H).
    apply validate_product_ok in Hv. destruct Hv as (-> & V1 & V2 & V3).
    destruct (Product.reduce_stock product _) as [product' sufficient].
    apply bind_ok in H. destruct H as (s3 & u' & _ & H).
    destruct sufficient; cbn [negb] in H; [| discriminate H].
    apply IH in H. destruct H as (new_items & Hitems & Hmap & Hall).
    eexists (_ :: new_items). split; [| split].
    + rewrite Hitems, <- app_assoc. reflexivity.
    + cbn [map]. rewrite Hmap. f_equal.
      cbn [make_invoice_item InvoiceItem.product_id InvoiceItem.quantity].
      apply find_some in Hfind. destruct Hfind as [_ Hp].
      apply andb_true_iff in Hp. destruct Hp as [Hp _].
      apply Z.eqb_eq in Hp. rewrite Hp. reflexivity.
    + constructor; [| exact Hall].
      cbn [make_invoice_item InvoiceItem.gst_rate InvoiceItem.hsn_code
           InvoiceItem.unit_price_paise]. auto.
Qed.

(** Two product tables that differ in stock quantities only, with ids
    that are keys, are equal when every lookup by id agrees. *)
Lemma products_eq_by_id (l1 l2 : list Product.t) :
  map (Product.set_stock_quantity 0) l1
  = map (Product.set_stock_quantity 0) l2 ->
  NoDup (map Product.id l2) ->
  (forall pid,
     find (product_with_id pid) l1 = find (product_with_id pid) l2) ->
  l1 = l2.
Proof.
  revert l2. induction l1 as [| x1 r1 IH]; intros [| x2 r2] Hmap Hnd Hfind;
    cbn [map] in Hmap; try discriminate Hmap; [reflexivity |].
  assert (Hx : Product.set_stock_quantity 0 x1
               = Product.set_stock_quantity 0 x2) by congruence.
  assert (Hr : map (Product.set_stock_quantity 0) r1
               = map (Product.set_stock_quantity 0) r2) by congruence.
  assert (Hid : Product.id x1 = Product.id x2)
    by exact (f_equal Product.id Hx).
  assert (Hids : map Product.id r1 = map Product.id r2).
  { transitivity (map Product.id (map (Product.set_stock_quantity 0) r1)).
    - rewrite map_map. reflexivity.
    - rewrite Hr, map_map. reflexivity. }
  inversion Hnd as [| ? ? Hnotin Hnd']; subst.
  pose proof (Hfind (Product.id x1)) as Hhead.
  cbn [find] in Hhead.
  assert (T1 : product_with_id (Product.id x1) x1 = true)
    by apply Z.eqb_refl.
  assert (T2 : product_with_id (Product.id x1) x2 = true)
    by (unfold product_with_id; rewrite Hid; apply Z.eqb_refl).
  rewrite T1, T2 in Hhead. clear T1 T2.
  inversion Hhead; subst x2. f_equal.
  apply IH; [exact Hr | exact Hnd' |].
  intros pid. specialize (Hfind pid). cbn [find] in Hfind.
  destruct (product_with_id pid x1) eqn:E; [| exact Hfind].
  apply Z.eqb_eq in E.
  assert (N : forall r, map Product.id r = map Product.id r2 ->
                        find (product_with_id pid) r = None).
  { intros r Hr'. destruct (find (product_with_id pid) r) as [p |] eqn:Ep;
      [| reflexivity].
    exfalso. apply Hnotin. rewrite E, <- Hr'.
    pose proof (find_some_product_with_id _ _ _ Ep) as <-.
    apply find_some in Ep. apply in_map. exact (proj1 Ep). }
  rewrite (N r1 Hids), (N r2 eq_refl). reflexivity.
Qed.

Section CreatedInvoice.

Variable env : Env.

(** What a successful request leaves in the database, for any products
    table. *)
Lemma api_create_invoice_run (current_user_id : Z)
    (invoice_data : InvoiceCreate.t) (db db' : Database)
    (invoice : Invoice.t) :
  api_create_invoice env current_user_id invoice_data db = (db', Ok invoice) ->
  exists business customer s6 breakups,
    business_profile db = Some business
    /\ create_invoice env invoice_data current_user_id business
         (SessionLocal db) = (SessionLocal db', Ok invoice)
    /\ process_items business customer (InvoiceCreate.items invoice_data)
         [] [] (SessionLocal db) = (s6, Ok (breakups, Invoice.items invoice))
    /\ Invoice.place_of_supply invoice = Customer.state_code customer
    /\ db' = set_invoices (invoices db ++ [invoice])
               (set_business_profile
                  (Some (snd (BusinessProfile.generate_invoice_number
                                business)))
                  (set_products (products (pending s6)) db))
    /\ map (Product.set_stock_quantity 0) (products (pending s6))
       = map (Product.set_stock_quantity 0) (products db)
    /\ Invoice.id invoice = next_id (map Invoice.id (invoices db))
    /\ Invoice.invoice_number invoice
       = fst (BusinessProfile.generate_invoice_number business).
Proof.
  intros H. apply api_create_invoice_ok in H.
  destruct H as (business & s' & Hb & H & ->).
  pose proof H as Hok. apply create_invoice_ok in Hok.
  destruct Hok as (customer & s6 & breakups & _ & _ & _ & _ & _ & Hp
                   & Hnum & Hid & Hpos & _ & _ & _ & _ & _ & _ & _ & _ & Hs').
  pose proof (process_items_frame _ _ _ _ _ _ _ _ Hp) as (ps & Hs6 & Hps).
  cbn [SessionLocal committed pending] in Hs6, Hps.
  assert (E6 : set_products (products (pending s6)) db = pending s6).
  { rewrite Hs6. reflexivity. }
  assert (Hinv : invoices (pending s6) = invoices db).
  { rewrite Hs6. reflexivity. }
  exists business, customer, s6, breakups.
  split; [exact Hb |]. split.
  { rewrite H. f_equal. rewrite Hs'. reflexivity. }
  split; [exact Hp |]. split; [exact Hpos |]. split.
  { rewrite Hs'. cbn [committed]. rewrite E6, Hinv. reflexivity. }
  split; [rewrite Hs6; exact Hps |].
  split; [rewrite Hid, Hinv; reflexivity | exact Hnum].
Qed.

(** X7: an invoice is created only for a request that passed every
    check: its date is not after today; its customer exists, is active,
    and is either B2B with a valid GSTIN whose first two characters are
    the stored state code, or not B2B and without GSTIN; its place of
    supply is the state code of the customer; the state code of the
    business has two characters; and every line carries an allowed GST
    rate, an HSN code that, where it is an ASCII string, consists of 4, 6
    or 8 digits, a non-negative unit price, and the product id and the
    quantity that were ordered. *)
Theorem created_invoice_passed_validation (current_user_id : Z)
    (invoice_data : InvoiceCreate.t) (db db' : Database)
    (invoice : Invoice.t) :
  api_create_invoice env current_user_id invoice_data db = (db', Ok invoice) ->
  date_leb (Invoice.invoice_date invoice) (today env) = true
  /\ (exists customer,
        In customer (customers db)
        /\ Customer.is_active customer = true
        /\ Customer.id customer = InvoiceCreate.customer_id invoice_data
        /\ Invoice.customer_id invoice = Customer.id customer
        /\ Invoice.customer_snapshot invoice
           = _create_customer_snapshot customer
        /\ Invoice.place_of_supply invoice = Customer.state_code customer
        /\ (if Customer.is_b2b customer
            then exists gstin,
                   Customer.gstin customer = Some gstin
                   /\ validate_gstin env gstin = true
                   /\ String.substring 0 2 gstin
                      = Customer.state_code customer
            else str_truthy (Customer.gstin customer) = false))
  /\ (exists business,
        business_profile db = Some business
        /\ String.length (BusinessProfile.state_code business) = 2%nat)
  /\ Forall (fun item =>
               in_allowed_gst_rates (InvoiceItem.gst_rate item) = true
               /\ (is_ascii_string (InvoiceItem.hsn_code item) = true ->
                   validate_hsn_code (InvoiceItem.hsn_code item) = true)
               /\ 0 <= InvoiceItem.unit_price_paise item)
            (Invoice.items invoice)
  /\ map (fun item => (InvoiceItem.product_id item, InvoiceItem.quantity item))
         (Invoice.items invoice)
     = map (fun item_data =>
              (Some (InvoiceItemCreate.product_id item_data),
               InvoiceItemCreate.quantity item_data))
           (InvoiceCreate.items invoice_data)
  /\ Invoice.status invoice = "FINAL"%string
  /\ Invoice.is_cancelled invoice = false.
Proof.
  intros H. apply api_create_invoice_ok in H.
  destruct H as (business & s' & Hb & H & _).
  apply create_invoice_ok in H.
  destruct H as (customer & s6 & breakups & Hdate & Hlen & Hc & Hv & _ & Hp
                 & _ & _ & Hpos & Hd & Hst & Hcan & Hcid & Hsnap & _).
  split; [unfold date_leb; rewrite Hd, Hdate; reflexivity |].
  split.
  { exists customer. cbn [pending SessionLocal] in Hc.
    apply find_some in Hc. destruct Hc as [Hin Hf].
    apply andb_true_iff in Hf. destruct Hf as [Hid Hact].
    apply Z.eqb_eq in Hid.
    repeat (split; [assumption |]).
    exact (validate_customer_ok _ _ _ _ _ Hv). }
  split; [exists business; auto |].
  apply process_items_valid_lines in Hp.
  destruct Hp as (new_items & Hitems & Hmap & Hall).
  cbn [app] in Hitems. subst new_items.
  split; [| auto].
  eapply Forall_impl; [| exact Hall].
  intros item (V1 & V2 & V3). auto.
Qed.

(** X8: a successful request appends exactly the new invoice, under an
    id that no stored invoice carries, so that [get_invoice_by_id] finds
    it afterwards; the invoice carries the number made of the prefix and
    the zero-padded counter, and the counter of the business goes up by
    one; customers, suppliers and purchases are untouched and the products
    change in their stock quantities only. *)
Theorem create_invoice_appends_numbered_invoice (current_user_id : Z)
    (invoice_data : InvoiceCreate.t) (db db' : Database)
    (invoice : Invoice.t) :
  api_create_invoice env current_user_id invoice_data db = (db', Ok invoice) ->
  exists business,
    business_profile db = Some business
    /\ Invoice.invoice_number invoice
       = (BusinessProfile.invoice_prefix business
          ++ format_06d (BusinessProfile.current_invoice_number business))%string
    /\ option_map BusinessProfile.current_invoice_number (business_profile db')
       = Some (BusinessProfile.current_invoice_number business + 1)
    /\ option_map BusinessProfile.invoice_prefix (business_profile db')
       = Some (BusinessProfile.invoice_prefix business)
    /\ invoices db' = invoices db ++ [invoice]
    /\ ~ In (Invoice.id invoice) (map Invoice.id (invoices db))
    /\ get_invoice_by_id (Invoice.id invoice) (SessionLocal db')
       = (SessionLocal db', Ok (Some invoice))
    /\ customers db' = customers db
    /\ suppliers db' = suppliers db
    /\ purchase_invoices db' = purchase_invoices db
    /\ map (Product.set_stock_quantity 0) (products db')
       = map (Product.set_stock_quantity 0) (products db).
Proof.
  intros H. apply api_create_invoice_run in H.
  destruct H as (business & customer & s6 & breakups & Hb & _ & _ & _ & ->
                 & Hps & Hid & Hnum).
  assert (Hfresh : ~ In (Invoice.id invoice) (map Invoice.id (invoices db))).
  { intros Hin. apply next_id_fresh in Hin. lia. }
  exists business. split; [exact Hb |]. split; [exact Hnum |].
  cbn [business_profile invoices customers suppliers purchase_invoices
       products set_invoices set_business_profile set_products option_map
       BusinessProfile.generate_invoice_number snd
       BusinessProfile.current_invoice_number BusinessProfile.invoice_prefix].
  repeat (split; [reflexivity |]).
  split; [exact Hfresh |]. split; [| repeat split; exact Hps].
  unfold get_invoice_by_id, query.
  cbn [pending SessionLocal invoices set_invoices].
  rewrite find_app_fresh; [reflexivity | | apply Z.eqb_refl].
  intros y Hy. apply Z.eqb_neq. intros E. apply Hfresh. rewrite <- E.
  apply in_map. exact Hy.
Qed.

(** X9: where product ids are keys, a successful request takes from
    every product exactly the quantity that the lines of the request
    order of it (the sum over the lines naming it), and from no other. *)
Theorem create_invoice_reduces_stock (current_user_id : Z)
    (invoice_data : InvoiceCreate.t) (db db' : Database)
    (invoice : Invoice.t) :
  NoDup (map Product.id (products db)) ->
  api_create_invoice env current_user_id invoice_data db = (db', Ok invoice) ->
  forall pid,
    find (product_with_id pid) (products db')
    = option_map
        (Product.add_stock
           (- ordered_quantity pid (InvoiceCreate.items invoice_data)))
        (find (product_with_id pid) (products db)).
Proof.
  intros Hnd H pid. apply api_create_invoice_run in H.
  destruct H as (business & customer & s6 & breakups & _ & _ & Hp & _ & ->
                 & _).
  apply process_items_run in Hp; [| exact Hnd].
  destruct Hp as (-> & _).
  cbn [products pending set_invoices set_business_profile set_products
       SessionLocal].
  rewrite (find_apply_stock_updates product_with_id Z.eqb Z.eqb_eq
             product_with_id_add_stock product_with_id_key).
  rewrite updates_total_order. reflexivity.
Qed.

(** X10: no request for an invoice, accepted or rejected, makes a stock
    quantity negative. *)
Theorem create_invoice_keeps_stock_non_negative (current_user_id : Z)
    (invoice_data : InvoiceCreate.t) (db db' : Database)
    (r : result Invoice.t) :
  stock_non_negative db ->
  api_create_invoice env current_user_id invoice_data db = (db', r) ->
  stock_non_negative db'.
Proof.
  intros Hnn H. destruct r as [invoice | e].
  - apply api_create_invoice_run in H.
    destruct H as (business & customer & s6 & breakups & _ & _ & Hp & _ & ->
                   & _).
    apply process_items_stock_non_negative in Hp; [exact Hp | exact Hnn].
  - apply api_create_invoice_err in H. subst db'. exact Hnn.
Qed.

(** X11: creating an invoice and cancelling it brings the products
    table back to what it was, where product ids are keys (positive and
    pairwise different); the invoice stays in the table, cancelled, and
    the counter of the business keeps its increment, so the number is not
    issued again. *)
Theorem create_then_cancel_restores_products (current_user_id : Z)
    (invoice_data : InvoiceCreate.t) (reason : string) (db db' : Database)
    (invoice : Invoice.t) :
  product_ids_are_keys db ->
  api_create_invoice env current_user_id invoice_data db = (db', Ok invoice) ->
  exists db'' invoice',
    api_cancel_invoice env (Invoice.id invoice) reason db'
    = (db'', Ok invoice')
    /\ products db'' = products db
    /\ invoices db'' = invoices db ++ [invoice']
    /\ Invoice.invoice_number invoice' = Invoice.invoice_number invoice
    /\ Invoice.status invoice' = "CANCELLED"%string
    /\ business_profile db'' = business_profile db'
    /\ option_map BusinessProfile.current_invoice_number (business_profile db'')
       = option_map (fun b => BusinessProfile.current_invoice_number b + 1)
                    (business_profile db).
Proof.
  intros [Hnd Hpos] H.
  pose proof H as Hval. apply api_create_invoice_ok in Hval.
  destruct Hval as (business0 & s0 & _ & Hval & _).
  apply create_invoice_ok in Hval.
  destruct Hval as (_ & _ & _ & _ & _ & _ & _ & _ & _ & _ & _ & _ & _ & _
                    & Hcan & _).
  apply api_create_invoice_run in H.
  destruct H as (business & customer & s6 & breakups & Hb & _ & Hp & _ & ->
                 & Hps & Hid & Hnum).
  pose proof (process_items_valid_lines _ _ _ _ _ _ _ _ _ Hp)
    as (new_items & Hitems & Hmap & _).
  cbn [app] in Hitems. subst new_items.
  apply process_items_run in Hp; [| exact Hnd]. destruct Hp as (Hs6 & _).
  assert (Hfresh : forall y, In y (invoices db) ->
                             invoice_with_id (Invoice.id invoice) y = false).
  { intros y Hy. apply Z.eqb_neq. intros E.
    assert (Hin : In (Invoice.id invoice) (map Invoice.id (invoices db))).
    { rewrite <- E. apply in_map. exact Hy. }
    apply next_id_fresh in Hin. lia. }
  assert (Hfind :
    find (invoice_with_id (Invoice.id invoice)) (invoices db ++ [invoice])
    = Some invoice).
  { apply find_app_fresh; [exact Hfresh | apply Z.eqb_refl]. }
  eexists _, _. split.
  { apply cancel_invoice_run; [exact Hfind | exact Hcan]. }
  cbn [products invoices business_profile set_invoices set_business_profile
       set_products].
  split.
  { apply products_eq_by_id; [| exact Hnd |].
    - rewrite stock_only_apply_stock_updates. exact Hps.
    - intros pid.
      rewrite (find_apply_stock_updates product_with_id Z.eqb Z.eqb_eq
                 product_with_id_add_stock product_with_id_key).
      rewrite Hs6. cbn [pending products set_products SessionLocal].
      rewrite (find_apply_stock_updates product_with_id Z.eqb Z.eqb_eq
                 product_with_id_add_stock product_with_id_key).
      destruct (find (product_with_id pid) (products db)) as [p |] eqn:Ep;
        [| reflexivity].
      cbn [option_map]. rewrite add_stock_add_stock, updates_total_order.
      rewrite updates_total_restore.
      + rewrite (restored_quantity_ordered _ _ _ Hmap).
        replace (- ordered_quantity pid (InvoiceCreate.items invoice_data)
                 + ordered_quantity pid (InvoiceCreate.items invoice_data))
          with 0 by lia.
        rewrite add_stock_zero. reflexivity.
      + pose proof (find_some_product_with_id _ _ _ Ep) as Hpid.
        apply find_some in Ep. rewrite Forall_forall in Hpos.
        specialize (Hpos p (proj1 Ep)). lia. }
  split.
  { clear - Hfresh. induction (invoices db) as [| y l IH];
      cbn [app update_first].
    - unfold invoice_with_id. rewrite Z.eqb_refl. reflexivity.
    - rewrite (Hfresh y (or_introl eq_refl)). f_equal. apply IH.
      intros z Hz. apply Hfresh. right. exact Hz. }
  repeat (split; [reflexivity |]).
  rewrite Hb. reflexivity.
Qed.

End CreatedInvoice.

Section CreatedInvoiceSample.

Lemma gstin_checksum_detects_substitution_witness :
  _validate_gstin_checksum "29ABCDE1234F1ZW" = true
  /\ _validate_gstin_checksum "29ABCDE2234F1ZW" = false.
Proof.
  split; [reflexivity |].
  apply (gstin_checksum_detects_substitution
           (list_ascii_of_string "29ABCDE") (list_ascii_of_string "234F1ZW")
           "1"%char "2"%char);
    try reflexivity; discriminate.
Defined.

Lemma created_invoice_passed_validation_witness :
  exists db' invoice,
    api_create_invoice sample_env 1 (sample_order None) sample_db
    = (db', Ok invoice)
    /\ map (fun item => is_ascii_string (InvoiceItem.hsn_code item))
           (Invoice.items invoice) = [true; true]
    /\ date_leb (Invoice.invoice_date invoice) (today sample_env) = true
    /\ Forall (fun item =>
                 in_allowed_gst_rates (InvoiceItem.gst_rate item) = true
                 /\ (is_ascii_string (InvoiceItem.hsn_code item) = true ->
                     validate_hsn_code (InvoiceItem.hsn_code item) = true)
                 /\ 0 <= InvoiceItem.unit_price_paise item)
              (Invoice.items invoice).
Proof.
  destruct (api_create_invoice sample_env 1 (sample_order None) sample_db)
    as [db' [invoice | e]] eqn:E; [| vm_compute in E; discriminate E].
  exists db', invoice. split; [reflexivity |].
  split.
  { pose proof E as E'. vm_compute in E'. inversion E'. reflexivity. }
  destruct (created_invoice_passed_validation sample_env _ _ _ _ _ E)
    as (Hdate & _ & _ & Hall & _).
  split; [exact Hdate | exact Hall].
Defined.

Lemma create_invoice_appends_numbered_invoice_witness :
  exists db' invoice,
    api_create_invoice sample_env 1 (sample_order None) sample_db
    = (db', Ok invoice)
    /\ Invoice.invoice_number invoice = "INV000001"%string
    /\ invoices db' = [invoice].
Proof.
  destruct (api_create_invoice sample_env 1 (sample_order None) sample_db)
    as [db' [invoice | e]] eqn:E; [| vm_compute in E; discriminate E].
  exists db', invoice. split; [reflexivity |].
  destruct (create_invoice_appends_numbered_invoice sample_env _ _ _ _ _ E)
    as (business & Hb & Hnum & _ & _ & Hinv & _).
  cbn [business_profile sample_db] in Hb. inversion Hb; subst business.
  split; [exact Hnum | exact Hinv].
Defined.

Lemma create_invoice_reduces_stock_witness :
  NoDup (map Product.id (products sample_db))
  /\ exists db' invoice,
       api_create_invoice sample_env 1 (sample_order None) sample_db
       = (db', Ok invoice)
       /\ option_map Product.stock_quantity
            (find (product_with_id 2) (products db')) = Some 1.
Proof.
  assert (Hnd : NoDup (map Product.id (products sample_db))).
  { cbn. repeat constructor; cbn; intuition discriminate. }
  split; [exact Hnd |].
  destruct (api_create_invoice sample_env 1 (sample_order None) sample_db)
    as [db' [invoice | e]] eqn:E; [| vm_compute in E; discriminate E].
  exists db', invoice. split; [reflexivity |].
  rewrite (create_invoice_reduces_stock sample_env _ _ _ _ _ Hnd E 2).
  reflexivity.
Defined.

Lemma create_invoice_keeps_stock_non_negative_witness :
  stock_non_negative sample_db
  /\ stock_non_negative
       (fst (api_create_invoice sample_env 1 (sample_order None) sample_db)).
Proof.
  assert (Hnn : stock_non_negative sample_db).
  { unfold stock_non_negative. cbn. repeat constructor; cbn; lia. }
  split; [exact Hnn |].
  apply (create_invoice_keeps_stock_non_negative sample_env 1
           (sample_order None) sample_db _
           (snd (api_create_invoice sample_env 1 (sample_order None)
                   sample_db)) Hnn).
  apply surjective_pairing.
Defined.

Lemma create_then_cancel_restores_products_witness :
  product_ids_are_keys sample_db
  /\ exists db' invoice db'' invoice',
       api_create_invoice sample_env 1 (sample_order None) sample_db
       = (db', Ok invoice)
       /\ api_cancel_invoice sample_env (Invoice.id invoice) "returned" db'
          = (db'', Ok invoice')
       /\ products db'' = products sample_db.
Proof.
  assert (Hkeys : product_ids_are_keys sample_db).
  { split; cbn.
    - repeat constructor; cbn; intuition discriminate.
    - repeat constructor. }
  split; [exact Hkeys |].
  destruct (api_create_invoice sample_env 1 (sample_order None) sample_db)
    as [db' [invoice | e]] eqn:E; [| vm_compute in E; discriminate E].
  destruct (create_then_cancel_restores_products sample_env _ _ "returned"
              _ _ _ Hkeys E) as (db'' & invoice' & Hrun & Hps & _).
  exists db', invoice, db'', invoice'. repeat split; assumption.
Defined.

End CreatedInvoiceSample.

(* ================================================================== *)
(** * The sales register *)
(* ================================================================== *)

Lemma create_invoice_figures (env : Env) (invoice_data : InvoiceCreate.t)
    (current_user_id : Z) (business : BusinessProfile.t) (s s' : Session)
    (invoice : Invoice.t) :
  create_invoice env invoice_data current_user_id business s
  = (s', Ok invoice) ->
  Invoice.total_gst_paise invoice
  = Invoice.cgst_paise invoice + Invoice.sgst_paise invoice
    + Invoice.igst_paise invoice
  /\ Invoice.grand_total_paise invoice
     = Invoice.total_taxable_value_paise invoice
       + Invoice.total_gst_paise invoice
  /\ Invoice.cgst_paise invoice
     = py_sum cgst_paise (map item_tax_breakup (Invoice.items invoice))
  /\ Invoice.sgst_paise invoice
     = py_sum sgst_paise (map item_tax_breakup (Invoice.items invoice))
  /\ Invoice.igst_paise invoice
     = py_sum igst_paise (map item_tax_breakup (Invoice.items invoice))
  /\ Forall (line_from_tax_engine (BusinessProfile.state_code business)
                                  (Invoice.place_of_supply invoice))
            (Invoice.items invoice).
Proof.
  intros H. unfold create_invoice in H.
  apply bind_ok in H. destruct H as (s1 & u1 & _ & H).
  apply bind_ok in H. destruct H as (s2 & u2 & _ & H).
  apply bind_ok in H. destruct H as (s3 & found & _ & H).
  destruct found as [customer |]; [| discriminate H].
  apply bind_ok in H. destruct H as (s4 & u4 & _ & H).
  apply bind_ok in H. destruct H as (s5 & u5 & E5 & H).
  apply check_ok in E5. destruct E5 as [B5 _].
  apply negb_false_iff, String.eqb_eq in B5.
  apply bind_ok in H. destruct H as (s6 & [breakups items] & Hlines & H).
  apply bind_ok in H. destruct H as (s7 & u7 & _ & H).
  destruct (BusinessProfile.generate_invoice_number business)
    as [invoice_number business'].
  unfold bind, mutate, query, db_commit, ret in H.
  inversion H; subst invoice; clear H.
  cbn [Invoice.items Invoice.total_gst_paise Invoice.grand_total_paise
       Invoice.total_taxable_value_paise Invoice.cgst_paise
       Invoice.sgst_paise Invoice.igst_paise Invoice.place_of_supply].
  apply process_items_lines in Hlines; [| reflexivity | constructor].
  destruct Hlines as [Hmap Hall]. rewrite Hmap, B5.
  unfold aggregate_invoice_taxes.
  cbn [taxable_amount_paise cgst_paise sgst_paise igst_paise
       total_tax_paise total_amount_paise].
  repeat split; try reflexivity; try assumption; lia.
Qed.

Lemma py_sum_engine_lines (seller buyer : string) (l : list InvoiceItem.t) :
  Forall (line_from_tax_engine seller buyer) l ->
  if String.eqb seller buyer
  then py_sum igst_paise (map item_tax_breakup l) = 0
       /\ py_sum cgst_paise (map item_tax_breakup l)
          = py_sum sgst_paise (map item_tax_breakup l)
  else py_sum cgst_paise (map item_tax_breakup l) = 0
       /\ py_sum sgst_paise (map item_tax_breakup l) = 0.
Proof.
  rewrite !py_sum_total. intros Hall.
  induction Hall as [| item rest Hitem _ IH]; cbn [map total].
  - destruct (String.eqb seller buyer); split; reflexivity.
  - rewrite Hitem. unfold calculate_line_item_tax, calculate_gst.
    destruct (String.eqb seller buyer);
      cbn [cgst_paise sgst_paise igst_paise]; destruct IH as [I1 I2];
      rewrite ?I1, ?I2; split; lia.
Qed.




Section SalesRegister.

Variable env : Env.

(** X12: the tax of a created invoice sits where the two state codes
    put it (CGST equal to SGST and no IGST when the place of supply is the
    state of the business, IGST alone otherwise), the total GST is the sum
    of the three and the grand total is taxable value plus GST; so
    [is_interstate] holds only across states, and the sales register,
    which derives the split again from the place of supply and halves the
    total GST, shows for this invoice exactly the stored CGST, SGST and
    IGST. *)
Theorem created_invoice_split_matches_register (current_user_id : Z)
    (invoice_data : InvoiceCreate.t) (db db' : Database)
    (invoice : Invoice.t) :
  api_create_invoice env current_user_id invoice_data db = (db', Ok invoice) ->
  exists business,
    business_profile db = Some business
    /\ (if String.eqb (BusinessProfile.state_code business)
                      (Invoice.place_of_supply invoice)
        then Invoice.igst_paise invoice = 0
             /\ Invoice.cgst_paise invoice = Invoice.sgst_paise invoice
        else Invoice.cgst_paise invoice = 0
             /\ Invoice.sgst_paise invoice = 0)
    /\ Invoice.total_gst_paise invoice
       = Invoice.cgst_paise invoice + Invoice.sgst_paise invoice
         + Invoice.igst_paise invoice
    /\ Invoice.grand_total_paise invoice
       = Invoice.total_taxable_value_paise invoice
         + Invoice.total_gst_paise invoice
    /\ (is_interstate invoice = true ->
        BusinessProfile.state_code business
        <> Invoice.place_of_supply invoice)
    /\ let row := sales_register_row (business_profile db') invoice in
       (srr_cgst row == paise_to_rupees (Invoice.cgst_paise invoice))%Q
       /\ (srr_sgst row == paise_to_rupees (Invoice.sgst_paise invoice))%Q
       /\ (srr_igst row == paise_to_rupees (Invoice.igst_paise invoice))%Q
       /\ (srr_cgst row + srr_sgst row + srr_igst row == srr_total_gst row)%Q.
Proof.
  intros H. apply api_create_invoice_run in H.
  destruct H as (business & customer & s6 & breakups & Hb & H & _ & _ & ->
                 & _).
  apply create_invoice_figures in H.
  destruct H as (Hgst & Hgrand & Hc & Hs & Hi & Hall).
  apply py_sum_engine_lines in Hall. rewrite <- Hc, <- Hs, <- Hi in Hall.
  exists business. split; [exact Hb |]. split; [exact Hall |].
  split; [exact Hgst |]. split; [exact Hgrand |]. split.
  { unfold is_interstate. intros Hint E. apply String.eqb_eq in E.
    rewrite E in Hall. apply Z.gtb_lt in Hint. lia. }
  cbv zeta. unfold sales_register_row. cbv zeta.
  cbn [srr_cgst srr_sgst srr_igst srr_total_gst business_profile
       set_invoices set_business_profile is_intra_state
       BusinessProfile.generate_invoice_number snd
       BusinessProfile.state_code].
  rewrite String.eqb_sym. unfold Invoice.total_gst_rupees, paise_to_rupees.
  rewrite Hgst.
  destruct (String.eqb (BusinessProfile.state_code business)
                       (Invoice.place_of_supply invoice));
    destruct Hall as [H1 H2]; rewrite ?H1, ?H2, ?inject_Z_plus;
    change (inject_Z 0) with 0%Q; repeat split; field.
Qed.


End SalesRegister.

Section SalesRegisterSample.

Lemma created_invoice_split_matches_register_witness :
  exists db' invoice,
    api_create_invoice sample_env 1 (sample_order None) sample_db
    = (db', Ok invoice)
    /\ Invoice.total_gst_paise invoice
       = Invoice.cgst_paise invoice + Invoice.sgst_paise invoice
         + Invoice.igst_paise invoice.
Proof.
  destruct (api_create_invoice sample_env 1 (sample_order None) sample_db)
    as [db' [invoice | e]] eqn:E; [| vm_compute in E; discriminate E].
  exists db', invoice. split; [reflexivity |].
  destruct (created_invoice_split_matches_register sample_env _ _ _ _ _ E)
    as (business & _ & _ & Hgst & _).
  exact Hgst.
Defined.

(** Once the sample invoice is cancelled, the register of December still
    lists it, counts it as cancelled, and totals nothing; asked to
    include cancelled invoices, it totals its 243.88. *)
Example sample_register_after_cancellation :
  let db := fst (api_cancel_invoice sample_env 1 "returned" sample_db_sold) in
  let r := generate_sales_register db december_first december_last false None in
  let r' := generate_sales_register db december_first december_last true None in
  List.length (sr_rows r) = 1%nat
  /\ srs_count_invoices (sr_summary r) = 1%nat
  /\ srs_count_cancelled (sr_summary r) = 1%nat
  /\ Qeq_bool (srs_total_grand_total (sr_summary r)) 0 = true
  /\ Qeq_bool (srs_total_grand_total (sr_summary r')) (24388 # 100) = true.
Proof. vm_compute. repeat split. Qed.

End SalesRegisterSample.

(* ================================================================== *)
(** * The purchase lifecycle *)
(* ================================================================== *)

Lemma fold_left_add_total {A : Type} (f : A -> Z) (l : list A) (a : Z) :
  fold_left (fun acc x => acc + f x) l a = a + total f l.
Proof.
  revert a. induction l as [| x rest IH]; intros a; cbn [fold_left total];
    [lia | rewrite IH; lia].
Qed.

(** The loop of [calculate_purchase_invoice_totals] over the stored lines
    of a purchase runs the five accumulators of [create_purchase_invoice]. *)
Lemma purchase_totals_fold (supplier : Supplier.t) (business_state : string)
    (inputs : list PurchaseItemInput.t) :
  forall (q0 : Q) (a b c d : Z),
    fold_left
      (fun acc (line : PurchaseLine) =>
         let '(total_quantity, subtotal_value, cgst_total, sgst_total,
               igst_total) := acc in
         let '(quantity, unit_rate, gst_rate, supplier_state, business_state,
               _) := line in
         let item_tax :=
           calculate_purchase_item_tax quantity unit_rate gst_rate
             supplier_state business_state in
         ((total_quantity + quantity)%Q,
          subtotal_value + pit_subtotal item_tax,
          cgst_total + pit_cgst_amount item_tax,
          sgst_total + pit_sgst_amount item_tax,
          igst_total + pit_igst_amount item_tax))
      (map (purchase_line (Supplier.state_code supplier) business_state)
         (map (fun it => make_purchase_item (fst it) (snd it))
            (map (fun item_input =>
                    (item_input,
                     purchase_line_tax supplier business_state item_input))
                 inputs)))
      (q0, a, b, c, d)
    = (fold_left (fun acc it => (acc + PurchaseItemInput.quantity (fst it))%Q)
         (map (fun item_input =>
                 (item_input,
                  purchase_line_tax supplier business_state item_input))
              inputs) q0,
       fold_left (fun acc it => acc + pit_subtotal (snd it))
         (map (fun item_input =>
                 (item_input,
                  purchase_line_tax supplier business_state item_input))
              inputs) a,
       fold_left (fun acc it => acc + pit_cgst_amount (snd it))
         (map (fun item_input =>
                 (item_input,
                  purchase_line_tax supplier business_state item_input))
              inputs) b,
       fold_left (fun acc it => acc + pit_sgst_amount (snd it))
         (map (fun item_input =>
                 (item_input,
                  purchase_line_tax supplier business_state item_input))
              inputs) c,
       fold_left (fun acc it => acc + pit_igst_amount (snd it))
         (map (fun item_input =>
                 (item_input,
                  purchase_line_tax supplier business_state item_input))
              inputs) d).
Proof.
  induction inputs as [| item_input rest IH]; intros q0 a b c d;
    cbn [map fold_left]; [reflexivity |].
  cbn [purchase_line make_purchase_item fst snd PurchaseItem.quantity
       PurchaseItem.rate PurchaseItem.gst_rate PurchaseItem.item_name].
  rewrite IH. reflexivity.
Qed.

(** The header and the lines that [create_purchase_invoice] stores. *)
Lemma create_purchase_invoice_run (purchase : PurchaseInvoiceCreate.t)
    (db : Database) (supplier : Supplier.t) :
  find (active_supplier_with_id (PurchaseInvoiceCreate.supplier_id purchase))
       (suppliers db) = Some supplier ->
  exists p,
    api_create_purchase_invoice purchase db
    = (set_purchase_invoices (purchase_invoices db ++ [p]) db, Ok p)
    /\ PurchaseInvoice.id p
       = next_id (map PurchaseInvoice.id (purchase_invoices db))
    /\ PurchaseInvoice.status p = "Draft"%string
    /\ PurchaseInvoice.place_of_supply_code p = Supplier.state_code supplier
    /\ PurchaseInvoice.items p
       = map (fun it => make_purchase_item (fst it) (snd it))
           (map (fun item_input =>
                   (item_input,
                    purchase_line_tax supplier
                      (purchase_business_state_code db) item_input))
                (PurchaseInvoiceCreate.items purchase))
    /\ calculate_purchase_invoice_totals
         (map (purchase_line (Supplier.state_code supplier)
                 (purchase_business_state_code db))
              (PurchaseInvoice.items p))
       = {| pt_total_quantity := PurchaseInvoice.total_quantity p;
            pt_subtotal_value := PurchaseInvoice.subtotal_value p;
            pt_cgst_amount := PurchaseInvoice.cgst_amount p;
            pt_sgst_amount := PurchaseInvoice.sgst_amount p;
            pt_igst_amount := PurchaseInvoice.igst_amount p;
            pt_total_gst := PurchaseInvoice.total_gst p;
            pt_total_amount := PurchaseInvoice.total_amount p |}
    /\ PurchaseInvoice.subtotal_value p
       = py_sum (fun it => pit_subtotal (snd it))
           (map (fun item_input =>
                   (item_input,
                    purchase_line_tax supplier
                      (purchase_business_state_code db) item_input))
                (PurchaseInvoiceCreate.items purchase))
    /\ PurchaseInvoice.cgst_amount p
       = py_sum (fun it => pit_cgst_amount (snd it))
           (map (fun item_input =>
                   (item_input,
                    purchase_line_tax supplier
                      (purchase_business_state_code db) item_input))
                (PurchaseInvoiceCreate.items purchase))
    /\ PurchaseInvoice.sgst_amount p
       = py_sum (fun it => pit_sgst_amount (snd it))
           (map (fun item_input =>
                   (item_input,
                    purchase_line_tax supplier
                      (purchase_business_state_code db) item_input))
                (PurchaseInvoiceCreate.items purchase))
    /\ PurchaseInvoice.igst_amount p
       = py_sum (fun it => pit_igst_amount (snd it))
           (map (fun item_input =>
                   (item_input,
                    purchase_line_tax supplier
                      (purchase_business_state_code db) item_input))
                (PurchaseInvoiceCreate.items purchase))
    /\ PurchaseInvoice.total_gst p
       = PurchaseInvoice.cgst_amount p + PurchaseInvoice.sgst_amount p
         + PurchaseInvoice.igst_amount p
    /\ PurchaseInvoice.total_amount p
       = PurchaseInvoice.subtotal_value p + PurchaseInvoice.total_gst p.
Proof.
  intros Hfind. unfold active_supplier_with_id in Hfind.
  unfold api_create_purchase_invoice, get_db, create_purchase_invoice,
    SessionLocal.
  unfold bind at 1, query. cbn [pending]. rewrite Hfind.
  unfold bind, query, mutate, db_commit, ret. cbn [pending committed].
  fold (purchase_business_state_code db).
  eexists. split; [reflexivity |].
  cbn [PurchaseInvoice.id PurchaseInvoice.status
       PurchaseInvoice.place_of_supply_code PurchaseInvoice.items
       PurchaseInvoice.total_quantity PurchaseInvoice.subtotal_value
       PurchaseInvoice.cgst_amount PurchaseInvoice.sgst_amount
       PurchaseInvoice.igst_amount PurchaseInvoice.total_gst
       PurchaseInvoice.total_amount].
  repeat (split; [reflexivity |]).
  split; [| repeat split; reflexivity].
  unfold calculate_purchase_invoice_totals.
  rewrite purchase_totals_fold. reflexivity.
Qed.

Lemma create_purchase_invoice_no_supplier (purchase : PurchaseInvoiceCreate.t)
    (db : Database) :
  find (active_supplier_with_id (PurchaseInvoiceCreate.supplier_id purchase))
       (suppliers db) = None ->
  api_create_purchase_invoice purchase db
  = (db, Err {| status_code := 404; detail := SupplierNotFound |}).
Proof.
  intros Hfind. unfold active_supplier_with_id in Hfind.
  unfold api_create_purchase_invoice, get_db, create_purchase_invoice,
    SessionLocal.
  unfold bind at 1, query. cbn [pending]. rewrite Hfind. reflexivity.
Qed.


(** What [finalize_purchase] can leave behind. *)
Lemma api_finalize_purchase_cases (env : Env) (purchase_id : Z)
    (db : Database) :
  fst (api_finalize_purchase env purchase_id db) = db
  \/ exists purchase,
       find (purchase_with_id purchase_id) (purchase_invoices db)
       = Some purchase
       /\ fst (api_finalize_purchase env purchase_id db)
          = set_purchase_invoices
              (update_first (purchase_with_id purchase_id)
                 (fun _ => PurchaseInvoice.finalize (utc_now env) purchase)
                 (purchase_invoices db))
              (set_products
                 (apply_stock_updates active_product_with_hsn
                    (receive_updates (PurchaseInvoice.items purchase))
                    (products db))
                 db).
Proof.
  destruct (find (purchase_with_id purchase_id) (purchase_invoices db))
    as [purchase |] eqn:Hfind.
  - destruct (String.eqb (PurchaseInvoice.status purchase) "Finalized")
      eqn:Ef.
    { apply String.eqb_eq in Ef.
      rewrite (finalize_purchase_finalized env _ _ _ Hfind Ef). auto. }
    destruct (String.eqb (PurchaseInvoice.status purchase) "Cancelled")
      eqn:Ec.
    { apply String.eqb_eq in Ec.
      rewrite (finalize_purchase_cancelled env _ _ _ Hfind Ec). auto. }
    apply String.eqb_neq in Ef, Ec.
    rewrite (finalize_purchase_run env _ _ _ Hfind Ef Ec).
    destruct (missing_hsns (products db) (PurchaseInvoice.items purchase));
      [right; exists purchase; auto | auto].
  - left. unfold api_finalize_purchase, get_db, finalize_purchase,
      SessionLocal.
    unfold bind at 1, query. cbn [pending]. rewrite Hfind. reflexivity.
Qed.

Lemma Forall_update_first_const {A : Type} (P : A -> Prop) (p : A -> bool)
    (y : A) (l : list A) :
  Forall P l -> P y -> Forall P (update_first p (fun _ => y) l).
Proof.
  intros Hl Hy. apply Forall_update_first; [exact Hl |]. intros; exact Hy.
Qed.

Section PurchaseLifecycle.

Variable env : Env.


(** X15: [calculate_purchase_invoice_totals], run on the lines of a
    purchase as [create_purchase_invoice] has stored them, with the state
    codes of the supplier and of the business, returns the seven totals
    of the stored header. *)
Theorem purchase_totals_agree_with_header (purchase : PurchaseInvoiceCreate.t)
    (db db' : Database) (p : PurchaseInvoice.t) :
  api_create_purchase_invoice purchase db = (db', Ok p) ->
  calculate_purchase_invoice_totals
    (map (purchase_line (PurchaseInvoice.place_of_supply_code p)
            (purchase_business_state_code db))
         (PurchaseInvoice.items p))
  = {| pt_total_quantity := PurchaseInvoice.total_quantity p;
       pt_subtotal_value := PurchaseInvoice.subtotal_value p;
       pt_cgst_amount := PurchaseInvoice.cgst_amount p;
       pt_sgst_amount := PurchaseInvoice.sgst_amount p;
       pt_igst_amount := PurchaseInvoice.igst_amount p;
       pt_total_gst := PurchaseInvoice.total_gst p;
       pt_total_amount := PurchaseInvoice.total_amount p |}.
Proof.
  intros H.
  destruct (find (active_supplier_with_id
                    (PurchaseInvoiceCreate.supplier_id purchase))
              (suppliers db)) as [supplier |] eqn:Hfind.
  - destruct (create_purchase_invoice_run purchase db supplier Hfind)
      as (p' & Hrun & _ & _ & Hcode & _ & Htotals & _).
    rewrite Hrun in H. inversion H; subst p'. rewrite Hcode. exact Htotals.
  - rewrite (create_purchase_invoice_no_supplier _ _ Hfind) in H.
    discriminate H.
Qed.

(** X16: cancelling a purchase that does not exist fails with status
    404, and one that is already cancelled with status 400, and neither
    changes anything. Any other purchase, a finalized one included, is
    stored as Cancelled with the reason and the timestamp; the stock that
    a finalized purchase brought in stays where it is; and from then on the
    purchase can neither be cancelled again nor be finalized. *)
Theorem cancel_purchase_is_final (purchase_id : Z) (reason reason' : string)
    (db : Database) :
  match find (purchase_with_id purchase_id) (purchase_invoices db) with
  | None =>
      api_cancel_purchase env purchase_id reason db
      = (db, inl {| http_status := 404;
                    http_detail := "Purchase invoice not found" |})
  | Some purchase =>
      if String.eqb (PurchaseInvoice.status purchase) "Cancelled"
      then api_cancel_purchase env purchase_id reason db
           = (db, inl {| http_status := 400;
                         http_detail := "Purchase is already cancelled" |})
      else
        exists db' purchase',
          api_cancel_purchase env purchase_id reason db = (db', inr purchase')
          /\ PurchaseInvoice.status purchase' = "Cancelled"%string
          /\ PurchaseInvoice.cancel_reason purchase' = Some reason
          /\ PurchaseInvoice.cancelled_at purchase' = Some (utc_now env)
          /\ PurchaseInvoice.finalized_at purchase'
             = PurchaseInvoice.finalized_at purchase
          /\ PurchaseInvoice.items purchase' = PurchaseInvoice.items purchase
          /\ PurchaseInvoice.total_amount purchase'
             = PurchaseInvoice.total_amount purchase
          /\ products db' = products db
          /\ invoices db' = invoices db
          /\ purchase_invoices db'
             = update_first (purchase_with_id purchase_id)
                 (fun _ => purchase') (purchase_invoices db)
          /\ find (purchase_with_id purchase_id) (purchase_invoices db')
             = Some purchase'
          /\ api_cancel_purchase env purchase_id reason' db'
             = (db', inl {| http_status := 400;
                            http_detail := "Purchase is already cancelled" |})
          /\ api_finalize_purchase env purchase_id db'
             = (db', Err {| status_code := 400;
                            detail := PurchaseIsCancelled |})
  end.
Proof.
  assert (Hrun : api_cancel_purchase env purchase_id reason db
                 = let (s, r) := cancel_purchase env purchase_id reason
                                   (SessionLocal db) in (committed s, r))
    by reflexivity.
  unfold cancel_purchase in Hrun. cbn [SessionLocal pending] in Hrun.
  destruct (find (purchase_with_id purchase_id) (purchase_invoices db))
    as [purchase |] eqn:Hfind; [| exact Hrun].
  destruct (String.eqb (PurchaseInvoice.status purchase) "Cancelled") eqn:Ec;
    [exact Hrun |].
  cbn [committed] in Hrun.
  assert (Hfind' :
    find (purchase_with_id purchase_id)
         (update_first (purchase_with_id purchase_id)
            (fun _ => mark_purchase_cancelled (utc_now env) reason purchase)
            (purchase_invoices db))
    = Some (mark_purchase_cancelled (utc_now env) reason purchase)).
  { rewrite find_update_first_same, Hfind; [reflexivity |].
    intros x _. apply find_some in Hfind. exact (proj2 Hfind). }
  eexists _, _. split; [exact Hrun |].
  cbn [products invoices purchase_invoices set_purchase_invoices
       mark_purchase_cancelled PurchaseInvoice.status
       PurchaseInvoice.cancel_reason PurchaseInvoice.cancelled_at
       PurchaseInvoice.finalized_at PurchaseInvoice.items
       PurchaseInvoice.total_amount].
  repeat (split; [reflexivity |]).
  split; [exact Hfind' |]. split.
  - unfold api_cancel_purchase, cancel_purchase.
    cbn [SessionLocal pending committed purchase_invoices
         set_purchase_invoices].
    rewrite Hfind'. reflexivity.
  - apply (finalize_purchase_cancelled env _ _
             (mark_purchase_cancelled (utc_now env) reason purchase));
      [exact Hfind' | reflexivity].
Qed.

(** X17: the three purchase requests (record, finalize, cancel) keep
    every stored purchase in one of the states Draft, Finalized and
    Cancelled, whether they succeed or fail. *)
Theorem purchase_lifecycle_keeps_statuses (db : Database) :
  purchase_statuses_known db ->
  (forall purchase,
     purchase_statuses_known (fst (api_create_purchase_invoice purchase db)))
  /\ (forall purchase_id,
        purchase_statuses_known
          (fst (api_finalize_purchase env purchase_id db)))
  /\ (forall purchase_id reason,
        purchase_statuses_known
          (fst (api_cancel_purchase env purchase_id reason db))).
Proof.
  unfold purchase_statuses_known. intros Hdb. split; [| split].
  - intros purchase.
    destruct (find (active_supplier_with_id
                      (PurchaseInvoiceCreate.supplier_id purchase))
                (suppliers db)) as [supplier |] eqn:Hfind.
    + destruct (create_purchase_invoice_run purchase db supplier Hfind)
        as (p & Hrun & _ & Hst & _).
      rewrite Hrun. cbn [fst purchase_invoices set_purchase_invoices].
      apply Forall_app. split; [exact Hdb |].
      constructor; [| constructor]. rewrite Hst. cbn [In]. auto.
    + rewrite (create_purchase_invoice_no_supplier _ _ Hfind). exact Hdb.
  - intros purchase_id.
    destruct (api_finalize_purchase_cases env purchase_id db)
      as [-> | (purchase & _ & ->)]; [exact Hdb |].
    cbn [purchase_invoices set_purchase_invoices].
    apply Forall_update_first_const; [exact Hdb |]. cbn [In]. auto.
  - intros purchase_id reason.
    unfold api_cancel_purchase, cancel_purchase.
    cbn [SessionLocal pending].
    destruct (find (purchase_with_id purchase_id) (purchase_invoices db))
      as [purchase |]; [| exact Hdb].
    destruct (String.eqb (PurchaseInvoice.status purchase) "Cancelled");
      [exact Hdb |].
    cbn [fst committed purchase_invoices set_purchase_invoices].
    apply Forall_update_first_const; [exact Hdb |]. cbn [In]. auto.
Qed.

End PurchaseLifecycle.

Section PurchaseLifecycleSample.

Lemma purchase_totals_agree_with_header_witness :
  exists db' p,
    api_create_purchase_invoice sample_purchase_order sample_db = (db', Ok p)
    /\ pt_total_gst
         (calculate_purchase_invoice_totals
            (map (purchase_line (PurchaseInvoice.place_of_supply_code p)
                    (purchase_business_state_code sample_db))
                 (PurchaseInvoice.items p)))
       = PurchaseInvoice.total_gst p.
Proof.
  destruct (api_create_purchase_invoice sample_purchase_order sample_db)
    as [db' [p | e]] eqn:E; [| vm_compute in E; discriminate E].
  exists db', p. split; [reflexivity |].
  rewrite (purchase_totals_agree_with_header _ _ _ _ E). reflexivity.
Defined.

Lemma purchase_lifecycle_keeps_statuses_witness :
  purchase_statuses_known sample_db_finalized
  /\ purchase_statuses_known
       (fst (api_cancel_purchase sample_env 1 "duplicate" sample_db_finalized)).
Proof.
  assert (H : purchase_statuses_known sample_db_finalized).
  { unfold purchase_statuses_known. vm_compute.
    constructor; [right; left; reflexivity | constructor]. }
  split; [exact H |].
  apply (proj2 (proj2 (purchase_lifecycle_keeps_statuses sample_env _ H))).
Defined.

(** The sample purchase is recorded as a Draft of 125.00 taxable and
    22.50 of IGST without touching the stock; once finalized it can still
    be cancelled, and the two units that it brought in stay in stock. *)
Example sample_purchase_cancelled_after_finalize :
  map PurchaseInvoice.status (purchase_invoices sample_db_purchased)
  = ["Draft"%string]
  /\ map PurchaseInvoice.total_amount (purchase_invoices sample_db_purchased)
     = [14750]
  /\ map Product.stock_quantity (products sample_db_purchased) = [10; 4]
  /\ map Product.stock_quantity (products sample_db_finalized) = [12; 4]
  /\ (let db := fst (api_cancel_purchase sample_env 1 "duplicate"
                       sample_db_finalized) in
      map PurchaseInvoice.status (purchase_invoices db) = ["Cancelled"%string]
      /\ map Product.stock_quantity (products db) = [12; 4]).
Proof. vm_compute. repeat split. Qed.


Lemma gst_summary_input_is_zero_witness :
  Forall (fun p => In (PurchaseInvoice.status p)
                      ["Draft"; "Finalized"; "Cancelled"]%string)
         (purchase_invoices sample_db_finalized)
  /\ exists r,
       generate_gst_summary sample_db_finalized december_first december_last
       = Ok r
       /\ (gs_total (input_gst r) == 0)%Q.
Proof.
  assert (H : Forall (fun p => In (PurchaseInvoice.status p)
                                  ["Draft"; "Finalized"; "Cancelled"]%string)
                     (purchase_invoices sample_db_finalized)).
  { vm_compute. constructor; [right; left; reflexivity | constructor]. }
  split; [exact H |].
  destruct (gst_summary_input_is_zero sample_db_finalized december_first
              december_last H) as (r & Hr & Hzero & _).
  exists r. split; assumption.
Defined.

End PurchaseLifecycleSample.

(* ================================================================== *)
(** * Invoice numbers stay unique *)
(* ================================================================== *)

Lemma api_cancel_invoice_cases (env : Env) (invoice_id : Z) (reason : string)
    (db : Database) :
  fst (api_cancel_invoice env invoice_id reason db) = db
  \/ exists invoice,
       find (invoice_with_id invoice_id) (invoices db) = Some invoice
       /\ fst (api_cancel_invoice env invoice_id reason db)
          = set_invoices
              (update_first (invoice_with_id invoice_id)
                 (cancelled_invoice env reason) (invoices db))
              (set_products
                 (apply_stock_updates product_with_id
                    (restore_updates (Invoice.items invoice)) (products db))
                 db).
Proof.
  destruct (find (invoice_with_id invoice_id) (invoices db))
    as [invoice |] eqn:Hfind.
  - destruct (Invoice.is_cancelled invoice) eqn:Ec.
    + rewrite (cancel_invoice_twice env _ _ _ _ Hfind Ec). auto.
    + rewrite (cancel_invoice_run env _ _ _ _ Hfind Ec). right.
      exists invoice. split; [reflexivity |]. cbn [fst].
      rewrite (update_first_found _ (cancelled_invoice env reason) _ _ Hfind).
      reflexivity.
  - left. unfold api_cancel_invoice, get_db, cancel_invoice, SessionLocal.
    unfold bind at 1, query. cbn [pending]. rewrite Hfind. reflexivity.
Qed.

Section InvoiceNumbersUnique.

Variable env : Env.

(** X20: invoice numbers stay unique. When the stored invoices carry
    pairwise different numbers, each the prefix followed by a counter
    value below the current counter of the business, then this is so
    again after any request to create or to cancel an invoice, accepted
    or rejected; and the invoice that a successful creation returns is the
    one that [get_invoice_by_number] finds under its number. *)
Theorem invoice_numbers_stay_unique (db : Database) :
  invoice_numbers_issued db ->
  (forall current_user_id invoice_data,
     invoice_numbers_issued
       (fst (api_create_invoice env current_user_id invoice_data db)))
  /\ (forall invoice_id reason,
        invoice_numbers_issued
          (fst (api_cancel_invoice env invoice_id reason db)))
  /\ (forall current_user_id invoice_data db' invoice,
        api_create_invoice env current_user_id invoice_data db
        = (db', Ok invoice) ->
        get_invoice_by_number (Invoice.invoice_number invoice)
          (SessionLocal db')
        = (SessionLocal db', Ok (Some invoice))).
Proof.
  intros [Hnd Hissued].
  assert (Hnew : forall current_user_id invoice_data db' invoice,
    api_create_invoice env current_user_id invoice_data db
    = (db', Ok invoice) ->
    exists business,
      business_profile db = Some business
      /\ 0 <= BusinessProfile.current_invoice_number business
      /\ invoices db' = invoices db ++ [invoice]
      /\ business_profile db'
         = Some (snd (BusinessProfile.generate_invoice_number business))
      /\ Invoice.invoice_number invoice
         = (BusinessProfile.invoice_prefix business
            ++ format_06d (BusinessProfile.current_invoice_number business))%string
      /\ forall i, In i (invoices db) ->
                   Invoice.invoice_number i <> Invoice.invoice_number invoice).
  { intros current_user_id invoice_data db' invoice H.
    apply api_create_invoice_run in H.
    destruct H as (business & customer & s6 & breakups & Hb & _ & _ & _ & ->
                   & _ & _ & Hnum).
    rewrite Hb in Hissued. destruct Hissued as [H0 Hall].
    exists business. repeat (split; [first [assumption | reflexivity] |]).
    intros i Hi E. rewrite Forall_forall in Hall.
    destruct (Hall i Hi) as (k & Hk & Hik).
    rewrite Hik, Hnum in E.
    cbn [BusinessProfile.generate_invoice_number fst] in E.
    apply string_append_inj in E. apply (f_equal parse_decimal) in E.
    rewrite !format_06d_parse in E by lia. inversion E. lia. }
  split; [| split].
  - intros current_user_id invoice_data.
    destruct (api_create_invoice env current_user_id invoice_data db)
      as [db' [invoice | e]] eqn:H; cbn [fst].
    + destruct (Hnew _ _ _ _ H)
        as (business & Hb & H0 & Hinv & Hb' & Hnum & Hfresh).
      unfold invoice_numbers_issued. rewrite Hinv, Hb'.
      rewrite Hb in Hissued. destruct Hissued as [_ Hall].
      split; [| split].
      * rewrite map_app. cbn [map].
        apply NoDup_app; [exact Hnd | repeat constructor; intros [] |].
        intros n Hn [<- | []]. apply in_map_iff in Hn.
        destruct Hn as (i & Hi & Hin). exact (Hfresh i Hin Hi).
      * cbn. lia.
      * apply Forall_app. split.
        -- eapply Forall_impl; [| exact Hall].
           intros i (k & Hk & Hik). exists k. split; [cbn; lia | exact Hik].
        -- constructor; [| constructor].
           exists (BusinessProfile.current_invoice_number business).
           split; [cbn; lia | exact Hnum].
    + apply api_create_invoice_err in H. subst db'. split; assumption.
  - intros invoice_id reason.
    destruct (api_cancel_invoice_cases env invoice_id reason db)
      as [-> | (invoice & Hfind & ->)]; [split; assumption |].
    unfold invoice_numbers_issued.
    cbn [invoices business_profile set_invoices set_products]. split.
    + rewrite map_update_first; [exact Hnd | reflexivity].
    + destruct (business_profile db) as [b |]; [| exact I].
      destruct Hissued as [H0 Hall]. split; [exact H0 |].
      apply Forall_update_first; [exact Hall |].
      intros x Hx _. rewrite Forall_forall in Hall. exact (Hall x Hx).
  - intros current_user_id invoice_data db' invoice H.
    destruct (Hnew _ _ _ _ H) as (business & _ & _ & Hinv & _ & _ & Hfresh).
    unfold get_invoice_by_number, query. cbn [pending SessionLocal].
    rewrite Hinv, find_app_fresh; [reflexivity | | apply String.eqb_refl].
    intros y Hy. apply String.eqb_neq. exact (Hfresh y Hy).
Qed.

End InvoiceNumbersUnique.

Section InvoiceNumbersUniqueSample.

Lemma invoice_numbers_stay_unique_witness :
  invoice_numbers_issued sample_db
  /\ invoice_numbers_issued sample_db_sold.
Proof.
  assert (H : invoice_numbers_issued sample_db).
  { split; cbn; [constructor | split; [lia | constructor]]. }
  split; [exact H |].
  apply (proj1 (invoice_numbers_stay_unique sample_env sample_db H) 1
           (sample_order None)).
Defined.

End InvoiceNumbersUniqueSample.

(* ================================================================== *)
(** * An invoice never sells more than is in stock *)
(* ================================================================== *)

Lemma find_active_is_find_by_id (pid : Z) (ps : list Product.t)
    (product : Product.t) :
  NoDup (map Product.id ps) ->
  find (active_product_with_id pid) ps = Some product ->
  find (product_with_id pid) ps = Some product.
Proof.
  induction ps as [| x rest IH]; cbn [find map]; [discriminate |].
  intros Hnd Hfind. inversion Hnd as [| ? ? Hnotin Hnd']; subst.
  unfold active_product_with_id, product_with_id in *.
  destruct (Product.id x =? pid) eqn:Eid; cbn [andb] in *.
  - destruct (Product.is_active x); [exact Hfind |].
    exfalso. apply find_some in Hfind. destruct Hfind as [Hin Hp].
    apply andb_true_iff in Hp. destruct Hp as [Hp _].
    apply Z.eqb_eq in Eid, Hp. apply Hnotin.
    rewrite Eid, <- Hp. apply in_map. exact Hin.
  - exact (IH Hnd' Hfind).
Qed.

Lemma ordered_quantity_unnamed (pid : Z) (items : list InvoiceItemCreate.t) :
  existsb (fun d => InvoiceItemCreate.product_id d =? pid) items = false ->
  ordered_quantity pid items = 0.
Proof.
  unfold ordered_quantity.
  induction items as [| d rest IH]; cbn [existsb filter total];
    [reflexivity |].
  destruct (InvoiceItemCreate.product_id d =? pid); cbn [orb];
    [discriminate | exact IH].
Qed.

Lemma ordered_quantity_cons (pid : Z) (d : InvoiceItemCreate.t)
    (rest : list InvoiceItemCreate.t) :
  ordered_quantity pid (d :: rest)
  = (if InvoiceItemCreate.product_id d =? pid
     then InvoiceItemCreate.quantity d else 0)
    + ordered_quantity pid rest.
Proof.
  unfold ordered_quantity. cbn [filter].
  destruct (InvoiceItemCreate.product_id d =? pid); reflexivity.
Qed.

(** Every line of a completed loop named an active product, and the
    lines naming one product together asked for no more than its stock. *)
Lemma process_items_within_stock (business : BusinessProfile.t)
    (customer : Customer.t) (items : list InvoiceItemCreate.t) :
  forall breakups invoice_items s s' res,
    process_items business customer items breakups invoice_items s
    = (s', Ok res) ->
    NoDup (map Product.id (products (pending s))) ->
    forall d, In d items ->
      exists p,
        find (product_with_id (InvoiceItemCreate.product_id d))
             (products (pending s)) = Some p
        /\ Product.is_active p = true
        /\ ordered_quantity (InvoiceItemCreate.product_id d) items
           <= Product.stock_quantity p.
Proof.
  induction items as [| d0 rest IH];
    intros breakups invoice_items s s' res H Hnd d Hin;
    [contradiction |].
  cbn [process_items] in H.
  apply bind_ok in H. destruct H as (s1 & found & Hq & H).
  inversion Hq; subst s1 found; clear Hq.
  destruct (find (active_product_with_id (InvoiceItemCreate.product_id d0))
              (products (pending s))) as [product |] eqn:Hfind;
    [| discriminate H].
  apply bind_ok in H. destruct H as (s2 & u & Hv & H).
  apply validate_product_pure in Hv. subst s2.
  unfold Product.reduce_stock in H.
  destruct (Product.stock_quantity product
            >=? InvoiceItemCreate.quantity d0) eqn:Hs; cbn [negb] in H.
  2: { apply bind_ok in H. destruct H as (s3 & u' & _ & H). discriminate H. }
  apply Z.geb_le in Hs.
  apply bind_ok in H. destruct H as (s3 & u' & Hm & H).
  inversion Hm; subst s3; clear Hm.
  assert (Eup :
    update_first
      (active_product_with_id (InvoiceItemCreate.product_id d0))
      (fun _ => Product.set_stock_quantity
                  (Product.stock_quantity product
                   - InvoiceItemCreate.quantity d0) product)
      (products (pending s))
    = update_first
        (product_with_id (InvoiceItemCreate.product_id d0))
        (Product.add_stock (- InvoiceItemCreate.quantity d0))
        (products (pending s))).
  { rewrite <- (update_first_active_by_id _ _ _ _ Hnd Hfind).
    apply (update_first_found _
             (Product.add_stock (- InvoiceItemCreate.quantity d0))
             _ _ Hfind). }
  cbn [pending products set_products] in H.
  specialize (IH _ _ _ _ _ H). cbn [pending products set_products] in IH.
  rewrite Eup in IH.
  assert (Hnd1 : NoDup (map Product.id
                          (update_first
                             (product_with_id
                                (InvoiceItemCreate.product_id d0))
                             (Product.add_stock
                                (- InvoiceItemCreate.quantity d0))
                             (products (pending s))))).
  { rewrite map_update_first; [exact Hnd | reflexivity]. }
  specialize (IH Hnd1).
  pose proof (find_active_is_find_by_id _ _ _ Hnd Hfind) as Hbyid.
  assert (Hact : Product.is_active product = true).
  { apply find_some in Hfind. destruct Hfind as [_ Hp].
    apply andb_true_iff in Hp. exact (proj2 Hp). }
  rewrite ordered_quantity_cons.
  destruct (InvoiceItemCreate.product_id d0
            =? InvoiceItemCreate.product_id d) eqn:Esame.
  - apply Z.eqb_eq in Esame. rewrite <- Esame.
    exists product. split; [exact Hbyid |]. split; [exact Hact |].
    destruct (existsb (fun d' => InvoiceItemCreate.product_id d'
                                 =? InvoiceItemCreate.product_id d0) rest)
      eqn:Ex.
    + apply existsb_exists in Ex. destruct Ex as (d' & Hin' & Hd').
      apply Z.eqb_eq in Hd'.
      destruct (IH d' Hin') as (p1 & Hp1 & _ & Hle).
      rewrite Hd' in Hp1, Hle.
      rewrite find_update_first_same, Hbyid in Hp1 by (intros; assumption).
      inversion Hp1; subst p1.
      cbn [Product.add_stock Product.set_stock_quantity
           Product.stock_quantity] in Hle. lia.
    + rewrite (ordered_quantity_unnamed _ _ Ex). lia.
  - destruct Hin as [-> | Hin]; [rewrite Z.eqb_refl in Esame; discriminate |].
    destruct (IH d Hin) as (p1 & Hp1 & Hact1 & Hle).
    rewrite find_update_first_other in Hp1.
    + exists p1. auto.
    + intros; reflexivity.
    + intros x Hx. unfold product_with_id in *. apply Z.eqb_eq in Hx.
      rewrite Hx. exact Esame.
Qed.

Section NeverOversells.

Variable env : Env.

(** X21: an invoice never sells more than is in stock: where product
    ids are pairwise different, every line of an accepted request names a
    product that exists and is active, and the quantities of all the lines
    naming that product add up to no more than the stock it had. *)
Theorem create_invoice_never_oversells (current_user_id : Z)
    (invoice_data : InvoiceCreate.t) (db db' : Database)
    (invoice : Invoice.t) :
  NoDup (map Product.id (products db)) ->
  api_create_invoice env current_user_id invoice_data db = (db', Ok invoice) ->
  Forall (fun d =>
            exists p,
              find (product_with_id (InvoiceItemCreate.product_id d))
                   (products db) = Some p
              /\ Product.is_active p = true
              /\ ordered_quantity (InvoiceItemCreate.product_id d)
                   (InvoiceCreate.items invoice_data)
                 <= Product.stock_quantity p)
         (InvoiceCreate.items invoice_data).
Proof.
  intros Hnd H. apply api_create_invoice_run in H.
  destruct H as (business & customer & s6 & breakups & _ & _ & Hp & _).
  apply Forall_forall. intros d Hin.
  exact (process_items_within_stock _ _ _ _ _ _ _ _ Hp Hnd d Hin).
Qed.

(** X22: the purchase register never shows a purchase that the purchase
    lifecycle has stored. The lifecycle writes the states Draft, Finalized
    and Cancelled, the register selects FINAL and CANCELLED, so it returns
    no row, counts no purchase and totals 0.00, cancelled purchases
    included; and whenever its query does select a purchase, the report is
    not produced at all: it fails on an attribute that purchases do not
    have. *)
Theorem purchase_register_lists_nothing (db : Database)
    (from_date to_date : date) (include_cancelled : bool)
    (supplier_id : option Z) :
  (purchase_statuses_known db ->
   exists r,
     generate_purchase_register db from_date to_date include_cancelled
       supplier_id = Ok r
     /\ pr_rows r = []
     /\ prs_count_purchases (pr_summary r) = 0%nat
     /\ prs_count_cancelled (pr_summary r) = 0%nat
     /\ (prs_total_input_gst (pr_summary r) == 0)%Q
     /\ (prs_total_grand_total (pr_summary r) == 0)%Q)
  /\ (purchase_register_query db from_date to_date supplier_id <> [] ->
      generate_purchase_register db from_date to_date include_cancelled
        supplier_id
      = Err {| status_code := 500;
               detail := NoSuchAttribute "total_taxable_value_rupees" |}).
Proof.
  split.
  - unfold purchase_statuses_known. intros Hall.
    assert (Hnone :
      purchase_register_query db from_date to_date supplier_id = []).
    { unfold purchase_register_query.
      induction Hall as [| p rest Hp _ IH]; cbn [filter]; [reflexivity |].
      assert (E : String.eqb (PurchaseInvoice.status p) "FINAL"
                  || String.eqb (PurchaseInvoice.status p) "CANCELLED"
                  = false).
      { cbn [In] in Hp.
        destruct Hp as [<- | [<- | [<- | []]]]; reflexivity. }
      rewrite E, andb_false_r. cbn [andb]. exact IH. }
    unfold generate_purchase_register. rewrite Hnone.
    eexists. split; [reflexivity |].
    cbn [pr_rows pr_summary prs_count_purchases prs_count_cancelled
         prs_total_input_gst prs_total_grand_total].
    repeat split; reflexivity.
  - unfold generate_purchase_register.
    destruct (purchase_register_query db from_date to_date supplier_id);
      [intros H; contradiction | reflexivity].
Qed.

End NeverOversells.

Section NeverOversellsSample.

Lemma create_invoice_never_oversells_witness :
  NoDup (map Product.id (products sample_db))
  /\ exists db' invoice,
       api_create_invoice sample_env 1 (sample_order None) sample_db
       = (db', Ok invoice)
       /\ Forall (fun d =>
                    exists p,
                      find (product_with_id (InvoiceItemCreate.product_id d))
                           (products sample_db) = Some p
                      /\ Product.is_active p = true
                      /\ ordered_quantity (InvoiceItemCreate.product_id d)
                           (InvoiceCreate.items (sample_order None))
                         <= Product.stock_quantity p)
                 (InvoiceCreate.items (sample_order None)).
Proof.
  assert (Hnd : NoDup (map Product.id (products sample_db))).
  { cbn. repeat constructor; cbn; intuition discriminate. }
  split; [exact Hnd |].
  destruct (api_create_invoice sample_env 1 (sample_order None) sample_db)
    as [db' [invoice | e]] eqn:E; [| vm_compute in E; discriminate E].
  exists db', invoice. split; [reflexivity |].
  exact (create_invoice_never_oversells sample_env _ _ _ _ _ Hnd E).
Defined.

(** Five gadgets are more than the four in stock: the request is
    rejected and nothing changes. The register of purchases of December
    is empty although the sample purchase was finalized on 10 December. *)
Example sample_order_oversold :
  let order :=
    {| InvoiceCreate.customer_id := 1;
       InvoiceCreate.invoice_date := {| year := 2025; month := 12; day := 26 |};
       InvoiceCreate.place_of_supply := None;
       InvoiceCreate.items :=
         [ {| InvoiceItemCreate.product_id := 2;
              InvoiceItemCreate.quantity := 3;
              InvoiceItemCreate.description := None |};
           {| InvoiceItemCreate.product_id := 2;
              InvoiceItemCreate.quantity := 2;
              InvoiceItemCreate.description := None |} ];
       InvoiceCreate.client_totals := None |} in
  api_create_invoice sample_env 1 order sample_db
  = (sample_db,
     Err {| status_code := 400;
            detail := InsufficientStock "Gadget" 1 2 |})
  /\ match generate_purchase_register sample_db_finalized december_first
             december_last true None with
     | Ok r => pr_rows r = [] /\ prs_count_purchases (pr_summary r) = 0%nat
     | Err _ => False
     end.
Proof. vm_compute. repeat split. Qed.

End NeverOversellsSample.
